(** * stability_sdk.api: request orchestration and multi-backend storage

    A shallow embedding of [src/stability_sdk/api.py] (and the helpers of
    [src/stability_sdk/utils.py] it calls): the retry loop of
    [Context._run_request], the request adjustment performed on a classifier
    obfuscation, the chain builders, the two storage backends and the
    [Project] aggregate with its metadata index.

    Conventions of the embedding:
    - Python objects mutated in place (a request, the class-level metadata
      index) are threaded explicitly: a function returns the new value.
    - Effects (remote calls, sleeping, the filesystem, uuid generation) live
      in an error/state monad [M] over a [World]; the remote service, the
      uuid source and the refusal of filesystem writes are oracles of [Env].
    - Python floats are modelled by exact rationals [Q]; rounding of the
      32 bit wire fields is not modelled.
    - Image codecs (cv2, PIL) are kept symbolic: constructors of [Image]. *)

From Stdlib Require Import ZArith QArith Lia Lqa Ascii String DecimalString DecimalNat.
From stdpp Require Import base gmap strings list.

Set Default Proof Using "Type".
Local Open Scope Z_scope.

(** ** Wire messages (the fields of generation.proto the client touches) *)

Inductive ArtifactType :=
  | ARTIFACT_NONE
  | ARTIFACT_IMAGE
  | ARTIFACT_VIDEO
  | ARTIFACT_TEXT
  | ARTIFACT_CLASSIFICATIONS
  | ARTIFACT_MASK
  | ARTIFACT_TENSOR
  | ARTIFACT_DEPTH.

Definition ArtifactType_to_nat (t : ArtifactType) : nat :=
  match t with
  | ARTIFACT_NONE => 0 | ARTIFACT_IMAGE => 1 | ARTIFACT_VIDEO => 2
  | ARTIFACT_TEXT => 3 | ARTIFACT_CLASSIFICATIONS => 4 | ARTIFACT_MASK => 5
  | ARTIFACT_TENSOR => 6 | ARTIFACT_DEPTH => 7
  end%nat.

Definition ArtifactType_of_nat (n : nat) : ArtifactType :=
  match n with
  | 1 => ARTIFACT_IMAGE | 2 => ARTIFACT_VIDEO | 3 => ARTIFACT_TEXT
  | 4 => ARTIFACT_CLASSIFICATIONS | 5 => ARTIFACT_MASK | 6 => ARTIFACT_TENSOR
  | 7 => ARTIFACT_DEPTH | _ => ARTIFACT_NONE
  end%nat.

#[global] Instance ArtifactType_eq_dec : EqDecision ArtifactType.
Proof. solve_decision. Defined.

#[global] Instance ArtifactType_countable : Countable ArtifactType.
Proof.
  apply (inj_countable' ArtifactType_to_nat ArtifactType_of_nat).
  by intros [].
Defined.

(** [ClassifierParameters.realized_action]; only ACTION_OBFUSCATE is named by
    the client, the default value of an unset action is ACTION_PASSTHROUGH. *)
Inductive Action :=
  | ACTION_PASSTHROUGH
  | ACTION_REGENERATE
  | ACTION_OBFUSCATE
  | ACTION_DISCARD.

#[global] Instance Action_eq_dec : EqDecision Action.
Proof. solve_decision. Defined.

Record ClassifierConcept := {
  concept : string;
  threshold : option Q;
}.

Record ClassifierCategory := {
  name : string;
  concepts : list ClassifierConcept;
}.

Record ClassifierParameters := {
  realized_action : Action;
  exceeds : list ClassifierCategory;
}.

(** Images stay symbolic: what the caller supplied, or a codec applied to
    bytes that came back from the service or from disk. *)
Inductive Image :=
  | Pixels (data : string)
  | Imdecode (binary : string)
  | FromBGR (im : Image)
  | ImageOpen (png : string).

Definition Tensor := string.

(** The [oneof data] of an [Artifact]. *)
Inductive ArtifactData :=
  | NoData
  | Binary (b : string)
  | Text (s : string)
  | Classifier (c : ClassifierParameters)
  | TensorData (t : Tensor).

Record Artifact := {
  artifact_type : ArtifactType;
  mime : string;
  uuid : string;
  data : ArtifactData;
}.

(** Reading a member of the oneof that is not set yields its default. *)
Definition binary (a : Artifact) : string :=
  match data a with Binary b => b | _ => "" end.
Definition text (a : Artifact) : string :=
  match data a with Text s => s | _ => "" end.
Definition tensor (a : Artifact) : Tensor :=
  match data a with TensorData t => t | _ => "" end.
Definition classifier (a : Artifact) : ClassifierParameters :=
  match data a with
  | Classifier c => c
  | _ => {| realized_action := ACTION_PASSTHROUGH; exceeds := [] |}
  end.

Record PromptParameters := {
  init : option bool;
  weight : option Q;
}.

Inductive PromptContent :=
  | PromptText (s : string)
  | PromptArtifact (a : Artifact).

Record Prompt := {
  prompt_parameters : option PromptParameters;
  prompt_content : PromptContent;
}.

Record ScheduleParameters := {
  start : option Q;
  end_ : option Q;
}.

Record SamplerParameters := {
  cfg_scale : option Q;
  init_noise_scale : option Q;
}.

Record StepParameter := {
  scaled_step : Q;
  sampler : option SamplerParameters;
  schedule : option ScheduleParameters;
  guidance : option string;
}.

Record ImageParameters := {
  height : Z;
  width : Z;
  seed : list Z;
  samples : Z;
  steps : Z;
  diffusion : Z;
  parameters : list StepParameter;
  masked_area_init : Z;
}.

(** [TransformParameters] is a oneof; the payload of each operation is opaque
    to the orchestrator. *)
Inductive TransformParameters :=
  | ColorAdjust (payload : string)
  | DepthCalc (payload : string)
  | Resample (payload : string)
  | CameraPose (payload : string).

Inductive AssetAction := ASSET_PUT | ASSET_GET | ASSET_DELETE.
Inductive AssetUse :=
  | ASSET_USE_UNDEFINED | ASSET_USE_INPUT | ASSET_USE_OUTPUT
  | ASSET_USE_INTERMEDIATE | ASSET_USE_PROJECT.

Record AssetParameters := {
  action : AssetAction;
  project_id : string;
  use : AssetUse;
}.

Definition Struct := list (string * string).

Record Request := {
  engine_id : string;
  requested_type : option ArtifactType;
  prompt : list Prompt;
  image : option ImageParameters;
  transform_params : option TransformParameters;
  asset : option AssetParameters;
  extras : option Struct;
}.

Inductive StageAction := STAGE_ACTION_PASS | STAGE_ACTION_RETURN.

Record OnStatus := {
  stage_action : list StageAction;
  target : option string;
}.

Record Stage := {
  id : string;
  request : Request;
  on_status : list OnStatus;
}.

Record ChainRequest := {
  request_id : string;
  stage : list Stage;
}.

(** [Union[generation.ChainRequest, generation.Request]] *)
Inductive AnyRequest :=
  | Single (rq : Request)
  | Chain (crq : ChainRequest).

Record Answer := {
  artifacts : list Artifact;
}.

(** ** Transport errors and Python exceptions *)

Inductive StatusCode :=
  | CANCELLED | UNKNOWN | DEADLINE_EXCEEDED | RESOURCE_EXHAUSTED
  | INTERNAL | UNAVAILABLE.

#[global] Instance StatusCode_eq_dec : EqDecision StatusCode.
Proof. solve_decision. Defined.

(** A [grpc.RpcError]; [code] is [None] when the error object has no [code]
    attribute ([hasattr(rpc_error, "code")] is false). *)
Record RpcError := {
  code : option StatusCode;
  details : string;
}.

Inductive Exn :=
  | ClassifierException (classifier_result : ClassifierParameters)
  | OutOfCreditsException (details : string)
  | RpcErrorRaised (rpc_error : RpcError)
  | AssertionError
  | UnboundLocalError
  | ValueError (msg : string)
  | KeyError
  | IndexError
  | TypeError
  | OSError (path : string)
  | FileNotFoundError (path : string)
  | Exception (msg : string).

(** What the stub does with one call: it raises, or the response stream is
    read to its end.  An error in the middle of the stream is the first case:
    [_run_request] binds [results] only after [_process_response] returned. *)
Inductive RpcOutcome :=
  | RpcFailed (e : RpcError)
  | RpcStream (response : list Answer).

(** ** The world and the effect monad *)

(** A stand-in for the PNG encoder in the examples. *)
Definition sample_png (im : Image) : string :=
  match im with
  | Pixels data => String.append "png:" data
  | Imdecode b | ImageOpen b => b
  | FromBGR _ => "png"
  end.

Inductive Event :=
  | EvCall (n : nat) (rq : AnyRequest)
  | EvSleep (seconds : Q).

Record World := {
  rpc_count : nat;
  trace : list Event;
  fs : gmap string string;
  uuid_count : nat;
}.

(** The environment of a session: the generation stub (the outcome of the
    [n]-th call), the project stub's [Delete], the stream of [uuid.uuid4()]
    values, the paths the operating system refuses to create or write, and
    the PNG encoder of [utils.image_to_png_bytes]. *)
Record Env := {
  stub : nat -> AnyRequest -> RpcOutcome;
  proj_stub_Delete : string -> option RpcError;
  uuid4 : nat -> string;
  write_denied : string -> bool;
  image_to_png_bytes : Image -> string;
}.

Inductive Res (A : Type) :=
  | Ok (a : A)
  | Raise (e : Exn).
Arguments Ok {A} a.
Arguments Raise {A} e.

Definition M (A : Type) : Type := World -> Res A * World.

#[global] Instance M_ret : MRet M := fun A a w => (Ok a, w).
#[global] Instance M_bind : MBind M := fun A B f m w =>
  match m w with
  | (Ok a, w') => f a w'
  | (Raise e, w') => (Raise e, w')
  end.

Definition raise {A} (e : Exn) : M A := fun w => (Raise e, w).
Definition get_world : M World := fun w => (Ok w, w).
Definition put_world (w : World) : M unit := fun _ => (Ok tt, w).

Definition log_call (rq : AnyRequest) (w : World) : World :=
  {| rpc_count := S (rpc_count w);
     trace := trace w ++ [EvCall (rpc_count w) rq];
     fs := fs w; uuid_count := uuid_count w |}.

Definition log_sleep (q : Q) (w : World) : World :=
  {| rpc_count := rpc_count w;
     trace := trace w ++ [EvSleep q];
     fs := fs w; uuid_count := uuid_count w |}.

(** [time.sleep] refuses a negative length. *)
Definition sleep (q : Q) : M unit := fun w =>
  if Qlt_le_dec q 0
  then (Raise (ValueError "sleep length must be non-negative"), w)
  else (Ok tt, log_sleep q w).

(** ** Context: the session configuration *)

Record Endpoint := {
  endpoint_engine_id : string;
}.

Record Context := {
  _asset : Endpoint;
  _generate : Endpoint;
  _inpaint : Endpoint;
  _interpolate : Endpoint;
  _transform : Endpoint;
  _debug_no_chains : bool;
  _max_retries : Z;
  _retry_delay : Q;
  _retry_obfuscation : bool;
  _retry_schedule_offset : Q;
}.

(** The values set by [Context.__init__]. *)
Definition default_context : Context := {|
  _asset := {| endpoint_engine_id := "asset-service" |};
  _generate := {| endpoint_engine_id := "stable-diffusion-v1-5" |};
  _inpaint := {| endpoint_engine_id := "stable-inpainting-512-v2-0" |};
  _interpolate := {| endpoint_engine_id := "interpolation-server-v1" |};
  _transform := {| endpoint_engine_id := "transform-server-v1" |};
  _debug_no_chains := false;
  _max_retries := 5;
  _retry_delay := 1;
  _retry_obfuscation := false;
  _retry_schedule_offset := 1 # 10;
|}.

(** ** Artifact decoder: [Context._process_response] *)

Inductive Decoded :=
  | DClassifier (c : ClassifierParameters)
  | DArray (im : Image)
  | DTensor (t : Tensor)
  | DText (s : string)
  | DBytes (b : string).

Abbreviation Results := (gmap ArtifactType (list Decoded)).

Definition decode_artifact (a : Artifact) : list Decoded :=
  match artifact_type a with
  | ARTIFACT_CLASSIFICATIONS => [DClassifier (classifier a)]
  | ARTIFACT_DEPTH | ARTIFACT_IMAGE | ARTIFACT_MASK => [DArray (Imdecode (binary a))]
  | ARTIFACT_TENSOR => [DTensor (tensor a)]
  | ARTIFACT_TEXT => [DText (text a)]
  | ARTIFACT_VIDEO => [DBytes (binary a)]
  | ARTIFACT_NONE => []
  end.

Definition add_artifact (results : Results) (a : Artifact) : Results :=
  <[artifact_type a := default [] (results !! artifact_type a) ++ decode_artifact a]> results.

Definition _process_response (response : list Answer) : Results :=
  fold_left (fun results resp => fold_left add_artifact (artifacts resp) results)
            response ∅.

(** The first classifier of the results whose realized action is
    ACTION_OBFUSCATE: the argument of the [ClassifierException] raised by the
    check that follows [_process_response]. *)
Fixpoint first_obfuscation (ds : list Decoded) : option ClassifierParameters :=
  match ds with
  | [] => None
  | DClassifier c :: ds' =>
      if decide (realized_action c = ACTION_OBFUSCATE) then Some c
      else first_obfuscation ds'
  | _ :: ds' => first_obfuscation ds'
  end.

Definition obfuscation (results : Results) : option ClassifierParameters :=
  match results !! ARTIFACT_CLASSIFICATIONS with
  | Some ds => first_obfuscation ds
  | None => None
  end.

(** ** Retry policy: [Context._adjust_request_for_retry] *)

(** Python's [min(a, b)] returns [b] only when [b < a], [max(a, b)] returns
    [b] only when [b > a]. *)
Definition py_min (a b : Q) : Q := if Qlt_le_dec b a then b else a.
Definition py_max (a b : Q) : Q := if Qlt_le_dec a b then b else a.

Definition shift_start (offset : Q) (s : ScheduleParameters) : ScheduleParameters :=
  match start s with
  | Some x => {| start := Some (py_max 0 (py_min 1 (x + offset)%Q)); end_ := end_ s |}
  | None => s
  end.

Definition adjust_step (offset : Q) (p : StepParameter) : StepParameter :=
  match schedule p with
  | Some s => {| scaled_step := scaled_step p; sampler := sampler p;
                 schedule := Some (shift_start offset s); guidance := guidance p |}
  | None => p
  end.

Definition adjust_image (ctx : Context) (attempt : Z) (im : ImageParameters)
  : ImageParameters :=
  {| height := height im; width := width im;
     seed := map (fun seed => seed + 1) (seed im);
     samples := samples im; steps := steps im; diffusion := diffusion im;
     parameters :=
       match parameters im with
       | p :: ps =>
           if decide (attempt > 0)
           then adjust_step (_retry_schedule_offset ctx) p :: ps
           else p :: ps
       | [] => []
       end;
     masked_area_init := masked_area_init im |}.

(** The caller has checked [request.HasField("image")]; reading
    [request.image] of a request without it would create the default message
    on the fly, which the caller never lets happen. *)
Definition _adjust_request_for_retry (ctx : Context) (rq : Request) (attempt : Z)
  : Request :=
  match image rq with
  | Some im =>
      {| engine_id := engine_id rq; requested_type := requested_type rq;
         prompt := prompt rq; image := Some (adjust_image ctx attempt im);
         transform_params := transform_params rq; asset := asset rq;
         extras := extras rq |}
  | None => rq
  end.

Definition adjust_stage (ctx : Context) (attempt : Z) (st : Stage) : Stage :=
  match image (request st) with
  | Some _ =>
      {| id := id st; request := _adjust_request_for_retry ctx (request st) attempt;
         on_status := on_status st |}
  | None => st
  end.

(** ** Request orchestrator: [Context._run_request] *)

(** [range(n)] *)
Definition range (n : Z) : list Z := map Z.of_nat (seq 0 (Z.to_nat n)).

Section Orchestrator.
Variable env : Env.
Variable ctx : Context.

(** [assert endpoint.engine_id == request.engine_id], made for a plain
    [Request] only. *)
Definition engine_matches (endpoint : Endpoint) (request : AnyRequest) : bool :=
  match request with
  | Single rq => bool_decide (endpoint_engine_id endpoint = engine_id rq)
  | Chain _ => true
  end.

(** The tail of the [except ClassifierException] handler: which requests are
    adjusted, and which make the handler raise [ce] again. *)
Definition retry_adjusted (ce : ClassifierParameters) (request : AnyRequest)
    (attempt : Z) : Res AnyRequest :=
  match request with
  | Single rq =>
      match image rq with
      | Some _ => Ok (Single (_adjust_request_for_retry ctx rq attempt))
      | None => Raise (ClassifierException ce)
      end
  | Chain crq =>
      Ok (Chain {| request_id := request_id crq;
                   stage := map (adjust_stage ctx attempt) (stage crq) |})
  end.

(** The body of [for attempt in range(self._max_retries+1)], with the
    local variable [results] (unbound until the first response has been
    decoded) and the statement [return results] that follows the loop. *)
Fixpoint run_attempts (endpoint : Endpoint) (attempts : list Z)
    (request : AnyRequest) (results : option Results) (w : World)
    : Res Results * World :=
  match attempts with
  | [] =>
      match results with
      | Some r => (Ok r, w)
      | None => (Raise UnboundLocalError, w)
      end
  | attempt :: rest =>
      if negb (engine_matches endpoint request) then (Raise AssertionError, w)
      else
        let w1 := log_call request w in
        match stub env (rpc_count w) request with
        | RpcStream response =>
            let results' := _process_response response in
            match obfuscation results' with
            | None => (Ok results', w1)
            | Some ce =>
                if bool_decide (attempt = _max_retries ctx)
                   || negb (_retry_obfuscation ctx)
                then (Raise (ClassifierException ce), w1)
                else
                  match retry_adjusted ce request attempt with
                  | Ok request' => run_attempts endpoint rest request' (Some results') w1
                  | Raise e => (Raise e, w1)
                  end
            end
        | RpcFailed rpc_error =>
            if bool_decide (code rpc_error = Some RESOURCE_EXHAUSTED)
            then (Raise (OutOfCreditsException (details rpc_error)), w1)
            else if bool_decide (attempt = _max_retries ctx)
            then (Raise (RpcErrorRaised rpc_error), w1)
            else
              match sleep (_retry_delay ctx * inject_Z (2 ^ attempt))%Q w1 with
              | (Ok _, w2) => run_attempts endpoint rest request results w2
              | (Raise e, w2) => (Raise e, w2)
              end
        end
  end.

Definition _run_request (endpoint : Endpoint) (request : AnyRequest) : M Results :=
  run_attempts endpoint (range (_max_retries ctx + 1)) request None.

End Orchestrator.

(** Observations on a trace. *)
Definition is_call (ev : Event) : bool :=
  match ev with EvCall _ _ => true | EvSleep _ => false end.

Definition calls (t : list Event) : list Event := List.filter is_call t.

Fixpoint slept (t : list Event) : Q :=
  match t with
  | [] => 0
  | EvSleep q :: t' => q + slept t'
  | EvCall _ _ :: t' => slept t'
  end.

Definition sleeps (t : list Event) : list Q :=
  flat_map (fun ev => match ev with EvSleep q => [q] | EvCall _ _ => [] end) t.


(** ** Helpers of [utils.py] and of the Python library *)

Definition image_to_prompt (env : Env) (im : Image) (type : ArtifactType) : Prompt :=
  {| prompt_parameters := Some {| init := Some true; weight := None |};
     prompt_content :=
       PromptArtifact {| artifact_type := type; mime := ""; uuid := "";
                         data := Binary (image_to_png_bytes env im) |} |}.

Definition tensor_to_prompt (t : Tensor) : Prompt :=
  {| prompt_parameters := None;
     prompt_content :=
       PromptArtifact {| artifact_type := ARTIFACT_TENSOR; mime := ""; uuid := "";
                         data := TensorData t |} |}.

Definition slash : ascii := "/"%char.

(** The part of [s] after its last ["/"], if it has one. *)
Fixpoint after_last_slash (s : string) : option string :=
  match s with
  | EmptyString => None
  | String c s' =>
      match after_last_slash s' with
      | Some r => Some r
      | None => if Ascii.eqb c slash then Some s' else None
      end
  end.

(** [r = s.rsplit('/', 1); r[1] if len(r) > 1 else r[0]] *)
Definition rsplit_last (s : string) : string :=
  match after_last_slash s with
  | Some r => r
  | None => s
  end.

(** The part of [s] before its last ["/"]: [os.path.dirname] on the paths
    built below. *)
Fixpoint dirname (s : string) : string :=
  match s with
  | EmptyString => EmptyString
  | String c s' =>
      match after_last_slash s' with
      | Some _ => String c (dirname s')
      | None => EmptyString
      end
  end.

Definition startswith_slash (s : string) : bool :=
  match s with
  | String c _ => Ascii.eqb c slash
  | EmptyString => false
  end.

Fixpoint endswith_slash (s : string) : bool :=
  match s with
  | EmptyString => false
  | String c EmptyString => Ascii.eqb c slash
  | String _ s' => endswith_slash s'
  end.

(** [os.path.join(a, b)] on POSIX. *)
Definition path_join (a b : string) : string :=
  if startswith_slash b then b
  else if String.eqb a "" || endswith_slash a then String.append a b
  else String.append a (String slash b).

(** [s.endswith(suffix)] *)
Definition endswith (s suffix : string) : bool :=
  (String.length suffix <=? String.length s)%nat &&
  String.eqb (substring (String.length s - String.length suffix)
                        (String.length suffix) s) suffix.

(** ** Storage backends *)

(** The fields of a [project.Project] the client reads. *)
Record ProjectRecord := {
  proj_id : string;
  title : string;
  file_id : string;
}.

(** A settings dictionary, kept as its JSON text. *)
Definition Settings := string.

(** The abstract base class: the two flags and the operations [Project]
    calls on a backend. *)
Module StorageBackend.
Record t := {
  primary : bool;
  primary_fs : bool;
  delete_project : string -> M unit;
  get_project_settings : ProjectRecord -> option string -> M Settings;
  put_project_settings : ProjectRecord -> Settings -> M string;
  get_image_asset : ProjectRecord -> string -> AssetUse -> M Image;
  put_image_asset : ProjectRecord -> Image -> AssetUse -> option string -> M string;
  get_video_asset : ProjectRecord -> string -> AssetUse -> M string;
  put_video_asset : ProjectRecord -> string -> option string -> M string;
}.
End StorageBackend.

(** [results[kind][0]] guarded by [if kind in results], else the failure. *)
Definition first_of (results : Results) (kind : ArtifactType) (failure : string)
  : M Decoded :=
  match results !! kind with
  | Some (d :: _) => mret d
  | Some [] => raise IndexError
  | None => raise (Exception failure)
  end.

Definition decoded_text (d : Decoded) : string :=
  match d with DText s => s | DBytes s => s | DTensor s => s | _ => "" end.

Definition decoded_image (d : Decoded) : Image :=
  match d with DArray im => im | _ => Imdecode "" end.

Definition isfile (path : string) : M bool :=
  fun w => (Ok (bool_decide (is_Some (fs w !! path))), w).

Definition read_file (path : string) : M string :=
  fun w => match fs w !! path with
           | Some content => (Ok content, w)
           | None => (Raise (FileNotFoundError path), w)
           end.

(** [os.makedirs(os.path.dirname(path), exist_ok=True)] followed by writing
    the whole file; directories are implicit in [fs]. *)
Definition write_file (env : Env) (path content : string) : M unit :=
  fun w =>
    if write_denied env (dirname path) then (Raise (OSError (dirname path)), w)
    else if write_denied env path then (Raise (OSError path), w)
    else (Ok tt, {| rpc_count := rpc_count w; trace := trace w;
                    fs := <[path := content]> (fs w);
                    uuid_count := uuid_count w |}).

(** [str(uuid.uuid4())] *)
Definition fresh_uuid (env : Env) : M string :=
  fun w => (Ok (uuid4 env (uuid_count w)),
            {| rpc_count := rpc_count w; trace := trace w; fs := fs w;
               uuid_count := S (uuid_count w) |}).

Module AssetServiceBackend.
Section Methods.
Variable env : Env.
Variable ctx : Context.

Definition asset_request (p : Prompt) (act : AssetAction) (proj : ProjectRecord)
    (u : AssetUse) : Request :=
  {| engine_id := endpoint_engine_id (_asset ctx); requested_type := None;
     prompt := [p]; image := None; transform_params := None;
     asset := Some {| action := act; project_id := proj_id proj; use := u |};
     extras := None |}.

Definition artifact_prompt (a : Artifact) : Prompt :=
  {| prompt_parameters := None; prompt_content := PromptArtifact a |}.

Definition delete_project (id : string) : M unit :=
  match proj_stub_Delete env id with
  | Some e => raise (RpcErrorRaised e)
  | None => mret tt
  end.

Definition get_project_settings (proj : ProjectRecord) (asset_id : option string)
  : M Settings :=
  let asset_id :=
    match asset_id with
    | Some a => if String.eqb a "" then file_id proj else a
    | None => file_id proj
    end in
  let request := asset_request
    (artifact_prompt {| artifact_type := ARTIFACT_TEXT; mime := "application/json";
                        uuid := asset_id; data := NoData |})
    ASSET_GET proj ASSET_USE_PROJECT in
  results ← _run_request env ctx (_asset ctx) (Single request);
  d ← first_of results ARTIFACT_TEXT "Failed to load project file";
  mret (decoded_text d).

Definition put_project_settings (proj : ProjectRecord) (data : Settings) : M string :=
  let request := asset_request
    (artifact_prompt {| artifact_type := ARTIFACT_TEXT; mime := "application/json";
                        uuid := file_id proj; data := Text data |})
    ASSET_PUT proj ASSET_USE_PROJECT in
  results ← _run_request env ctx (_asset ctx) (Single request);
  d ← first_of results ARTIFACT_TEXT "Failed to save project file";
  mret (decoded_text d).

Definition get_image_asset (proj : ProjectRecord) (asset_id : string) (u : AssetUse)
  : M Image :=
  let request := asset_request
    (artifact_prompt {| artifact_type := ARTIFACT_IMAGE; mime := "image/png";
                        uuid := asset_id; data := NoData |})
    ASSET_GET proj u in
  results ← _run_request env ctx (_asset ctx) (Single request);
  d ← first_of results ARTIFACT_IMAGE "Failed to load image asset";
  mret (FromBGR (decoded_image d)).

(** [asset_id] is accepted and not used. *)
Definition put_image_asset (proj : ProjectRecord) (im : Image) (u : AssetUse)
    (asset_id : option string) : M string :=
  let request := asset_request (image_to_prompt env im ARTIFACT_IMAGE)
                               ASSET_PUT proj u in
  results ← _run_request env ctx (_asset ctx) (Single request);
  d ← first_of results ARTIFACT_TEXT "Failed to store image asset";
  mret (decoded_text d).

Definition get_video_asset (proj : ProjectRecord) (asset_id : string) (u : AssetUse)
  : M string :=
  let request := asset_request
    (artifact_prompt {| artifact_type := ARTIFACT_VIDEO; mime := "video/mp4";
                        uuid := asset_id; data := NoData |})
    ASSET_GET proj u in
  results ← _run_request env ctx (_asset ctx) (Single request);
  d ← first_of results ARTIFACT_VIDEO "Failed to load video asset";
  mret (decoded_text d).

Definition put_video_asset (proj : ProjectRecord) (video_path : string)
    (asset_id : option string) : M string :=
  ok ← isfile video_path;
  if negb ok || negb (endswith video_path ".mp4")
  then raise (ValueError "Invalid video file path. Must be an existing .mp4 file.")
  else
    binary_data ← read_file video_path;
    let request := asset_request
      (artifact_prompt {| artifact_type := ARTIFACT_VIDEO; mime := "video/mp4";
                          uuid := ""; data := Binary binary_data |})
      ASSET_PUT proj ASSET_USE_INPUT in
    results ← _run_request env ctx (_asset ctx) (Single request);
    d ← first_of results ARTIFACT_TEXT "Failed to store video asset";
    mret (decoded_text d).

(** [AssetServiceBackend(context, primary)]: the constructor passes no
    [primary_fs], which stays [False]. *)
Definition make (primary : bool) : StorageBackend.t :=
  {| StorageBackend.primary := primary;
     StorageBackend.primary_fs := false;
     StorageBackend.delete_project := delete_project;
     StorageBackend.get_project_settings := get_project_settings;
     StorageBackend.put_project_settings := put_project_settings;
     StorageBackend.get_image_asset := get_image_asset;
     StorageBackend.put_image_asset := put_image_asset;
     StorageBackend.get_video_asset := get_video_asset;
     StorageBackend.put_video_asset := put_video_asset |}.
End Methods.
End AssetServiceBackend.

Module LocalFileBackend.
Section Methods.
Variable env : Env.
(** The flags of the instance and the class attribute [_projects_root]. *)
Variable primary : bool.
Variable primary_fs : bool.
Variable _projects_root : string.

Definition get_path_for_asset (project_id filename : string) : string :=
  path_join (path_join _projects_root project_id) filename.

(** [shutil.rmtree(os.path.join(_projects_root, id))]: every file below the
    directory goes; a directory that does not exist is an error. *)
Definition delete_project (id : string) : M unit :=
  if String.eqb id "" then mret tt
  else fun w =>
    let dir := String.append (path_join _projects_root id) "/" in
    let below := fun (path : string) => String.prefix dir path in
    if bool_decide (map_Exists (fun path _ => below path = true) (fs w))
    then (Ok tt, {| rpc_count := rpc_count w; trace := trace w;
                    fs := filter (fun kv => below kv.1 = false) (fs w);
                    uuid_count := uuid_count w |})
    else (Raise (FileNotFoundError (path_join _projects_root id)), w).

Definition get_project_settings (proj : ProjectRecord) (asset_id : option string)
  : M Settings :=
  read_file (get_path_for_asset (proj_id proj) "project_settings.json").

Definition put_project_settings (proj : ProjectRecord) (data : Settings) : M string :=
  let filename := "project_settings.json" in
  write_file env (get_path_for_asset (proj_id proj) filename) data;;
  mret filename.

Definition get_image_asset (proj : ProjectRecord) (asset_id : string) (u : AssetUse)
  : M Image :=
  png ← read_file (get_path_for_asset (proj_id proj) (String.append asset_id ".png"));
  mret (ImageOpen png).

(** The [if asset_id is not None ... else ...] block shared by the two
    asset writes. *)
Definition choose_filename (asset_id : option string) (msg : string) : M string :=
  match asset_id with
  | Some a => mret a
  | None =>
      if negb primary then raise (ValueError msg)
      else fresh_uuid env
  end.

Definition put_image_asset (proj : ProjectRecord) (im : Image) (u : AssetUse)
    (asset_id : option string) : M string :=
  let png := image_to_png_bytes env im in
  filename ← choose_filename asset_id
    "If asset_id is None, then LocalFileBackend must be primary.";
  let output_path := get_path_for_asset (proj_id proj) filename in
  write_file env (String.append output_path ".png") png;;
  mret filename.

Definition get_video_asset (proj : ProjectRecord) (asset_id : string) (u : AssetUse)
  : M string :=
  read_file (get_path_for_asset (proj_id proj) asset_id).

(** [shutil.copy] refuses to copy a file onto itself. *)
Definition put_video_asset (proj : ProjectRecord) (video_path : string)
    (asset_id : option string) : M string :=
  ok ← isfile video_path;
  if negb ok || negb (endswith video_path ".mp4")
  then raise (ValueError "Invalid video file path. Must be an existing .mp4 file.")
  else
    filename ← choose_filename asset_id
      "If name is None, then LocalFileBackend must be primary.";
    let output_path := get_path_for_asset (proj_id proj) filename in
    if String.eqb video_path output_path then raise (OSError output_path)
    else
      content ← read_file video_path;
      write_file env output_path content;;
      mret filename.

Definition make : StorageBackend.t :=
  {| StorageBackend.primary := primary;
     StorageBackend.primary_fs := primary_fs;
     StorageBackend.delete_project := delete_project;
     StorageBackend.get_project_settings := get_project_settings;
     StorageBackend.put_project_settings := put_project_settings;
     StorageBackend.get_image_asset := get_image_asset;
     StorageBackend.put_image_asset := put_image_asset;
     StorageBackend.get_video_asset := get_video_asset;
     StorageBackend.put_video_asset := put_video_asset |}.
End Methods.
End LocalFileBackend.

(** ** The Project aggregate and its metadata index *)

(** A value of the index below a project id: the metadata dictionary of an
    asset ([{"mime_type": ..., "filename": ...}]), or, under a role key such
    as ["project_file_id"], the id of an asset. *)
Inductive IndexEntry :=
  | AssetMeta (mime_type : string) (filename : option string)
  | AssetRef (asset_id : option string).

(** [Project._metadata_index]: project id, then asset id ([None] when no
    backend is primary) or role key. *)
Abbreviation MetadataIndex := (gmap string (gmap (option string) IndexEntry)).

(** The calls [Project] makes on its backends. *)
Inductive BackendCall :=
  | CallDeleteProject (id : string)
  | CallGetProjectSettings (asset_id : option string)
  | CallPutProjectSettings (data : Settings)
  | CallGetImageAsset (asset_id : string) (u : AssetUse)
  | CallPutImageAsset (im : Image) (u : AssetUse) (asset_id : option string)
  | CallGetVideoAsset (asset_id : string) (u : AssetUse)
  | CallPutVideoAsset (video_path : string) (asset_id : option string).

(** The state [Project] works on: the world of the backends, the class
    attribute [_metadata_index], the document last written to
    [metadata_index.json], and the log of backend calls (position of the
    backend in [_backends], call). *)
Record Store := {
  world : World;
  _metadata_index : MetadataIndex;
  index_file : option MetadataIndex;
  invocations : list (nat * BackendCall);
}.

Definition PM (A : Type) : Type := Store -> Res A * Store.

#[global] Instance PM_ret : MRet PM := fun A a s => (Ok a, s).
#[global] Instance PM_bind : MBind PM := fun A B f m s =>
  match m s with
  | (Ok a, s') => f a s'
  | (Raise e, s') => (Raise e, s')
  end.

Definition fail {A} (e : Exn) : PM A := fun s => (Raise e, s).

(** The call of a method of the backend at position [i]. *)
Definition invoke {A} (i : nat) (c : BackendCall) (m : M A) : PM A := fun s =>
  let (r, w') := m (world s) in
  (r, {| world := w'; _metadata_index := _metadata_index s;
         index_file := index_file s;
         invocations := invocations s ++ [(i, c)] |}).

Module Project.
Section Methods.
Variable env : Env.
(** [Project._backends] *)
Variable backends : list StorageBackend.t.

(** [save_metadata_index()]: the whole index replaces the document. *)
Definition save_metadata_index : PM unit := fun s =>
  if write_denied env "metadata_index.json"
  then (Raise (OSError "metadata_index.json"), s)
  else (Ok tt, {| world := world s; _metadata_index := _metadata_index s;
                  index_file := Some (_metadata_index s);
                  invocations := invocations s |}).

Definition add_entry (index : MetadataIndex) (project_id : string)
    (asset_id : option string) (mime_type : string) (filename : option string)
    (project_key : option string) : MetadataIndex :=
  let assets := default ∅ (index !! project_id) in
  let assets := <[asset_id := AssetMeta mime_type filename]> assets in
  let assets :=
    match project_key with
    | Some key => <[Some key := AssetRef asset_id]> assets
    | None => assets
    end in
  <[project_id := assets]> index.

Definition add_asset_metadata (project_id : string) (asset_id : option string)
    (mime_type : string) (filename : option string) (project_key : option string)
  : PM unit :=
  fun s =>
    save_metadata_index
      {| world := world s;
         _metadata_index := add_entry (_metadata_index s) project_id asset_id
                                      mime_type filename project_key;
         index_file := index_file s; invocations := invocations s |}.

(** [Project._metadata_index.pop(project_id, None)], and nothing else. *)
Definition delete_project_metadata (project_id : string) : PM unit := fun s =>
  (Ok tt, {| world := world s;
             _metadata_index := delete project_id (_metadata_index s);
             index_file := index_file s; invocations := invocations s |}).

Fixpoint delete_loop (bs : list StorageBackend.t) (i : nat) (id : string) : PM unit :=
  match bs with
  | [] => mret tt
  | backend :: bs' =>
      invoke i (CallDeleteProject id) (StorageBackend.delete_project backend id);;
      delete_loop bs' (S i) id
  end.

Definition delete (self : ProjectRecord) : PM unit :=
  delete_loop backends 0 (proj_id self);;
  delete_project_metadata (proj_id self).

(** [self._metadata_index[self.id]["project_file_id"]] *)
Definition project_file_id (self : ProjectRecord) : PM (option string) := fun s =>
  match _metadata_index s !! proj_id self with
  | None => (Raise KeyError, s)
  | Some assets =>
      match assets !! Some "project_file_id" with
      | None => (Raise KeyError, s)
      | Some (AssetRef asset_id) => (Ok asset_id, s)
      | Some (AssetMeta _ _) => (Raise TypeError, s)
      end
  end.



Fixpoint save_settings_loop (bs : list StorageBackend.t) (i : nat)
    (self : ProjectRecord) (data : Settings) (asset_id filename : option string)
  : PM (option string * option string) :=
  match bs with
  | [] => mret (asset_id, filename)
  | backend :: bs' =>
      temp ← invoke i (CallPutProjectSettings data)
                    (StorageBackend.put_project_settings backend self data);
      let asset_id :=
        if StorageBackend.primary backend then Some (rsplit_last temp) else asset_id in
      let filename :=
        if StorageBackend.primary_fs backend then Some temp else filename in
      save_settings_loop bs' (S i) self data asset_id filename
  end.

Definition save_settings (self : ProjectRecord) (data : Settings)
  : PM (option string) :=
  '(asset_id, filename) ← save_settings_loop backends 0 self data None None;
  add_asset_metadata (proj_id self) asset_id "application/json" filename
                     (Some "project_file_id");;
  mret asset_id.

Fixpoint get_image_asset_loop (bs : list StorageBackend.t) (i : nat)
    (self : ProjectRecord) (asset_id : string) (u : AssetUse) : PM Image :=
  match bs with
  | [] => fail (Exception "Failed to load image asset")
  | backend :: bs' =>
      if StorageBackend.primary backend then
        invoke i (CallGetImageAsset asset_id u)
               (StorageBackend.get_image_asset backend self asset_id u)
      else get_image_asset_loop bs' (S i) self asset_id u
  end.

Definition get_image_asset (self : ProjectRecord) (asset_id : string) (u : AssetUse)
  : PM Image :=
  get_image_asset_loop backends 0 self asset_id u.

(** The loop of [put_image_asset]: [results], [asset_id] and [filename] are
    the local variables of the method. *)
Fixpoint put_image_asset_loop (bs : list StorageBackend.t) (i : nat)
    (self : ProjectRecord) (im : Image) (u : AssetUse)
    (results : list string) (asset_id filename : option string)
  : PM (list string * option string * option string) :=
  match bs with
  | [] => mret (results, asset_id, filename)
  | backend :: bs' =>
      result ← invoke i (CallPutImageAsset im u asset_id)
                      (StorageBackend.put_image_asset backend self im u asset_id);
      let '(results, asset_id) :=
        if StorageBackend.primary backend
        then (results ++ [rsplit_last result], Some (rsplit_last result))
        else (results, asset_id) in
      let filename :=
        if StorageBackend.primary_fs backend then Some result else filename in
      put_image_asset_loop bs' (S i) self im u results asset_id filename
  end.

Definition put_image_asset (self : ProjectRecord) (im : Image) (u : AssetUse)
  : PM (list string) :=
  '(results, asset_id, filename) ←
    put_image_asset_loop backends 0 self im u [] None None;
  add_asset_metadata (proj_id self) asset_id "image/png" filename None;;
  mret results.

Fixpoint get_video_asset_loop (bs : list StorageBackend.t) (i : nat)
    (self : ProjectRecord) (asset_id : string) (u : AssetUse) : PM string :=
  match bs with
  | [] => fail (Exception "Failed to load video asset")
  | backend :: bs' =>
      if StorageBackend.primary backend then
        invoke i (CallGetVideoAsset asset_id u)
               (StorageBackend.get_video_asset backend self asset_id u)
      else get_video_asset_loop bs' (S i) self asset_id u
  end.

Definition get_video_asset (self : ProjectRecord) (asset_id : string) (u : AssetUse)
  : PM string :=
  get_video_asset_loop backends 0 self asset_id u.

Fixpoint put_video_asset_loop (bs : list StorageBackend.t) (i : nat)
    (self : ProjectRecord) (video_path : string)
    (results : list string) (asset_id filename : option string)
  : PM (list string * option string * option string) :=
  match bs with
  | [] => mret (results, asset_id, filename)
  | backend :: bs' =>
      result ← invoke i (CallPutVideoAsset video_path asset_id)
                      (StorageBackend.put_video_asset backend self video_path asset_id);
      let '(results, asset_id) :=
        if StorageBackend.primary backend
        then (results ++ [rsplit_last result], Some (rsplit_last result))
        else (results, asset_id) in
      let filename :=
        if StorageBackend.primary_fs backend then Some result else filename in
      put_video_asset_loop bs' (S i) self video_path results asset_id filename
  end.

Definition put_video_asset (self : ProjectRecord) (video_path : string)
  : PM (list string) :=
  '(results, asset_id, filename) ←
    put_video_asset_loop backends 0 self video_path [] None None;
  add_asset_metadata (proj_id self) asset_id "video/mp4" filename None;;
  mret results.

End Methods.

(** [Project.init_backends]: the remote backend is primary, the local one is
  the primary_fs mirror below ["projects"]. *)
Definition init_backends (env : Env) (ctx : Context) : list StorageBackend.t :=
[AssetServiceBackend.make env ctx true;
 LocalFileBackend.make env false true "projects"].

End Project.

(** ** Chain builder and the multi-stage transforms of [Context] *)

(** [str(n)] *)
Definition str (n : nat) : string := NilEmpty.string_of_uint (Nat.to_uint n).

(** The [params] argument of [transform]:
    [Union[TransformParameters, List[TransformParameters]]]. *)
Inductive TransformArg :=
  | OneParam (p : TransformParameters)
  | ParamList (ps : list TransformParameters).

Definition decoded_images (ds : list Decoded) : list Image := map decoded_image ds.

(** [results[kind]], a [KeyError] when the kind is absent. *)
Definition getitem (results : Results) (kind : ArtifactType) : M (list Decoded) :=
  match results !! kind with
  | Some ds => mret ds
  | None => raise KeyError
  end.

(** [l[0]] *)
Definition first_item {A} (l : list A) : M A :=
  match l with
  | x :: _ => mret x
  | [] => raise IndexError
  end.

(** The fields of the message [Request] of generation.proto, the names its
    constructor accepts as keywords. *)
Definition Request_fields : list string :=
  ["engine_id"; "request_id"; "requested_type"; "prompt"; "image"; "classifier";
   "asset"; "interpolate"; "transform"; "conditioner"; "extras"].

Section Transforms.
Variable env : Env.
Variable ctx : Context.

Definition image_prompts (images : list Image) : list Prompt :=
  map (fun im => image_to_prompt env im ARTIFACT_IMAGE) images.

(** The tail of [transform]: images and depth maps, then the masks. *)
Definition transform_results (results : Results)
  : list Image * option (list Image) :=
  (decoded_images (default [] (results !! ARTIFACT_IMAGE))
     ++ decoded_images (default [] (results !! ARTIFACT_DEPTH)),
   decoded_images <$> (results !! ARTIFACT_MASK)).

(** [transform] on a single parameter set: the [else] branch. *)
Definition transform_single (images : list Image) (param : TransformParameters)
    (extras : option Struct) : M (list Image * option (list Image)) :=
  match images with
  | [] => raise AssertionError
  | _ =>
      let request :=
        {| engine_id := endpoint_engine_id (_transform ctx); requested_type := None;
           prompt := image_prompts images; image := None;
           transform_params := Some param; asset := None; extras := extras |} in
      results ← _run_request env ctx (_transform ctx) (Single request);
      mret (transform_results results)
  end.

(** [for param in params: images, mask = self.transform(images, param, extras)] *)
Fixpoint transform_no_chain (params : list TransformParameters)
    (images : list Image) (mask : option (list Image)) (extras : option Struct)
  : M (list Image * option (list Image)) :=
  match params with
  | [] => mret (images, mask)
  | param :: params' =>
      '(images, mask) ← transform_single images param extras;
      transform_no_chain params' images mask extras
  end.

(** [generation.Request(name=value, ...)]: the constructor of a protobuf message
    looks every keyword up among the fields of the message before it reads
    the value, and raises [ValueError] for a name that is no field, also when
    the value is [None]. *)
Definition new_Request (keywords : list string) (rq : Request) : M Request :=
  match List.find (fun k => negb (bool_decide (k ∈ Request_fields))) keywords with
  | Some k =>
      raise (ValueError (String.append "Protocol message Request has no field " k))
  | None => mret rq
  end.

(** A stage of ["xform_chain"]: only stage 0 carries the prompts, every
    stage passes to the next and the last one returns.  The request is
    built with the keyword [extras_struct] (its value is [None] here, after
    [assert extras is None]), where the other constructions of a [Request]
    write [extras]. *)
Definition transform_stage (images : list Image) (count idx : nat)
    (param : TransformParameters) : M Stage :=
  let final := bool_decide (idx = (count - 1)%nat) in
  rq ← new_Request ["engine_id"; "prompt"; "transform"; "extras_struct"]
       {| engine_id := endpoint_engine_id (_transform ctx); requested_type := None;
          prompt := if bool_decide (idx = 0%nat) then image_prompts images else [];
          image := None; transform_params := Some param; asset := None;
          extras := None |};
  mret {| id := str idx;
          request := rq;
          on_status :=
            [{| stage_action :=
                  [if final then STAGE_ACTION_RETURN else STAGE_ACTION_PASS];
                target := if final then None else Some (str (idx + 1)) |}] |}.

(** [for idx, param in enumerate(params): ... stages.append(...)] *)
Fixpoint transform_stages (images : list Image) (count idx : nat)
    (params : list TransformParameters) : M (list Stage) :=
  match params with
  | [] => mret []
  | param :: params' =>
      st ← transform_stage images count idx param;
      stages ← transform_stages images count (S idx) params';
      mret (st :: stages)
  end.

Definition transform (images : list Image) (params : TransformArg)
    (extras : option Struct) : M (list Image * option (list Image)) :=
  match images with
  | [] => raise AssertionError
  | _ =>
      match params with
      | ParamList ps =>
          if bool_decide (1 < length ps)%nat then
            if _debug_no_chains ctx then transform_no_chain ps images None extras
            else
              match extras with
              | Some _ => raise AssertionError
              | None =>
                  stages ← transform_stages images (length ps) 0 ps;
                  results ← _run_request env ctx (_transform ctx)
                              (Chain {| request_id := "xform_chain";
                                        stage := stages |});
                  mret (transform_results results)
              end
          else
            match ps with
            | [] => raise IndexError
            | param :: _ => transform_single images param extras
            end
      | OneParam param => transform_single images param extras
      end
  end.

(** The requests of [transform_and_generate], one for each parameter set. *)
Definition tensor_request (im : Image) (extras : option Struct)
    (param : TransformParameters) : Request :=
  {| engine_id := endpoint_engine_id (_transform ctx);
     requested_type := Some ARTIFACT_TENSOR;
     prompt := [image_to_prompt env im ARTIFACT_IMAGE]; image := None;
     transform_params := Some param; asset := None; extras := extras |}.

(** [rq.prompt.pop(); rq.prompt.append(p)] *)
Definition replace_last_prompt (rq : Request) (p : Prompt) : Request :=
  {| engine_id := engine_id rq; requested_type := requested_type rq;
     prompt := removelast (prompt rq) ++ [p]; image := image rq;
     transform_params := transform_params rq; asset := asset rq;
     extras := extras rq |}.

(** [rq.prompt.append(p)] *)
Definition append_prompt (rq : Request) (p : Prompt) : Request :=
  {| engine_id := engine_id rq; requested_type := requested_type rq;
     prompt := prompt rq ++ [p]; image := image rq;
     transform_params := transform_params rq; asset := asset rq;
     extras := extras rq |}.

Definition first_tensor (results : Results) : M Tensor :=
  ds ← getitem results ARTIFACT_TENSOR;
  d ← first_item ds;
  mret (decoded_text d).

(** The loop of the non-chained path: [prev_result] is [None] before the
    first request. *)
Fixpoint splice_requests (requests : list Request) (prev_result : option Tensor)
  : M (option Tensor) :=
  match requests with
  | [] => mret prev_result
  | rq :: requests' =>
      let rq :=
        match prev_result with
        | Some t => replace_last_prompt rq (tensor_to_prompt t)
        | None => rq
        end in
      results ← _run_request env ctx (_transform ctx) (Single rq);
      t ← first_tensor results;
      splice_requests requests' (Some t)
  end.

Definition generate_chain (requests : list Request) (generate_request : Request)
  : ChainRequest :=
  {| request_id := "xform_gen_chain";
     stage :=
       imap (fun idx rq =>
               {| id := str idx; request := rq;
                  on_status := [{| stage_action := [STAGE_ACTION_PASS];
                                   target := Some (str (idx + 1)) |}] |}) requests
       ++ [{| id := str (length requests); request := generate_request;
              on_status := [{| stage_action := [STAGE_ACTION_RETURN];
                               target := None |}] |}] |}.

(** [results[generation.ARTIFACT_IMAGE][0]] *)
Definition first_image (results : Results) : M Image :=
  ds ← getitem results ARTIFACT_IMAGE;
  d ← first_item ds;
  mret (decoded_image d).

Definition transform_and_generate (im : Image) (params : list TransformParameters)
    (generate_request : Request) (extras : option Struct) : M Image :=
  match params with
  | [] =>
      results ← _run_request env ctx (_generate ctx) (Single generate_request);
      first_image results
  | _ =>
      let requests := map (tensor_request im extras) params in
      results ←
        (if _debug_no_chains ctx then
           prev_result ← splice_requests requests None;
           match prev_result with
           | Some t =>
               _run_request env ctx (_generate ctx)
                 (Single (append_prompt generate_request (tensor_to_prompt t)))
           | None => raise TypeError
           end
         else
           _run_request env ctx (_transform ctx)
             (Chain (generate_chain requests generate_request)));
      first_image results
  end.

(** The direct call of the debug path of [transform_3d]:
    [self._process_response(self._transform.stub.Generate(rq_depth))],
    outside the retry loop. *)
Definition generate_once (rq : Request) : M Results := fun w =>
  match stub env (rpc_count w) (Single rq) with
  | RpcFailed e => (Raise (RpcErrorRaised e), log_call (Single rq) w)
  | RpcStream response => (Ok (_process_response response), log_call (Single rq) w)
  end.

Definition op_id (transform : TransformParameters) : string :=
  match transform with
  | Resample _ => "resample"
  | _ => "camera_pose"
  end.

Definition transform_3d (images : list Image) (depth_calc transform : TransformParameters)
    (extras : option Struct) : M (list Image * option (list Image)) :=
  match image_prompts images with
  | [] => raise AssertionError
  | first_prompt :: _ =>
      let extras_struct : Struct := default [] extras in
      let rq_depth :=
        {| engine_id := endpoint_engine_id (_transform ctx);
           requested_type := Some ARTIFACT_TENSOR;
           prompt := [first_prompt]; image := None;
           transform_params := Some depth_calc; asset := None; extras := None |} in
      let rq_transform :=
        {| engine_id := endpoint_engine_id (_transform ctx); requested_type := None;
           prompt := image_prompts images; image := None;
           transform_params := Some transform; asset := None;
           extras := Some extras_struct |} in
      results ←
        (if _debug_no_chains ctx then
           results ← generate_once rq_depth;
           t ← first_tensor results;
           _run_request env ctx (_transform ctx)
             (Single (append_prompt rq_transform (tensor_to_prompt t)))
         else
           _run_request env ctx (_transform ctx)
             (Chain {| request_id := String.append (op_id transform) "_3d_chain";
                       stage :=
                         [{| id := "depth_calc"; request := rq_depth;
                             on_status := [{| stage_action := [STAGE_ACTION_PASS];
                                              target := Some (op_id transform) |}] |};
                          {| id := op_id transform; request := rq_transform;
                             on_status := [{| stage_action := [STAGE_ACTION_RETURN];
                                              target := None |}] |}] |}));
      warped_images ← getitem results ARTIFACT_IMAGE;
      mret (decoded_images warped_images,
            decoded_images <$> (results !! ARTIFACT_MASK))
  end.

End Transforms.

(** ** Vocabulary of the statements and fixtures of the examples *)

(** The trace left by [k] failed attempts that are retried followed by one
    that is not: call number [n], backoff exponent [a]. *)
Fixpoint backoff_trace (delay : Q) (request : AnyRequest) (n a k : nat) : list Event :=
  match k with
  | O => [EvCall n request]
  | S k' =>
      EvCall n request :: EvSleep (delay * inject_Z (2 ^ Z.of_nat a))
        :: backoff_trace delay request (S n) (S a) k'
  end.

Definition empty_world : World :=
  {| rpc_count := 0; trace := []; fs := ∅; uuid_count := 0 |}.

(** The retry [i] of a request: the failed call, then the backoff sleep that
    precedes the next attempt. *)
Definition failed_attempt (ctx : Context) (request : AnyRequest) (n0 i : nat)
  : list Event :=
  [EvCall (n0 + i) request;
   EvSleep (_retry_delay ctx * inject_Z (2 ^ Z.of_nat i))].

Definition failing_env (e : RpcError) : Env :=
  {| stub := fun _ _ => RpcFailed e;
     uuid4 := fun _ => "00000000-0000-4000-8000-000000000000";
     write_denied := fun _ => false;
     proj_stub_Delete := fun _ => None;
     image_to_png_bytes := sample_png |}.

Definition text_request (engine : string) (s : string) : Request :=
  {| engine_id := engine; requested_type := None;
     prompt := [{| prompt_parameters := None; prompt_content := PromptText s |}];
     image := None; transform_params := None; asset := None; extras := None |}.

(** Every dispatched call of the trace [T] that the service answered with
    RESOURCE_EXHAUSTED is the last event of [T], and the run ended in the
    out-of-credits failure [r] carrying that answer's details. *)
Fixpoint quota_terminal (env : Env) (r : Res Results) (T : list Event) : Prop :=
  match T with
  | [] => True
  | EvCall n rq :: T' =>
      (forall e, stub env n rq = RpcFailed e ->
                 code e = Some RESOURCE_EXHAUSTED ->
                 T' = [] /\ r = Raise (OutOfCreditsException (details e)))
      /\ quota_terminal env r T'
  | EvSleep _ :: T' => quota_terminal env r T'
  end.

(** The service is unavailable once, then reports exhausted credits. *)
Definition exhausted_env : Env :=
  {| stub := fun n _ =>
       match n with
       | O => RpcFailed {| code := Some UNAVAILABLE; details := "try again" |}
       | S _ => RpcFailed {| code := Some RESOURCE_EXHAUSTED;
                             details := "out of credits" |}
       end;
     uuid4 := fun _ => "00000000-0000-4000-8000-000000000000";
     write_denied := fun _ => false;
     proj_stub_Delete := fun _ => None;
     image_to_png_bytes := sample_png |}.

(** [clamp(x, lo, hi)] as the specification words it. *)
Definition clamp (x lo hi : Q) : Q :=
  if Qlt_le_dec x lo then lo else if Qlt_le_dec hi x then hi else x.

(** What an obfuscation retry may change in a step parameter: nothing but
    the start of its schedule, and that only when [shifted]. *)
Definition step_adjusted (offset : Q) (shifted : bool) (p p' : StepParameter) : Prop :=
  scaled_step p' = scaled_step p /\ sampler p' = sampler p /\ guidance p' = guidance p /\
  match schedule p, schedule p' with
  | None, None => True
  | Some s, Some s' =>
      end_ s' = end_ s /\
      match start s, start s' with
      | None, None => True
      | Some x, Some x' =>
          if shifted then (x' == clamp (x + offset) 0 1)%Q else x' = x
      | _, _ => False
      end
  | _, _ => False
  end.

(** What an obfuscation retry at [attempt] changes in image parameters: every
    seed is the old one plus one, the schedule start of the first step
    parameter is shifted when [attempt > 0], every other field is kept. *)
Definition image_adjusted (ctx : Context) (attempt : Z) (im im' : ImageParameters) : Prop :=
  Forall2 (fun old_seed new_seed => new_seed = old_seed + 1) (seed im) (seed im') /\
  height im' = height im /\ width im' = width im /\ samples im' = samples im /\
  steps im' = steps im /\ diffusion im' = diffusion im /\
  masked_area_init im' = masked_area_init im /\
  match parameters im, parameters im' with
  | [], [] => True
  | p :: ps, p' :: ps' =>
      step_adjusted (_retry_schedule_offset ctx) (bool_decide (attempt > 0)) p p'
      /\ ps' = ps
  | _, _ => False
  end.

Definition request_adjusted (ctx : Context) (attempt : Z) (rq rq' : Request) : Prop :=
  engine_id rq' = engine_id rq /\ requested_type rq' = requested_type rq /\
  prompt rq' = prompt rq /\ transform_params rq' = transform_params rq /\
  asset rq' = asset rq /\ extras rq' = extras rq /\
  match image rq, image rq' with
  | Some im, Some im' => image_adjusted ctx attempt im im'
  | _, _ => False
  end.

(** A stage of a chain after the retry: adjusted when its request carries
    image parameters, untouched otherwise. *)
Definition stage_adjusted (ctx : Context) (attempt : Z) (st st' : Stage) : Prop :=
  id st' = id st /\ on_status st' = on_status st /\
  match image (request st) with
  | Some _ => request_adjusted ctx attempt (request st) (request st')
  | None => request st' = request st
  end.

Definition retry_mutation (ctx : Context) (attempt : Z) (request request' : AnyRequest)
  : Prop :=
  match request, request' with
  | Single rq, Single rq' => request_adjusted ctx attempt rq rq'
  | Chain crq, Chain crq' =>
      request_id crq' = request_id crq /\
      Forall2 (stage_adjusted ctx attempt) (stage crq) (stage crq')
  | _, _ => False
  end.

(** The requests the [except ClassifierException] handler adjusts. *)
Definition adjustable (request : AnyRequest) : Prop :=
  match request with
  | Single rq => is_Some (image rq)
  | Chain _ => True
  end.

(** A service that answers every call with an obfuscating classification. *)
Definition obfuscate_result : ClassifierParameters :=
  {| realized_action := ACTION_OBFUSCATE;
     exceeds := [{| name := "adult";
                    concepts := [{| concept := "nsfw"; threshold := Some (9 # 10) |}] |}] |}.

Definition obfuscating_env : Env :=
  {| stub := fun _ _ =>
       RpcStream [{| artifacts :=
                       [{| artifact_type := ARTIFACT_CLASSIFICATIONS; mime := "";
                           uuid := ""; data := Classifier obfuscate_result |}] |}];
     uuid4 := fun _ => "00000000-0000-4000-8000-000000000000";
     write_denied := fun _ => false;
     proj_stub_Delete := fun _ => None;
     image_to_png_bytes := sample_png |}.

(** [default_context] after [_retry_obfuscation = True]. *)
Definition retry_context : Context :=
  {| _asset := _asset default_context; _generate := _generate default_context;
     _inpaint := _inpaint default_context; _interpolate := _interpolate default_context;
     _transform := _transform default_context;
     _debug_no_chains := false; _max_retries := 5; _retry_delay := 1;
     _retry_obfuscation := true; _retry_schedule_offset := 1 # 10 |}.

Definition init_image_prompt (png : string) : Prompt :=
  {| prompt_parameters := Some {| init := Some true; weight := None |};
     prompt_content := PromptArtifact {| artifact_type := ARTIFACT_IMAGE; mime := "";
                                         uuid := ""; data := Binary png |} |}.

Definition sample_transform_request (p : TransformParameters) : Request :=
  {| engine_id := "transform-server-v1"; requested_type := None;
     prompt := [init_image_prompt "png"]; image := None;
     transform_params := Some p; asset := None; extras := None |}.

Definition sample_image_parameters : ImageParameters :=
  {| height := 512; width := 512; seed := [41; 7]; samples := 1; steps := 50;
     diffusion := 0;
     parameters := [{| scaled_step := 0;
                       sampler := Some {| cfg_scale := Some 7%Q; init_noise_scale := Some 1%Q |};
                       schedule := Some {| start := Some (19 # 20); end_ := None |};
                       guidance := None |}];
     masked_area_init := 0 |}.

Definition sample_generate_request : Request :=
  {| engine_id := "stable-diffusion-v1-5"; requested_type := None;
     prompt := [{| prompt_parameters := Some {| init := None; weight := Some 1%Q |};
                   prompt_content := PromptText "a cat" |}];
     image := Some sample_image_parameters;
     transform_params := None; asset := None; extras := None |}.

Definition pass_to (target : string) : list OnStatus :=
  [{| stage_action := [STAGE_ACTION_PASS]; target := Some target |}].
Definition return_ : list OnStatus :=
  [{| stage_action := [STAGE_ACTION_RETURN]; target := None |}].

(** A chain as [transform] builds it: no stage carries image parameters. *)
Definition plain_chain : ChainRequest :=
  {| request_id := "xform_chain";
     stage := [{| id := "0"; request := sample_transform_request (ColorAdjust "a");
                  on_status := pass_to "1" |};
               {| id := "1"; request := sample_transform_request (Resample "b");
                  on_status := return_ |}] |}.

(** A chain as [transform_and_generate] builds it: only the last stage
    carries image parameters. *)
Definition image_chain : ChainRequest :=
  {| request_id := "xform_gen_chain";
     stage := [{| id := "0"; request := sample_transform_request (Resample "b");
                  on_status := pass_to "1" |};
               {| id := "1"; request := sample_generate_request;
                  on_status := return_ |}] |}.

Fixpoint contains_slash (s : string) : bool :=
  match s with
  | EmptyString => false
  | String c s' => Ascii.eqb c slash || contains_slash s'
  end.

(** [aid] is the asset id carried by the text a backend returned: the part
    after the last ["/"] when there is one, the whole text otherwise. *)
Definition asset_id_of (returned aid : string) : Prop :=
  if contains_slash returned
  then (exists pre, returned = String.append pre (String slash aid))
       /\ contains_slash aid = false
  else aid = returned.

Definition empty_store : Store :=
  {| world := empty_world; _metadata_index := ∅; index_file := None;
     invocations := [] |}.

Definition sample_project : ProjectRecord :=
  {| proj_id := "proj1"; title := "demo"; file_id := "file1" |}.

Definition text_answer (s : string) : list Answer :=
  [{| artifacts := [{| artifact_type := ARTIFACT_TEXT; mime := ""; uuid := "";
                       data := Text s |}] |}].

(** The asset service stores what it is sent and answers a PUT with the path
    of the new asset; the filesystem refuses the paths in [denied]. *)
Definition storing_env (denied : string -> bool) : Env :=
  {| stub := fun _ _ => RpcStream (text_answer "proj1/asset-1");
     proj_stub_Delete := fun _ => None;
     uuid4 := fun n => String.append "uuid-" (String (ascii_of_nat (48 + n)) "");
     write_denied := denied;
     image_to_png_bytes := sample_png |}.

(** The two asset writes of [Project], to state a property of both. *)
Inductive AssetWrite :=
  | ImageWrite (im : Image) (u : AssetUse)
  | VideoWrite (video_path : string).

Definition backend_write (b : StorageBackend.t) (self : ProjectRecord)
    (wr : AssetWrite) (asset_id : option string) : M string :=
  match wr with
  | ImageWrite im u => StorageBackend.put_image_asset b self im u asset_id
  | VideoWrite video_path => StorageBackend.put_video_asset b self video_path asset_id
  end.

Definition project_write (env : Env) (backends : list StorageBackend.t)
    (self : ProjectRecord) (wr : AssetWrite) : PM (list string) :=
  match wr with
  | ImageWrite im u => Project.put_image_asset env backends self im u
  | VideoWrite video_path => Project.put_video_asset env backends self video_path
  end.



(** [ctx] after [ctx._debug_no_chains = flag]. *)
Definition with_debug (ctx : Context) (flag : bool) : Context :=
  {| _asset := _asset ctx; _generate := _generate ctx; _inpaint := _inpaint ctx;
     _interpolate := _interpolate ctx; _transform := _transform ctx;
     _debug_no_chains := flag; _max_retries := _max_retries ctx;
     _retry_delay := _retry_delay ctx; _retry_obfuscation := _retry_obfuscation ctx;
     _retry_schedule_offset := _retry_schedule_offset ctx |}.

(** A transform service that answers every call with one image. *)
Definition image_env : Env :=
  {| stub := fun _ _ =>
       RpcStream [{| artifacts := [{| artifact_type := ARTIFACT_IMAGE; mime := "image/png";
                                      uuid := ""; data := Binary "out" |}] |}];
     proj_stub_Delete := fun _ => None;
     uuid4 := fun _ => "00000000-0000-4000-8000-000000000000";
     write_denied := fun _ => false;
     image_to_png_bytes := sample_png |}.

(** A world with one video file, after three uuids have been drawn. *)
Definition video_world : World :=
  {| rpc_count := 0; trace := []; fs := {[ "clips/in.mp4" := "frames" ]};
     uuid_count := 3 |}.



(** * Further vocabulary *)

(** The artifacts of a response stream, in the order they arrive. *)
Definition stream_artifacts (response : list Answer) : list Artifact :=
  flat_map artifacts response.

Definition of_kind (kind : ArtifactType) (a : Artifact) : bool :=
  bool_decide (artifact_type a = kind).

(** The request dispatched after [k] obfuscation retries of [rq]: the
    adjustments of attempts [0 .. k-1], applied in order. *)
Definition adjusted_upto (ctx : Context) (rq : Request) (k : nat) : Request :=
  fold_left (fun rq attempt => _adjust_request_for_retry ctx rq (Z.of_nat attempt))
            (seq 0 k) rq.

Definition seeds_of (rq : Request) : list Z :=
  match image rq with
  | Some im => seed im
  | None => []
  end.

(** How the outcome [r] of a run is explained by the last call of its trace
    [T]: a value is the decoding of the last answer, which carries no
    obfuscation; a classifier rejection carries the first obfuscating
    classification of the last answer; an out-of-credits failure carries the
    details of the last, RESOURCE_EXHAUSTED, transport error; a transport
    error raised is the one of the last call. *)
Definition last_call_explains (env : Env) (r : Res Results) (T : list Event) : Prop :=
  match r with
  | Ok results =>
      exists pre n rq response,
        T = pre ++ [EvCall n rq] /\ stub env n rq = RpcStream response
        /\ results = _process_response response /\ obfuscation results = None
  | Raise (ClassifierException ce) =>
      exists pre n rq response,
        T = pre ++ [EvCall n rq] /\ stub env n rq = RpcStream response
        /\ obfuscation (_process_response response) = Some ce
  | Raise (OutOfCreditsException d) =>
      exists pre n rq e,
        T = pre ++ [EvCall n rq] /\ stub env n rq = RpcFailed e
        /\ code e = Some RESOURCE_EXHAUSTED /\ d = details e
  | Raise (RpcErrorRaised e) =>
      exists pre n rq,
        T = pre ++ [EvCall n rq] /\ stub env n rq = RpcFailed e
        /\ code e <> Some RESOURCE_EXHAUSTED
  | Raise _ => True
  end.

(** The service is unavailable once, then answers. *)
Definition recovering_env : Env :=
  {| stub := fun n _ =>
       match n with
       | O => RpcFailed {| code := Some UNAVAILABLE; details := "try again" |}
       | S _ => RpcStream (text_answer "ok")
       end;
     proj_stub_Delete := fun _ => None;
     uuid4 := fun _ => "00000000-0000-4000-8000-000000000000";
     write_denied := fun _ => false;
     image_to_png_bytes := sample_png |}.

(** [rq.image.parameters[0].schedule.start], when all of it is there. *)
Definition first_start (rq : Request) : option Q :=
  im ← image rq; p ← head (parameters im); s ← schedule p; start s.

(** An attempt at which a transport failure is followed by a sleep. *)
Definition retried (ctx : Context) (attempt : Z) : bool :=
  negb (attempt =? _max_retries ctx).

(** [default_context] after [_max_retries = -1]. *)
Definition no_attempt_context : Context :=
  {| _asset := _asset default_context; _generate := _generate default_context;
     _inpaint := _inpaint default_context; _interpolate := _interpolate default_context;
     _transform := _transform default_context;
     _debug_no_chains := false; _max_retries := -1; _retry_delay := 1;
     _retry_obfuscation := false; _retry_schedule_offset := 1 # 10 |}.

(** The calls a [Project] operation added to the log were made on the
    backends at positions [0, 1, ...] in that order (registration order),
    each at most once. *)
Definition in_registration_order (backends : list StorageBackend.t)
    (new : list (nat * BackendCall)) : Prop :=
  map fst new = seq 0 (length new) /\ (length new <= length backends)%nat.

(** What the backend at position [ic.1] of [backends] does when it is asked
    [ic.2] on behalf of the project [self]; the value it returns is
    dropped. *)
Definition perform (backends : list StorageBackend.t) (self : ProjectRecord)
    (ic : nat * BackendCall) : M unit :=
  match backends !! ic.1 with
  | None => raise IndexError
  | Some b =>
      match ic.2 with
      | CallDeleteProject id => StorageBackend.delete_project b id
      | CallGetProjectSettings asset_id =>
          StorageBackend.get_project_settings b self asset_id;; mret tt
      | CallPutProjectSettings data =>
          StorageBackend.put_project_settings b self data;; mret tt
      | CallGetImageAsset asset_id u =>
          StorageBackend.get_image_asset b self asset_id u;; mret tt
      | CallPutImageAsset im u asset_id =>
          StorageBackend.put_image_asset b self im u asset_id;; mret tt
      | CallGetVideoAsset asset_id u =>
          StorageBackend.get_video_asset b self asset_id u;; mret tt
      | CallPutVideoAsset video_path asset_id =>
          StorageBackend.put_video_asset b self video_path asset_id;; mret tt
      end
  end.

(** The calls of a log made one after the other, each in the world the one
    before it left: it returns when every one of them returned. *)
Fixpoint replay (backends : list StorageBackend.t) (self : ProjectRecord)
    (log : list (nat * BackendCall)) : M unit :=
  match log with
  | [] => mret tt
  | ic :: log' => perform backends self ic;; replay backends self log'
  end.

(** The calls [new], made from the world [w], stopped at the first failure:
    every call but the last returned, the last one raised [e] and left the
    world [w'], and nothing was called after it. *)
Definition stopped_at_failure (backends : list StorageBackend.t) (self : ProjectRecord)
    (new : list (nat * BackendCall)) (w : World) (e : Exn) (w' : World) : Prop :=
  exists pre last w1,
    new = pre ++ [last]
    /\ replay backends self pre w = (Ok tt, w1)
    /\ perform backends self last w1 = (Raise e, w').

(** A backend whose deletion is refused. *)
Definition refusing_backend : StorageBackend.t :=
  {| StorageBackend.primary := true;
     StorageBackend.primary_fs := false;
     StorageBackend.delete_project := fun _ => raise (Exception "read-only store");
     StorageBackend.get_project_settings := fun _ _ => mret "";
     StorageBackend.put_project_settings := fun _ _ => mret "settings-name";
     StorageBackend.get_image_asset := fun _ _ _ => mret (Pixels "");
     StorageBackend.put_image_asset := fun _ _ _ _ => raise (Exception "read-only store");
     StorageBackend.get_video_asset := fun _ _ _ => mret "";
     StorageBackend.put_video_asset := fun _ _ _ => mret "" |}.

(** A service whose asset endpoint is out of credits. *)
Definition broke_env : Env :=
  {| stub := fun _ _ => RpcFailed {| code := Some RESOURCE_EXHAUSTED;
                                     details := "no credits left" |};
     proj_stub_Delete := fun _ => None;
     uuid4 := fun _ => "00000000-0000-4000-8000-000000000000";
     write_denied := fun _ => false;
     image_to_png_bytes := sample_png |}.

(** A backend that is primary_fs only and names every asset itself. *)
Definition naming_backend : StorageBackend.t :=
  {| StorageBackend.primary := false;
     StorageBackend.primary_fs := true;
     StorageBackend.delete_project := fun _ => mret tt;
     StorageBackend.get_project_settings := fun _ _ => mret "";
     StorageBackend.put_project_settings := fun _ _ => mret "settings-name";
     StorageBackend.get_image_asset := fun _ _ _ => mret (Pixels "");
     StorageBackend.put_image_asset := fun _ _ _ _ => mret "local-name";
     StorageBackend.get_video_asset := fun _ _ _ => mret "";
     StorageBackend.put_video_asset := fun _ _ _ => mret "" |}.

(** The stages form a directed path: their ids are pairwise different, every
    stage but the last passes to the id of its successor, and the last one
    returns. *)
Definition path_chain (stages : list Stage) : Prop :=
  NoDup (map id stages)
  /\ forall i st, stages !! i = Some st ->
       match stages !! S i with
       | Some next =>
           on_status st = [{| stage_action := [STAGE_ACTION_PASS];
                              target := Some (id next) |}]
       | None =>
           on_status st = [{| stage_action := [STAGE_ACTION_RETURN]; target := None |}]
       end.

(** * Further helpers of [utils.py] *)

(** [str(z)] of an [int]. *)
Definition str_int (z : Z) : string := NilZero.string_of_int (Z.to_int z).

(** [s[:stop]]: a negative [stop] counts from the end. *)
Definition slice_to (s : string) (stop : Z) : string :=
  let n := Z.of_nat (String.length s) in
  let stop := if stop <? 0 then Z.max 0 (n + stop) else stop in
  substring 0 (Z.to_nat stop) s.

Definition truncate_fit (prefix prompt ext : string) (ts idx max : Z) : string :=
  let post := String.append "_" (String.append (str_int ts)
                (String.append "_" (str_int idx))) in
  let prompt_budget := max in
  let prompt_budget := prompt_budget - Z.of_nat (String.length prefix) in
  let prompt_budget := prompt_budget - Z.of_nat (String.length post) in
  let prompt_budget := prompt_budget - (Z.of_nat (String.length ext) + 1) in
  String.append prefix (String.append (slice_to prompt prompt_budget)
    (String.append post ext)).

(** The part of a file name [truncate_fit] never shortens. *)
Definition fixed_length (prefix ext : string) (ts idx : Z) : Z :=
  Z.of_nat (String.length prefix)
  + Z.of_nat (String.length (String.append "_" (String.append (str_int ts)
                               (String.append "_" (str_int idx)))))
  + Z.of_nat (String.length ext).

(** The request the non-chained path of [transform_and_generate] dispatches
    for the parameter set [p] at position [i], when [t j] is the tensor that
    came back from position [j]: the request as built for position 0, and
    for a later position the request whose only prompt, the image, has been
    replaced by the tensor of the position before. *)
Definition spliced_request (env : Env) (ctx : Context) (im : Image)
    (extras : option Struct) (t : nat -> Tensor) (i : nat) (p : TransformParameters)
  : Request :=
  match i with
  | O => tensor_request env ctx im extras p
  | S j => replace_last_prompt (tensor_request env ctx im extras p)
                               (tensor_to_prompt (t j))
  end.

(** A service that answers the calls 0 and 1 with a tensor and every later
    call with an image. *)
Definition tensor_then_image_env : Env :=
  {| stub := fun n _ =>
       match n with
       | O | S O =>
           RpcStream [{| artifacts := [{| artifact_type := ARTIFACT_TENSOR; mime := "";
                                          uuid := ""; data := TensorData "t" |}] |}]
       | _ =>
           RpcStream [{| artifacts := [{| artifact_type := ARTIFACT_IMAGE; mime := "";
                                          uuid := ""; data := Binary "out" |}] |}]
       end;
     proj_stub_Delete := fun _ => None;
     uuid4 := fun _ => "00000000-0000-4000-8000-000000000000";
     write_denied := fun _ => false;
     image_to_png_bytes := sample_png |}.

(** * Properties of the orchestrator *)

Lemma flat_map_map {A B C} (g : A -> B) (f : B -> list C) (l : list A) :
  flat_map f (map g l) = flat_map (fun x => f (g x)) l.
Proof. induction l as [|x l IH]; simpl; by rewrite ?IH. Qed.

Lemma backoff_trace_flat_map delay request k : forall n a,
  backoff_trace delay request n a k =
  flat_map (fun i => [EvCall (n + i) request;
                      EvSleep (delay * inject_Z (2 ^ Z.of_nat (a + i)))]) (seq 0 k)
  ++ [EvCall (n + k) request].
Proof.
  induction k as [|k IH]; intros n a; simpl.
  - by rewrite Nat.add_0_r.
  - rewrite !Nat.add_0_r. do 2 f_equal.
    rewrite IH, <- seq_shift, flat_map_map.
    f_equal; [|by rewrite Nat.add_succ_r].
    apply flat_map_ext. intros i. by rewrite !Nat.add_succ_r.
Qed.

Lemma backoff_trace_calls delay request k : forall n a,
  length (calls (backoff_trace delay request n a k)) = S k.
Proof.
  induction k as [|k IH]; intros n a; [done|].
  specialize (IH (S n) (S a)). unfold calls in *. simpl. by rewrite IH.
Qed.

Lemma backoff_trace_sleeps delay request k : forall n a,
  sleeps (backoff_trace delay request n a k) =
  map (fun i => (delay * inject_Z (2 ^ Z.of_nat i))%Q) (seq a k).
Proof.
  induction k as [|k IH]; intros n a; [done|].
  simpl. f_equal. apply IH.
Qed.

Lemma backoff_trace_slept delay request k : forall n a,
  (slept (backoff_trace delay request n a k) ==
   delay * inject_Z (2 ^ Z.of_nat a) * (inject_Z (2 ^ Z.of_nat k) - 1))%Q.
Proof.
  induction k as [|k IH]; intros n a.
  - cbn [backoff_trace slept]. change (2 ^ Z.of_nat 0) with 1.
    change (inject_Z 1) with 1%Q. ring.
  - cbn [backoff_trace slept]. rewrite IH.
    rewrite !Nat2Z.inj_succ, !Z.pow_succ_r by lia.
    rewrite !inject_Z_mult. ring.
Qed.

Lemma sleep_nonneg q w : (0 <= q)%Q -> sleep q w = (Ok tt, log_sleep q w).
Proof.
  intros Hq. unfold sleep. destruct (Qlt_le_dec q 0) as [Hlt|]; [|done].
  exfalso. apply (Qlt_not_le _ _ Hlt Hq).
Qed.

Lemma backoff_nonneg delay a : (0 <= delay)%Q -> (0 <= delay * inject_Z (2 ^ a))%Q.
Proof.
  intros Hd. apply Qmult_le_0_compat; [done|].
  change 0%Q with (inject_Z 0). rewrite <- Zle_Qle. apply Z.pow_nonneg. lia.
Qed.

Section OrchestratorFacts.
Variable env : Env.
Variable ctx : Context.

(** The loop under persistent transport failure, started at any attempt. *)
Lemma run_attempts_transport_failures endpoint request (err : nat -> RpcError)
    results k : forall a w,
  Z.of_nat (a + k) = _max_retries ctx ->
  (0 <= _retry_delay ctx)%Q ->
  engine_matches endpoint request = true ->
  (forall i, (i <= k)%nat ->
     stub env (rpc_count w + i) request = RpcFailed (err (a + i)%nat)) ->
  (forall i, code (err i) <> Some RESOURCE_EXHAUSTED) ->
  run_attempts env ctx endpoint (map Z.of_nat (seq a (S k))) request results w =
    (Raise (RpcErrorRaised (err (a + k)%nat)),
     {| rpc_count := rpc_count w + S k;
        trace := trace w ++ backoff_trace (_retry_delay ctx) request (rpc_count w) a k;
        fs := fs w; uuid_count := uuid_count w |}).
Proof.
  induction k as [|k IH]; intros a w HN Hd Heng Hstub Hcode.
  - cbn [seq map run_attempts]. rewrite Heng. cbn [negb].
    specialize (Hstub 0%nat (Nat.le_refl _)). rewrite !Nat.add_0_r in *.
    rewrite Hstub.
    rewrite bool_decide_eq_false_2 by apply Hcode.
    rewrite bool_decide_eq_true_2 by done.
    unfold log_call. simpl. do 3 f_equal. lia.
  - replace (map Z.of_nat (seq a (S (S k))))
      with (Z.of_nat a :: map Z.of_nat (seq (S a) (S k))) by done.
    cbn [run_attempts]. rewrite Heng. cbn [negb].
    pose proof (Hstub 0%nat ltac:(lia)) as H0. rewrite !Nat.add_0_r in H0.
    rewrite H0.
    rewrite bool_decide_eq_false_2 by apply Hcode.
    rewrite bool_decide_eq_false_2 by lia.
    rewrite sleep_nonneg by (by apply backoff_nonneg).
    rewrite (IH (S a)); try done; try lia.
    + cbn [log_sleep log_call rpc_count trace fs uuid_count backoff_trace].
      replace (S a + k)%nat with (a + S k)%nat by lia.
      replace (S (rpc_count w) + S k)%nat with (rpc_count w + S (S k))%nat by lia.
      by rewrite <- !app_assoc.
    + intros i Hi. cbn [log_sleep log_call rpc_count].
      replace (S (rpc_count w) + i)%nat with (rpc_count w + S i)%nat by lia.
      rewrite Hstub by lia. do 2 f_equal. lia.
Qed.

End OrchestratorFacts.

(** ** Retry bound under persistent transport failure *)

(** C1. When every attempt of a request ends in a transport error whose code
    is not RESOURCE_EXHAUSTED, [_run_request] dispatches the request
    [N + 1] times for [N = _max_retries] (N retries), sleeps
    [_retry_delay * 2^attempt] after each of the first [N] failures (in total
    [_retry_delay * (2^N - 1)] seconds), and raises the transport error of
    the last attempt itself. *)
Theorem run_request_retry_bound (env : Env) (ctx : Context) (endpoint : Endpoint)
    (request : AnyRequest) (err : nat -> RpcError) (w : World) (N : nat) :
  _max_retries ctx = Z.of_nat N ->
  (0 <= _retry_delay ctx)%Q ->
  engine_matches endpoint request = true ->
  (forall i, (i <= N)%nat ->
     stub env (rpc_count w + i) request = RpcFailed (err i)) ->
  (forall i, code (err i) <> Some RESOURCE_EXHAUSTED) ->
  exists w' T,
    _run_request env ctx endpoint request w = (Raise (RpcErrorRaised (err N)), w')
    /\ trace w' = trace w ++ T
    /\ T = flat_map (failed_attempt ctx request (rpc_count w)) (seq 0 N)
           ++ [EvCall (rpc_count w + N) request]
    /\ length (calls T) = S N
    /\ sleeps T = map (fun i => (_retry_delay ctx * inject_Z (2 ^ Z.of_nat i))%Q) (seq 0 N)
    /\ (slept T == _retry_delay ctx * (inject_Z (2 ^ Z.of_nat N) - 1))%Q
    /\ fs w' = fs w.
Proof.
  intros HN Hd Heng Hstub Hcode.
  eexists _, (backoff_trace (_retry_delay ctx) request (rpc_count w) 0 N).
  split; [|split; [|split; [|split; [|split; [|split]]]]].
  - unfold _run_request, range. rewrite HN.
    replace (Z.to_nat (Z.of_nat N + 1)) with (S N) by lia.
    apply (run_attempts_transport_failures env ctx endpoint request err None N 0%nat w);
      done.
  - done.
  - apply backoff_trace_flat_map.
  - apply backoff_trace_calls.
  - apply backoff_trace_sleeps.
  - rewrite backoff_trace_slept. change (2 ^ Z.of_nat 0) with 1.
    change (inject_Z 1) with 1%Q. ring.
  - done.
Qed.

Lemma run_request_retry_bound_witness :
  exists w' T,
    _run_request (failing_env {| code := Some UNAVAILABLE; details := "down" |})
      default_context (_generate default_context)
      (Single (text_request "stable-diffusion-v1-5" "a cat")) empty_world
    = (Raise (RpcErrorRaised {| code := Some UNAVAILABLE; details := "down" |}), w')
    /\ trace w' = T /\ length (calls T) = 6%nat /\ (slept T == 31)%Q.
Proof.
  destruct (run_request_retry_bound
              (failing_env {| code := Some UNAVAILABLE; details := "down" |})
              default_context (_generate default_context)
              (Single (text_request "stable-diffusion-v1-5" "a cat"))
              (fun _ => {| code := Some UNAVAILABLE; details := "down" |})
              empty_world 5%nat)
    as (w' & T & Hrun & Htr & _ & Hcalls & _ & Hslept & _).
  - reflexivity.
  - simpl. discriminate.
  - reflexivity.
  - intros i _. reflexivity.
  - intros i. simpl. discriminate.
  - exists w', T. repeat split; assumption.
Defined.

(** ** Quota short-circuit *)

Lemma quota_terminal_split env r T : quota_terminal env r T ->
  forall pre post n rq e,
    T = pre ++ EvCall n rq :: post ->
    stub env n rq = RpcFailed e ->
    code e = Some RESOURCE_EXHAUSTED ->
    post = [] /\ r = Raise (OutOfCreditsException (details e)).
Proof.
  induction T as [|ev T IH]; intros HT pre post n rq e Hsplit Hstub Hcode.
  - by destruct pre.
  - destruct pre as [|ev' pre]; simpl in Hsplit; inversion Hsplit; subst.
    + destruct HT as [Hhd _]. by apply Hhd.
    + apply (IH ltac:(by destruct ev'; [destruct HT|]) pre post n rq e); done.
Qed.

Lemma run_attempts_quota_terminal env ctx endpoint attempts :
  forall request results w r w',
    run_attempts env ctx endpoint attempts request results w = (r, w') ->
    exists T, trace w' = trace w ++ T /\ quota_terminal env r T.
Proof.
  induction attempts as [|attempt rest IH]; intros request results w r w' Hrun.
  - exists []. cbn [run_attempts] in Hrun.
    destruct results; inversion Hrun; subst; by rewrite app_nil_r.
  - cbn [run_attempts] in Hrun.
    destruct (engine_matches endpoint request); cbn [negb] in Hrun;
      [|inversion Hrun; subst; exists []; by rewrite app_nil_r].
    destruct (stub env (rpc_count w) request) as [e|response] eqn:Hstub.
    + destruct (bool_decide (code e = Some RESOURCE_EXHAUSTED)) eqn:Hre.
      { inversion Hrun; subst. exists [EvCall (rpc_count w) request].
        split; [done|]. simpl. split; [|done].
        intros e' He' _. rewrite Hstub in He'. by inversion He'; subst. }
      apply bool_decide_eq_false in Hre.
      destruct (bool_decide (attempt = _max_retries ctx)).
      { inversion Hrun; subst. exists [EvCall (rpc_count w) request].
        split; [done|]. simpl. split; [|done].
        intros e' He' Hc. rewrite Hstub in He'. inversion He'; subst. done. }
      unfold sleep in Hrun.
      destruct (Qlt_le_dec _ 0).
      { inversion Hrun; subst. exists [EvCall (rpc_count w) request].
        split; [done|]. simpl. split; [|done].
        intros e' He' Hc. rewrite Hstub in He'. inversion He'; subst. done. }
      apply IH in Hrun as (T & HT & Hq).
      exists (EvCall (rpc_count w) request :: EvSleep
                (_retry_delay ctx * inject_Z (2 ^ attempt)) :: T).
      split; [by rewrite HT; simpl; rewrite <- !app_assoc|].
      simpl. split; [|done].
      intros e' He' Hc. rewrite Hstub in He'. inversion He'; subst. done.
    + cbn zeta in Hrun.
      destruct (obfuscation (_process_response response)) as [ce|].
      * destruct (bool_decide (attempt = _max_retries ctx) || negb (_retry_obfuscation ctx)).
        { inversion Hrun; subst. exists [EvCall (rpc_count w) request].
          split; [done|]. simpl. split; [|done].
          intros e' He'. rewrite Hstub in He'. discriminate. }
        destruct (retry_adjusted ctx ce request attempt) as [request'|ex].
        -- apply IH in Hrun as (T & HT & Hq).
           exists (EvCall (rpc_count w) request :: T).
           split; [by rewrite HT; simpl; rewrite <- !app_assoc|].
           simpl. split; [|done].
           intros e' He'. rewrite Hstub in He'. discriminate.
        -- inversion Hrun; subst. exists [EvCall (rpc_count w) request].
           split; [done|]. simpl. split; [|done].
           intros e' He'. rewrite Hstub in He'. discriminate.
      * inversion Hrun; subst. exists [EvCall (rpc_count w) request].
        split; [done|]. simpl. split; [|done].
        intros e' He'. rewrite Hstub in He'. discriminate.
Qed.

(** C2. Whatever the configuration and on whichever attempt it happens: a
    call of a run of [_run_request] that the service fails with code
    RESOURCE_EXHAUSTED is the last event of the run (no later attempt and no
    backoff sleep follow it), and the run raises [OutOfCreditsException] with
    the details string of that failure. *)
Theorem run_request_quota_short_circuit (env : Env) (ctx : Context)
    (endpoint : Endpoint) (request : AnyRequest) (w w' : World) (r : Res Results)
    (pre post : list Event) (n : nat) (rq : AnyRequest) (e : RpcError) :
  _run_request env ctx endpoint request w = (r, w') ->
  trace w' = trace w ++ pre ++ EvCall n rq :: post ->
  stub env n rq = RpcFailed e ->
  code e = Some RESOURCE_EXHAUSTED ->
  post = [] /\ r = Raise (OutOfCreditsException (details e)).
Proof.
  intros Hrun Htrace Hstub Hcode.
  apply run_attempts_quota_terminal in Hrun as (T & HT & Hq).
  rewrite HT in Htrace. apply app_inv_head in Htrace.
  by apply (quota_terminal_split env r T Hq pre post n rq e).
Qed.

Lemma run_request_quota_short_circuit_witness :
  @nil Event = []
  /\ _run_request exhausted_env default_context (_generate default_context)
       (Single (text_request "stable-diffusion-v1-5" "a cat")) empty_world
     = (Raise (OutOfCreditsException "out of credits"),
        {| rpc_count := 2;
           trace := [EvCall 0 (Single (text_request "stable-diffusion-v1-5" "a cat"));
                     EvSleep (1 * inject_Z (2 ^ 0));
                     EvCall 1 (Single (text_request "stable-diffusion-v1-5" "a cat"))];
           fs := ∅; uuid_count := 0 |}).
Proof.
  split; [reflexivity|].
  destruct (_run_request exhausted_env default_context (_generate default_context)
       (Single (text_request "stable-diffusion-v1-5" "a cat")) empty_world)
    as [r w'] eqn:Hrun.
  pose proof Hrun as Hval. vm_compute in Hval.
  injection Hval as Hr Hw.
  destruct (run_request_quota_short_circuit exhausted_env default_context
     (_generate default_context)
     (Single (text_request "stable-diffusion-v1-5" "a cat")) empty_world w' r
     [EvCall 0 (Single (text_request "stable-diffusion-v1-5" "a cat"));
      EvSleep (1 * inject_Z (2 ^ 0))] [] 1%nat
     (Single (text_request "stable-diffusion-v1-5" "a cat"))
     {| code := Some RESOURCE_EXHAUSTED; details := "out of credits" |})
    as [_ Hres].
  - exact Hrun.
  - rewrite <- Hw. reflexivity.
  - reflexivity.
  - reflexivity.
  - rewrite Hres, <- Hw. reflexivity.
Defined.


(** ** Mutation of the request on an obfuscation retry *)

Lemma py_clamp x : (py_max 0 (py_min 1 x) == clamp x 0 1)%Q.
Proof.
  unfold py_max, py_min, clamp.
  repeat (destruct (Qlt_le_dec _ _)); try reflexivity; lra.
Qed.

Lemma adjust_step_adjusted offset p : step_adjusted offset true p (adjust_step offset p).
Proof.
  destruct p as [ss sa [[[x|] e]|] g];
    unfold step_adjusted, adjust_step, shift_start; cbn; try done.
  split; [done|]. split; [done|]. split; [done|]. split; [done|].
  apply py_clamp.
Qed.

Lemma step_adjusted_refl offset p : step_adjusted offset false p p.
Proof.
  unfold step_adjusted. repeat split; try done.
  destruct (schedule p) as [s|]; [|done]. split; [done|].
  by destruct (start s).
Qed.

Lemma adjust_image_adjusted ctx attempt im :
  image_adjusted ctx attempt im (adjust_image ctx attempt im).
Proof.
  unfold image_adjusted, adjust_image; cbn.
  repeat split; try done.
  - induction (seed im); constructor; done.
  - destruct (parameters im) as [|p ps]; [done|].
    destruct (decide (attempt > 0)) as [Hpos|Hneg].
    + rewrite bool_decide_eq_true_2 by done. split; [|done].
      apply adjust_step_adjusted.
    + rewrite bool_decide_eq_false_2 by done. split; [|done].
      apply step_adjusted_refl.
Qed.

Lemma adjust_request_adjusted ctx attempt rq :
  is_Some (image rq) ->
  request_adjusted ctx attempt rq (_adjust_request_for_retry ctx rq attempt).
Proof.
  intros [im Him]. unfold request_adjusted, _adjust_request_for_retry.
  rewrite Him. cbn. split_and!; try done. apply adjust_image_adjusted.
Qed.

Lemma adjust_stage_adjusted ctx attempt st :
  stage_adjusted ctx attempt st (adjust_stage ctx attempt st).
Proof.
  unfold stage_adjusted, adjust_stage.
  destruct (image (request st)) as [im|] eqn:Him; cbn; [|done].
  split_and!; try done. apply adjust_request_adjusted. by rewrite Him.
Qed.

(** C3. An obfuscation answered on an attempt that is not the last, with
    retry-on-obfuscation enabled, to a request the handler adjusts (a request
    with image parameters, or a chain): the loop goes on with a request in
    which every seed is the old seed plus one, in which, when [attempt > 0],
    a present schedule start (of the first step parameter) is
    [clamp(old_start + offset, 0, 1)], and in which nothing else differs; for
    a chain this holds in every stage whose request carries image parameters
    and the other stages are untouched. *)
Theorem obfuscation_retry_mutation (env : Env) (ctx : Context) (endpoint : Endpoint)
    (attempt : Z) (rest : list Z) (request : AnyRequest) (results : option Results)
    (w : World) (response : list Answer) (ce : ClassifierParameters) :
  engine_matches endpoint request = true ->
  stub env (rpc_count w) request = RpcStream response ->
  obfuscation (_process_response response) = Some ce ->
  attempt <> _max_retries ctx ->
  _retry_obfuscation ctx = true ->
  adjustable request ->
  exists request',
    run_attempts env ctx endpoint (attempt :: rest) request results w =
      run_attempts env ctx endpoint rest request'
        (Some (_process_response response)) (log_call request w)
    /\ retry_mutation ctx attempt request request'.
Proof.
  intros Heng Hstub Hobf Hatt Hretry Hadj.
  cbn [run_attempts]. rewrite Heng, Hstub. cbn [negb]. cbn zeta. rewrite Hobf.
  rewrite bool_decide_eq_false_2 by done. rewrite Hretry. cbn [negb orb].
  destruct request as [rq|crq]; cbn [retry_adjusted].
  - destruct Hadj as [im Him]. rewrite Him.
    eexists; split; [reflexivity|]. cbn.
    apply adjust_request_adjusted. by rewrite Him.
  - eexists; split; [reflexivity|]. cbn. split; [done|].
    induction (stage crq); constructor; [apply adjust_stage_adjusted|done].
Qed.

Lemma obfuscation_retry_mutation_witness :
  exists request',
    run_attempts obfuscating_env retry_context (_transform retry_context)
      [1; 2] (Chain image_chain) None empty_world =
    run_attempts obfuscating_env retry_context (_transform retry_context)
      [2] request'
      (Some (_process_response
               [{| artifacts :=
                     [{| artifact_type := ARTIFACT_CLASSIFICATIONS; mime := "";
                         uuid := ""; data := Classifier obfuscate_result |}] |}]))
      (log_call (Chain image_chain) empty_world)
    /\ retry_mutation retry_context 1 (Chain image_chain) request'.
Proof.
  apply (obfuscation_retry_mutation obfuscating_env retry_context
           (_transform retry_context) 1 [2] (Chain image_chain) None empty_world
           _ obfuscate_result).
  - reflexivity.
  - reflexivity.
  - reflexivity.
  - simpl. lia.
  - reflexivity.
  - exact I.
Defined.

(** The adjustment on the sample request: seeds 41 and 7 become 42 and 8; at
    attempt 0 the start 19/20 is kept, at attempt 1 it is clamped to 1. *)
Example adjust_sample_first_retry :
  image (_adjust_request_for_retry retry_context sample_generate_request 0) =
  Some {| height := 512; width := 512; seed := [42; 8]; samples := 1; steps := 50;
          diffusion := 0; parameters := parameters sample_image_parameters;
          masked_area_init := 0 |}.
Proof. reflexivity. Qed.

Example adjust_sample_second_retry :
  image (_adjust_request_for_retry retry_context sample_generate_request 1) =
  Some {| height := 512; width := 512; seed := [42; 8]; samples := 1; steps := 50;
          diffusion := 0;
          parameters := [{| scaled_step := 0;
                            sampler := Some {| cfg_scale := Some 7%Q;
                                               init_noise_scale := Some 1%Q |};
                            schedule := Some {| start := Some 1%Q; end_ := None |};
                            guidance := None |}];
          masked_area_init := 0 |}.
Proof. reflexivity. Qed.

(** ** Obfuscation of a request that cannot be adjusted *)

(** A plain request without image parameters: the handler raises the
    classifier rejection at once, on any attempt. *)
Lemma obfuscation_without_image_raises env ctx endpoint attempt rest rq results w
    response ce :
  engine_matches endpoint (Single rq) = true ->
  stub env (rpc_count w) (Single rq) = RpcStream response ->
  obfuscation (_process_response response) = Some ce ->
  image rq = None ->
  run_attempts env ctx endpoint (attempt :: rest) (Single rq) results w =
    (Raise (ClassifierException ce), log_call (Single rq) w).
Proof.
  intros Heng Hstub Hobf Him.
  cbn [run_attempts]. rewrite Heng, Hstub. cbn [negb]. cbn zeta. rewrite Hobf.
  destruct (_ || _); [done|]. cbn [retry_adjusted]. by rewrite Him.
Qed.

(** A chain none of whose stages carries image parameters is not changed by
    the handler, yet the loop goes on with it. *)
Lemma chain_without_image_unchanged ctx attempt (stages : list Stage) :
  Forall (fun st => image (request st) = None) stages ->
  map (adjust_stage ctx attempt) stages = stages.
Proof.
  induction 1 as [|st stages Hst _ IH]; [done|].
  cbn [map]. rewrite IH. unfold adjust_stage. by rewrite Hst.
Qed.

Lemma chain_without_image_loops env ctx endpoint attempt rest crq results w
    response ce :
  stub env (rpc_count w) (Chain crq) = RpcStream response ->
  obfuscation (_process_response response) = Some ce ->
  attempt <> _max_retries ctx ->
  _retry_obfuscation ctx = true ->
  Forall (fun st => image (request st) = None) (stage crq) ->
  run_attempts env ctx endpoint (attempt :: rest) (Chain crq) results w =
    run_attempts env ctx endpoint rest (Chain crq)
      (Some (_process_response response)) (log_call (Chain crq) w).
Proof.
  intros Hstub Hobf Hatt Hretry Hno.
  cbn [run_attempts engine_matches negb]. rewrite Hstub. cbn zeta. rewrite Hobf.
  rewrite bool_decide_eq_false_2 by done. rewrite Hretry. cbn [negb orb retry_adjusted].
  rewrite chain_without_image_unchanged by done. by destruct crq.
Qed.

(** C4 (the code departs from it). With retry-on-obfuscation enabled, a chain
    whose stages carry no image parameters and that the service keeps
    obfuscating is dispatched [_max_retries + 1 = 6] times, each time
    unchanged, and the classifier rejection is raised only after the last
    attempt instead of on the first occurrence. *)
Theorem chain_without_image_retried_unmutated :
  _run_request obfuscating_env retry_context (_transform retry_context)
    (Chain plain_chain) empty_world =
  (Raise (ClassifierException obfuscate_result),
   {| rpc_count := 6;
      trace := map (fun n => EvCall n (Chain plain_chain)) (seq 0 6);
      fs := ∅; uuid_count := 0 |}).
Proof. vm_compute. reflexivity. Qed.

(** * Properties of the storage layer *)

Lemma after_last_slash_None s :
  after_last_slash s = None <-> contains_slash s = false.
Proof.
  induction s as [|c s IH]; [done|]. cbn.
  destruct (after_last_slash s) as [r|].
  - split; [done|]. intros H. apply orb_false_iff in H as [_ H].
    apply IH in H. done.
  - destruct IH as [IH _]. rewrite IH by done. rewrite orb_false_r.
    destruct (Ascii.eqb c slash); split; done.
Qed.

Lemma after_last_slash_Some s r :
  after_last_slash s = Some r ->
  (exists pre, s = String.append pre (String slash r)) /\ contains_slash r = false.
Proof.
  revert r. induction s as [|c s IH]; intros r Hr; [done|]. cbn in Hr.
  destruct (after_last_slash s) as [r'|] eqn:Hs.
  - inversion Hr; subst. destruct (IH r eq_refl) as [[pre Hpre] Hno].
    split; [|done]. exists (String c pre). cbn. by rewrite Hpre.
  - destruct (Ascii.eqb c slash) eqn:Hc; [|done]. inversion Hr; subst.
    apply Ascii.eqb_eq in Hc. subst c.
    split; [by exists EmptyString|]. by apply after_last_slash_None.
Qed.

Lemma rsplit_last_asset_id returned : asset_id_of returned (rsplit_last returned).
Proof.
  unfold asset_id_of, rsplit_last.
  destruct (after_last_slash returned) as [r|] eqn:Hr.
  - destruct (contains_slash returned) eqn:Hc.
    + by apply after_last_slash_Some.
    + apply after_last_slash_None in Hc. congruence.
  - apply after_last_slash_None in Hr. by rewrite Hr.
Qed.

Example rsplit_last_path : rsplit_last "proj1/assets/a-1" = "a-1".
Proof. reflexivity. Qed.

Example rsplit_last_plain : rsplit_last "a-1" = "a-1".
Proof. reflexivity. Qed.

(** ** Identifier propagation *)

Ltac unfold_pm :=
  unfold mbind, mret, PM_bind, PM_ret, invoke, fail,
    Project.add_asset_metadata, Project.save_metadata_index,
    Project.delete_project_metadata in *;
  cbn [world _metadata_index index_file invocations] in *.

(** The write fanned out to a primary backend followed by a mirror. *)
Lemma put_image_asset_primary_then_mirror env (p m : StorageBackend.t) self im u
    s results s' :
  StorageBackend.primary p = true -> StorageBackend.primary_fs p = false ->
  StorageBackend.primary m = false -> StorageBackend.primary_fs m = true ->
  Project.put_image_asset env [p; m] self im u s = (Ok results, s') ->
  exists returned filename w1,
    StorageBackend.put_image_asset p self im u None (world s) = (Ok returned, w1)
    /\ StorageBackend.put_image_asset m self im u (Some (rsplit_last returned)) w1
       = (Ok filename, world s')
    /\ invocations s' = invocations s ++
         [(0%nat, CallPutImageAsset im u None);
          (1%nat, CallPutImageAsset im u (Some (rsplit_last returned)))]
    /\ _metadata_index s' =
         <[proj_id self :=
             <[Some (rsplit_last returned) := AssetMeta "image/png" (Some filename)]>
               (default ∅ (_metadata_index s !! proj_id self))]> (_metadata_index s)
    /\ index_file s' = Some (_metadata_index s')
    /\ results = [rsplit_last returned].
Proof.
  intros Hp Hpfs Hm Hmfs Hrun.
  unfold Project.put_image_asset in Hrun. cbn [Project.put_image_asset_loop] in Hrun.
  unfold_pm.
  destruct (StorageBackend.put_image_asset p self im u None (world s))
    as [[returned|e] w1] eqn:H1; [|done].
  rewrite Hp, Hpfs in Hrun. cbn in Hrun.
  destruct (StorageBackend.put_image_asset m self im u (Some (rsplit_last returned)) w1)
    as [[filename|e] w2] eqn:H2; [|done].
  rewrite Hm, Hmfs in Hrun. cbn in Hrun.
  destruct (write_denied env "metadata_index.json"); [done|].
  inversion Hrun; subst; clear Hrun. cbn.
  exists returned, filename, w1. split_and!; try done.
  by rewrite <- app_assoc.
Qed.

(** A mirror of this repository refuses a write that brings no asset id. *)
Lemma local_mirror_needs_asset_id env root self im u w :
  LocalFileBackend.put_image_asset env false root self im u None w =
  (Raise (ValueError "If asset_id is None, then LocalFileBackend must be primary."), w).
Proof. reflexivity. Qed.

(** C5. [Project.put_image_asset] on a configuration of one primary backend
    and one primary_fs backend (the local mirror of this repository), in
    either registration order: when the write succeeds, the primary was asked
    first and without an id, the mirror was handed the id derived from the
    text the primary returned (the part after its last "/", else the whole
    text) as its [asset_id] argument, and the index holds, under the project
    id, the old entries plus the entry of that id with the file name the
    mirror returned; that index is the persisted one. *)
Theorem put_image_asset_identifier_propagation (env : Env) (root : string)
    (p : StorageBackend.t) (backends : list StorageBackend.t)
    (self : ProjectRecord) (im : Image) (u : AssetUse) (s s' : Store)
    (results : list string) :
  StorageBackend.primary p = true ->
  StorageBackend.primary_fs p = false ->
  backends = [p; LocalFileBackend.make env false true root]
  \/ backends = [LocalFileBackend.make env false true root; p] ->
  Project.put_image_asset env backends self im u s = (Ok results, s') ->
  exists returned asset_id filename w1 assets,
    StorageBackend.put_image_asset p self im u None (world s) = (Ok returned, w1)
    /\ asset_id_of returned asset_id
    /\ LocalFileBackend.put_image_asset env false root self im u (Some asset_id) w1
       = (Ok filename, world s')
    /\ invocations s' = invocations s ++
         [(0%nat, CallPutImageAsset im u None);
          (1%nat, CallPutImageAsset im u (Some asset_id))]
    /\ _metadata_index s' !! proj_id self = Some assets
    /\ assets !! Some asset_id = Some (AssetMeta "image/png" (Some filename))
    /\ (forall key, key <> Some asset_id ->
          assets !! key = default ∅ (_metadata_index s !! proj_id self) !! key)
    /\ (forall project, project <> proj_id self ->
          _metadata_index s' !! project = _metadata_index s !! project)
    /\ index_file s' = Some (_metadata_index s')
    /\ results = [asset_id].
Proof.
  intros Hp Hpfs [->| ->] Hrun.
  - apply put_image_asset_primary_then_mirror in Hrun
      as (returned & filename & w1 & H1 & H2 & Hinv & Hidx & Hfile & Hres);
      try done.
    exists returned, (rsplit_last returned), filename, w1.
    exists (<[Some (rsplit_last returned) := AssetMeta "image/png" (Some filename)]>
              (default ∅ (_metadata_index s !! proj_id self))).
    split_and!; try done.
    + apply rsplit_last_asset_id.
    + rewrite Hidx. apply lookup_insert_eq.
    + apply lookup_insert_eq.
    + intros key Hkey. by rewrite lookup_insert_ne.
    + intros project Hproject. rewrite Hidx. by rewrite lookup_insert_ne.
  - exfalso. unfold Project.put_image_asset in Hrun.
    cbn [Project.put_image_asset_loop] in Hrun. unfold_pm.
    cbn [LocalFileBackend.make StorageBackend.put_image_asset] in Hrun.
    rewrite local_mirror_needs_asset_id in Hrun. done.
Qed.

Lemma put_image_asset_identifier_propagation_witness :
  let env := storing_env (fun _ => false) in
  let s' := snd (Project.put_image_asset env (Project.init_backends env default_context)
                   sample_project (Pixels "cat") ASSET_USE_PROJECT empty_store) in
  exists returned asset_id filename w1 assets,
    StorageBackend.put_image_asset (AssetServiceBackend.make env default_context true)
      sample_project (Pixels "cat") ASSET_USE_PROJECT None (world empty_store)
    = (Ok returned, w1)
    /\ asset_id_of returned asset_id
    /\ LocalFileBackend.put_image_asset env false "projects" sample_project
         (Pixels "cat") ASSET_USE_PROJECT (Some asset_id) w1
       = (Ok filename, world s')
    /\ invocations s' = invocations empty_store ++
         [(0%nat, CallPutImageAsset (Pixels "cat") ASSET_USE_PROJECT None);
          (1%nat, CallPutImageAsset (Pixels "cat") ASSET_USE_PROJECT (Some asset_id))]
    /\ _metadata_index s' !! proj_id sample_project = Some assets
    /\ assets !! Some asset_id = Some (AssetMeta "image/png" (Some filename))
    /\ (forall key, key <> Some asset_id ->
          assets !! key =
          default ∅ (_metadata_index empty_store !! proj_id sample_project) !! key)
    /\ (forall project, project <> proj_id sample_project ->
          _metadata_index s' !! project = _metadata_index empty_store !! project)
    /\ index_file s' = Some (_metadata_index s')
    /\ ["asset-1"] = [asset_id].
Proof.
  intros env s'.
  apply (put_image_asset_identifier_propagation env "projects"
           (AssetServiceBackend.make env default_context true)
           (Project.init_backends env default_context)
           sample_project (Pixels "cat") ASSET_USE_PROJECT empty_store s' ["asset-1"]).
  - reflexivity.
  - reflexivity.
  - left. reflexivity.
  - vm_compute. reflexivity.
Defined.

(** The same run, evaluated: the mirror wrote [projects/proj1/asset-1.png]
    and the index maps the id to that file name. *)
Example put_image_asset_default_configuration :
  let env := storing_env (fun _ => false) in
  let r := Project.put_image_asset env (Project.init_backends env default_context)
             sample_project (Pixels "cat") ASSET_USE_PROJECT empty_store in
  r.1 = Ok ["asset-1"]
  /\ (_metadata_index r.2 !! "proj1") ≫= (fun assets => assets !! Some "asset-1")
     = Some (AssetMeta "image/png" (Some "asset-1"))
  /\ map_to_list (fs (world r.2)) = [("projects/proj1/asset-1.png", "png:cat")].
Proof. intros env r. split_and!; vm_compute; reflexivity. Qed.

(** ** A mirror write that fails after the primary write *)

(** C6, on the code: the primary backend accepted the image and returned the
    path of the new asset, the mirror could not create its directory; the
    failure reaches the caller, and the index, in memory and on disk, has no
    entry for the new asset id. *)
Lemma mirror_failure_index_lacks_asset_id :
  let env := storing_env (String.eqb "projects/proj1") in
  let r := Project.put_image_asset env (Project.init_backends env default_context)
             sample_project (Pixels "cat") ASSET_USE_PROJECT empty_store in
  (StorageBackend.put_image_asset (AssetServiceBackend.make env default_context true)
     sample_project (Pixels "cat") ASSET_USE_PROJECT None empty_world).1
    = Ok "proj1/asset-1"
  /\ r.1 = Raise (OSError "projects/proj1")
  /\ invocations r.2 =
       [(0%nat, CallPutImageAsset (Pixels "cat") ASSET_USE_PROJECT None);
        (1%nat, CallPutImageAsset (Pixels "cat") ASSET_USE_PROJECT (Some "asset-1"))]
  /\ _metadata_index r.2 !! "proj1" = None
  /\ index_file r.2 = None.
Proof. intros env r. split_and!; vm_compute; reflexivity. Qed.

(** C6, as the code has it. When the write to the mirror fails after the
    write to the primary succeeded, [put_image_asset] and [put_video_asset]
    raise the mirror's failure unchanged; the primary's write is not undone
    (the world is the one the two backends left); the metadata index, in
    memory and on disk, is left as it was, without the new asset id; a later
    read of that id is the primary backend's own read, which consults
    neither the index nor the mirror. *)
Theorem mirror_failure_keeps_index (env : Env) (p m : StorageBackend.t)
    (self : ProjectRecord) (wr : AssetWrite) (s : Store)
    (returned : string) (w1 w2 : World) (e : Exn) :
  StorageBackend.primary p = true ->
  StorageBackend.primary m = false ->
  backend_write p self wr None (world s) = (Ok returned, w1) ->
  backend_write m self wr (Some (rsplit_last returned)) w1 = (Raise e, w2) ->
  exists s',
    project_write env [p; m] self wr s = (Raise e, s')
    /\ world s' = w2
    /\ _metadata_index s' = _metadata_index s
    /\ index_file s' = index_file s
    /\ (forall u,
          Project.get_image_asset [p; m] self (rsplit_last returned) u s' =
          invoke 0 (CallGetImageAsset (rsplit_last returned) u)
            (StorageBackend.get_image_asset p self (rsplit_last returned) u) s')
    /\ (forall u,
          Project.get_video_asset [p; m] self (rsplit_last returned) u s' =
          invoke 0 (CallGetVideoAsset (rsplit_last returned) u)
            (StorageBackend.get_video_asset p self (rsplit_last returned) u) s').
Proof.
  intros Hp Hm H1 H2.
  destruct wr as [im u|video_path]; cbn [backend_write project_write] in *.
  - unfold Project.put_image_asset. cbn [Project.put_image_asset_loop]. unfold_pm.
    rewrite H1, Hp. cbn. rewrite H2. eexists. split; [reflexivity|].
    cbn. split_and!; try done.
    + intros u'. unfold Project.get_image_asset. cbn. by rewrite Hp.
    + intros u'. unfold Project.get_video_asset. cbn. by rewrite Hp.
  - unfold Project.put_video_asset. cbn [Project.put_video_asset_loop]. unfold_pm.
    rewrite H1, Hp. cbn. rewrite H2. eexists. split; [reflexivity|].
    cbn. split_and!; try done.
    + intros u'. unfold Project.get_image_asset. cbn. by rewrite Hp.
    + intros u'. unfold Project.get_video_asset. cbn. by rewrite Hp.
Qed.

Lemma mirror_failure_keeps_index_witness :
  let env := storing_env (String.eqb "projects/proj1") in
  let p := AssetServiceBackend.make env default_context true in
  let m := LocalFileBackend.make env false true "projects" in
  exists s',
    project_write env [p; m] sample_project (ImageWrite (Pixels "cat") ASSET_USE_PROJECT)
      empty_store = (Raise (OSError "projects/proj1"), s')
    /\ world s' = log_call (Single (AssetServiceBackend.asset_request default_context
                     (image_to_prompt env (Pixels "cat") ARTIFACT_IMAGE)
                     ASSET_PUT sample_project ASSET_USE_PROJECT)) empty_world
    /\ _metadata_index s' = _metadata_index empty_store
    /\ index_file s' = index_file empty_store
    /\ (forall u,
          Project.get_image_asset [p; m] sample_project (rsplit_last "proj1/asset-1") u s' =
          invoke 0 (CallGetImageAsset (rsplit_last "proj1/asset-1") u)
            (StorageBackend.get_image_asset p sample_project (rsplit_last "proj1/asset-1") u) s')
    /\ (forall u,
          Project.get_video_asset [p; m] sample_project (rsplit_last "proj1/asset-1") u s' =
          invoke 0 (CallGetVideoAsset (rsplit_last "proj1/asset-1") u)
            (StorageBackend.get_video_asset p sample_project (rsplit_last "proj1/asset-1") u) s').
Proof.
  intros env p m.
  apply (mirror_failure_keeps_index env p m sample_project
           (ImageWrite (Pixels "cat") ASSET_USE_PROJECT) empty_store "proj1/asset-1"
           (log_call (Single (AssetServiceBackend.asset_request default_context
                     (image_to_prompt env (Pixels "cat") ARTIFACT_IMAGE)
                     ASSET_PUT sample_project ASSET_USE_PROJECT)) empty_world)).
  - reflexivity.
  - reflexivity.
  - vm_compute. reflexivity.
  - vm_compute. reflexivity.
Defined.

(** ** Reads are served by the primary backend only *)

Lemma invoke_spec {A} i c (m : M A) s :
  (invoke i c m s).1 = (m (world s)).1
  /\ world (invoke i c m s).2 = (m (world s)).2
  /\ invocations (invoke i c m s).2 = invocations s ++ [(i, c)]
  /\ _metadata_index (invoke i c m s).2 = _metadata_index s
  /\ index_file (invoke i c m s).2 = index_file s.
Proof. unfold invoke. by destruct (m (world s)). Qed.



(** ** The local backend never invents an id unless it is primary *)

(** C8. [LocalFileBackend.put_image_asset] and [put_video_asset] called
    without an asset id.  Not primary: both fail with a [ValueError] and
    leave the world (the filesystem, the uuid source) as it was.  Primary:
    the next value of the uuid source is minted, the file is written under
    that name ([<root>/<project>/<id>.png] for an image,
    [<root>/<project>/<id>] for a video) and the id is returned; this is
    subject to the write's other preconditions (the operating system accepts
    the write; the video path is an existing [.mp4] file other than the
    destination). *)
Theorem local_backend_write_without_asset_id (env : Env) (root : string)
    (self : ProjectRecord) (w : World) :
  let minted := uuid4 env (uuid_count w) in
  let output_path := LocalFileBackend.get_path_for_asset root (proj_id self) minted in
  let written path content :=
    {| rpc_count := rpc_count w; trace := trace w;
       fs := <[path := content]> (fs w); uuid_count := S (uuid_count w) |} in
  (forall im u, exists msg,
     LocalFileBackend.put_image_asset env false root self im u None w =
     (Raise (ValueError msg), w))
  /\ (forall video_path, exists msg,
     LocalFileBackend.put_video_asset env false root self video_path None w =
     (Raise (ValueError msg), w))
  /\ (forall im u,
     write_denied env (dirname (String.append output_path ".png")) = false ->
     write_denied env (String.append output_path ".png") = false ->
     LocalFileBackend.put_image_asset env true root self im u None w =
     (Ok minted, written (String.append output_path ".png") (image_to_png_bytes env im)))
  /\ (forall video_path content,
     fs w !! video_path = Some content ->
     endswith video_path ".mp4" = true ->
     video_path <> output_path ->
     write_denied env (dirname output_path) = false ->
     write_denied env output_path = false ->
     LocalFileBackend.put_video_asset env true root self video_path None w =
     (Ok minted, written output_path content)).
Proof.
  intros minted output_path written. split_and!.
  - intros im u. eexists. reflexivity.
  - intros video_path. unfold LocalFileBackend.put_video_asset.
    unfold mbind, M_bind, isfile.
    destruct (negb _ || negb _); eexists; reflexivity.
  - intros im u Hdir Hfile. unfold LocalFileBackend.put_image_asset.
    unfold mbind, M_bind, mret, M_ret. cbn [LocalFileBackend.choose_filename negb].
    unfold fresh_uuid, write_file. cbn [uuid_count fs rpc_count trace].
    fold minted. fold output_path. by rewrite Hdir, Hfile.
  - intros video_path content Hcontent Hmp4 Hne Hdir Hfile.
    unfold LocalFileBackend.put_video_asset.
    unfold mbind, M_bind, mret, M_ret, isfile.
    rewrite bool_decide_eq_true_2 by (by rewrite Hcontent).
    rewrite Hmp4. cbn [negb orb LocalFileBackend.choose_filename].
    unfold fresh_uuid. cbn [uuid_count fs rpc_count trace].
    fold minted. fold output_path.
    destruct (String.eqb video_path output_path) eqn:Heq;
      [by apply String.eqb_eq in Heq|].
    unfold read_file, write_file. cbn [uuid_count fs rpc_count trace].
    by rewrite Hcontent, Hdir, Hfile.
Qed.

Lemma local_backend_write_without_asset_id_witness :
  let env := storing_env (fun _ => false) in
  (exists msg,
     LocalFileBackend.put_image_asset env false "projects" sample_project
       (Pixels "cat") ASSET_USE_PROJECT None video_world =
     (Raise (ValueError msg), video_world))
  /\ (exists msg,
     LocalFileBackend.put_video_asset env false "projects" sample_project
       "clips/in.mp4" None video_world =
     (Raise (ValueError msg), video_world))
  /\ LocalFileBackend.put_image_asset env true "projects" sample_project
       (Pixels "cat") ASSET_USE_PROJECT None video_world =
     (Ok "uuid-3",
      {| rpc_count := 0; trace := [];
         fs := <["projects/proj1/uuid-3.png" := "png:cat"]> (fs video_world);
         uuid_count := 4 |})
  /\ LocalFileBackend.put_video_asset env true "projects" sample_project
       "clips/in.mp4" None video_world =
     (Ok "uuid-3",
      {| rpc_count := 0; trace := [];
         fs := <["projects/proj1/uuid-3" := "frames"]> (fs video_world);
         uuid_count := 4 |}).
Proof.
  intros env.
  destruct (local_backend_write_without_asset_id env "projects" sample_project
              video_world) as (Himg & Hvid & Hmint & Hvmint).
  split_and!.
  - apply Himg.
  - apply Hvid.
  - apply (Hmint (Pixels "cat") ASSET_USE_PROJECT); reflexivity.
  - apply (Hvmint "clips/in.mp4" "frames").
    + reflexivity.
    + reflexivity.
    + discriminate.
    + reflexivity.
    + reflexivity.
Defined.

(** ** The persisted index *)

(** A mutation made through [add_asset_metadata] is written out. *)
Lemma add_asset_metadata_persisted env project_id asset_id mime_type filename
    project_key s s' :
  Project.add_asset_metadata env project_id asset_id mime_type filename project_key s
    = (Ok tt, s') ->
  index_file s' = Some (_metadata_index s').
Proof.
  unfold Project.add_asset_metadata, Project.save_metadata_index.
  destruct (write_denied env "metadata_index.json"); [done|].
  intros H. by inversion H.
Qed.

Lemma delete_loop_index bs : forall i id s,
  index_file (Project.delete_loop bs i id s).2 = index_file s
  /\ _metadata_index (Project.delete_loop bs i id s).2 = _metadata_index s.
Proof.
  induction bs as [|b bs IH]; intros i id s; [done|].
  cbn [Project.delete_loop]. unfold mbind, PM_bind.
  destruct (invoke_spec i (CallDeleteProject id) (StorageBackend.delete_project b id) s)
    as (_ & _ & _ & Hm & Hf).
  destruct (invoke i (CallDeleteProject id) (StorageBackend.delete_project b id) s)
    as [[[]|e] s1]; cbn in *.
  - destruct (IH (S i) id s1) as [IHf IHm]. by rewrite IHf, IHm.
  - done.
Qed.

(** [Project.delete] never writes [metadata_index.json]: after it the
    document is the one that was there before, whereas the entry of the
    project has left the index in memory. *)
Lemma delete_keeps_index_file backends self s s' :
  Project.delete backends self s = (Ok tt, s') ->
  index_file s' = index_file s
  /\ _metadata_index s' = delete (proj_id self) (_metadata_index s).
Proof.
  unfold Project.delete, mbind, PM_bind, Project.delete_project_metadata.
  destruct (delete_loop_index backends 0 (proj_id self) s) as [Hf Hm].
  destruct (Project.delete_loop backends 0 (proj_id self) s) as [[[]|e] s1];
    [|done].
  intros H. inversion H; subst. cbn in *. by rewrite Hm.
Qed.

(** C9 (the code departs from it). In the default configuration an image is
    stored (the index and its document agree and hold the project), then the
    project is deleted: the deletion completes, the project has left the
    index in memory, and [metadata_index.json] still is the old document,
    with the entry of the deleted project. *)
Theorem delete_leaves_stale_index_file :
  let env := storing_env (fun _ => false) in
  let backends := Project.init_backends env default_context in
  let s1 := (Project.put_image_asset env backends sample_project (Pixels "cat")
               ASSET_USE_PROJECT empty_store).2 in
  let r := Project.delete backends sample_project s1 in
  index_file s1 = Some (_metadata_index s1)
  /\ r.1 = Ok tt
  /\ _metadata_index r.2 !! "proj1" = None
  /\ index_file r.2 =
       Some {[ "proj1" := {[ Some "asset-1" := AssetMeta "image/png" (Some "asset-1") ]} ]}
  /\ index_file r.2 <> Some (_metadata_index r.2).
Proof.
  intros env backends s1 r.
  assert (H1 : index_file s1 = Some (_metadata_index s1))
    by (vm_compute; reflexivity).
  assert (H2 : r.1 = Ok tt) by (vm_compute; reflexivity).
  assert (H3 : _metadata_index r.2 !! "proj1" = None) by (vm_compute; reflexivity).
  assert (H4 : index_file r.2 =
       Some {[ "proj1" := {[ Some "asset-1" := AssetMeta "image/png" (Some "asset-1") ]} ]})
    by (vm_compute; reflexivity).
  clearbody r s1. clear env backends.
  split; [exact H1|]. split; [exact H2|]. split; [exact H3|]. split; [exact H4|].
  intros Heq. rewrite H4 in Heq. injection Heq as Hidx.
  rewrite <- Hidx in H3. rewrite lookup_singleton_eq in H3. discriminate H3.
Qed.

(** * Chained and non-chained execution of the transforms *)

(** The stage requests of ["xform_chain"] cannot be built: the constructor
    refuses the keyword [extras_struct] at the first stage. *)
Lemma transform_stages_unknown_keyword env ctx images count idx param params w :
  transform_stages env ctx images count idx (param :: params) w =
  (Raise (ValueError "Protocol message Request has no field extras_struct"), w).
Proof. reflexivity. Qed.

(** On two or more parameter sets the chained path of [transform] returns
    nothing and dispatches nothing: with [extras] it stops at
    [assert extras is None], without them at the construction of the first
    stage request. *)
Lemma transform_chained_path_raises env ctx im images p1 p2 ps extras w :
  _debug_no_chains ctx = false ->
  transform env ctx (im :: images) (ParamList (p1 :: p2 :: ps)) extras w =
  (Raise (match extras with
          | Some _ => AssertionError
          | None => ValueError "Protocol message Request has no field extras_struct"
          end), w).
Proof.
  intros Hflag. unfold transform.
  rewrite bool_decide_eq_true_2 by (cbn; lia). rewrite Hflag.
  destruct extras; reflexivity.
Qed.

(** The retry loop does not read the debug flag. *)
Lemma run_request_with_debug env ctx flag endpoint request :
  _run_request env (with_debug ctx flag) endpoint request =
  _run_request env ctx endpoint request.
Proof. reflexivity. Qed.

(** On the inputs for which no chain is built, [transform] with one parameter
    set (given alone or as a list of one) and [transform_and_generate] with
    no parameter set, the two modes dispatch the same single request and
    yield the same outcome, whatever the service answers. *)
Lemma modes_coincide_without_chain (env : Env) (ctx : Context) :
  (forall images param extras,
     transform env (with_debug ctx true) images (OneParam param) extras =
     transform env (with_debug ctx false) images (OneParam param) extras)
  /\ (forall images param extras,
     transform env (with_debug ctx true) images (ParamList [param]) extras =
     transform env (with_debug ctx false) images (ParamList [param]) extras)
  /\ (forall im generate_request extras,
     transform_and_generate env (with_debug ctx true) im [] generate_request extras =
     transform_and_generate env (with_debug ctx false) im [] generate_request extras).
Proof.
  split_and!.
  - intros [|im images] param extras; reflexivity.
  - intros [|im images] param extras; reflexivity.
  - intros im generate_request extras. reflexivity.
Qed.

(** C10, on the code: [transform] on one image and two parameter sets,
    without extras, against a service that answers every call with one
    image.  The non-chained path dispatches the two stages one after the
    other, the second on the image the first returned, and yields the image of
    the last answer.  The chained path yields nothing: it builds the request
    of its first stage with the keyword [extras_struct], which is no field
    of [Request], so the constructor raises before any call is dispatched.
    The two paths do not yield identical artifacts on this input. *)
Theorem transform_chained_path_unknown_keyword :
  let images := [Pixels "cat"] in
  let params := ParamList [ColorAdjust "a"; Resample "b"] in
  let debug := transform image_env (with_debug default_context true)
                 images params None empty_world in
  let chained := transform image_env (with_debug default_context false)
                   images params None empty_world in
  debug.1 = Ok ([Imdecode "out"], None)
  /\ map (fun ev => match ev with
                    | EvCall _ (Single rq) => (transform_params rq, prompt rq)
                    | _ => (None, [])
                    end) (trace debug.2)
     = [(Some (ColorAdjust "a"), image_prompts image_env [Pixels "cat"]);
        (Some (Resample "b"), image_prompts image_env [Imdecode "out"])]
  /\ chained = (Raise (ValueError "Protocol message Request has no field extras_struct"),
                empty_world)
  /\ debug.1 <> chained.1.
Proof.
  intros images params debug chained. split_and!.
  - vm_compute. reflexivity.
  - vm_compute. reflexivity.
  - reflexivity.
  - vm_compute. discriminate.
Qed.


(** * Further properties of the orchestrator *)

(** ** The artifact decoder groups by kind and keeps the order of arrival *)

Lemma filter_none_of_kind kind (l : list Artifact) :
  existsb (of_kind kind) l = false -> List.filter (of_kind kind) l = [].
Proof.
  induction l as [|a l IH]; [done|]. cbn.
  destruct (of_kind kind a); [done|]. exact IH.
Qed.

Lemma fold_add_artifact_lookup (l : list Artifact) : forall (acc : Results) kind,
  fold_left add_artifact l acc !! kind =
  if existsb (of_kind kind) l
  then Some (default [] (acc !! kind)
             ++ flat_map decode_artifact (List.filter (of_kind kind) l))
  else acc !! kind.
Proof.
  induction l as [|a l IH]; intros acc kind; [done|].
  cbn [fold_left existsb List.filter]. rewrite IH.
  assert (Hk : of_kind kind a = bool_decide (artifact_type a = kind)) by done.
  rewrite Hk. clear Hk. destruct (decide (artifact_type a = kind)) as [Heq|Hne].
  - rewrite !bool_decide_eq_true_2 by done. cbn [orb flat_map].
    unfold add_artifact. rewrite Heq, lookup_insert_eq. cbn [default].
    destruct (existsb (of_kind kind) l) eqn:He; [by rewrite app_assoc|].
    rewrite (filter_none_of_kind kind l He). cbn. by rewrite app_nil_r.
  - rewrite !bool_decide_eq_false_2 by done. cbn [orb].
    unfold add_artifact. by rewrite lookup_insert_ne.
Qed.

Lemma process_response_fold (response : list Answer) : forall acc : Results,
  fold_left (fun results resp => fold_left add_artifact (artifacts resp) results)
            response acc
  = fold_left add_artifact (stream_artifacts response) acc.
Proof.
  induction response as [|resp response IH]; intros acc; [done|].
  cbn [fold_left stream_artifacts flat_map]. rewrite IH.
  by rewrite fold_left_app.
Qed.

Lemma process_response_lookup (response : list Answer) (kind : ArtifactType) :
  _process_response response !! kind =
  if existsb (of_kind kind) (stream_artifacts response)
  then Some (flat_map decode_artifact
               (List.filter (of_kind kind) (stream_artifacts response)))
  else None.
Proof.
  unfold _process_response. rewrite process_response_fold, fold_add_artifact_lookup.
  by rewrite lookup_empty.
Qed.

(** X1. [_process_response] maps a kind to the decoded artifacts of that kind
    in the order in which the stream delivered them, across messages; a kind
    of which the stream has no artifact is not a key of the result. *)
Theorem process_response_groups_in_order (response : list Answer)
    (kind : ArtifactType) :
  _process_response response !! kind =
  if existsb (of_kind kind) (stream_artifacts response)
  then Some (flat_map decode_artifact
               (List.filter (of_kind kind) (stream_artifacts response)))
  else None.
Proof. apply process_response_lookup. Qed.

(** ** The outcome of a run comes from its last call *)

Lemma last_call_explains_cons env r ev T :
  last_call_explains env r T -> last_call_explains env r (ev :: T).
Proof.
  destruct r as [results|[]]; cbn; try done.
  - intros (pre & n & rq & response & -> & H). by exists (ev :: pre), n, rq, response.
  - intros (pre & n & rq & response & -> & H). by exists (ev :: pre), n, rq, response.
  - intros (pre & n & rq & e & -> & H). by exists (ev :: pre), n, rq, e.
  - intros (pre & n & rq & -> & H). by exists (ev :: pre), n, rq.
Qed.

Lemma run_attempts_last_call env ctx endpoint (l : list Z) :
  forall request results w r w',
    run_attempts env ctx endpoint (l ++ [_max_retries ctx]) request results w = (r, w') ->
    exists T, trace w' = trace w ++ T /\ last_call_explains env r T.
Proof.
  induction l as [|attempt l IH]; intros request results w r w' Hrun.
  - cbn [app run_attempts] in Hrun.
    destruct (engine_matches endpoint request); cbn [negb] in Hrun;
      [|inversion Hrun; subst; exists []; by rewrite app_nil_r].
    exists [EvCall (rpc_count w) request].
    destruct (stub env (rpc_count w) request) as [e|response] eqn:Hstub.
    + destruct (bool_decide (code e = Some RESOURCE_EXHAUSTED)) eqn:Hre.
      * apply bool_decide_eq_true in Hre. inversion Hrun; subst.
        split; [done|]. by exists [], (rpc_count w), request, e.
      * apply bool_decide_eq_false in Hre.
        rewrite bool_decide_eq_true_2 in Hrun by done. inversion Hrun; subst.
        split; [done|]. by exists [], (rpc_count w), request.
    + cbn zeta in Hrun.
      destruct (obfuscation (_process_response response)) as [ce|] eqn:Hobf.
      * rewrite bool_decide_eq_true_2 in Hrun by done. cbn [orb] in Hrun.
        inversion Hrun; subst. split; [done|].
        by exists [], (rpc_count w), request, response.
      * inversion Hrun; subst. split; [done|].
        by exists [], (rpc_count w), request, response.
  - change ((attempt :: l) ++ [_max_retries ctx])
      with (attempt :: (l ++ [_max_retries ctx])) in Hrun.
    cbn [run_attempts] in Hrun.
    destruct (engine_matches endpoint request); cbn [negb] in Hrun;
      [|inversion Hrun; subst; exists []; by rewrite app_nil_r].
    destruct (stub env (rpc_count w) request) as [e|response] eqn:Hstub.
    + destruct (bool_decide (code e = Some RESOURCE_EXHAUSTED)) eqn:Hre.
      { apply bool_decide_eq_true in Hre. inversion Hrun; subst.
        exists [EvCall (rpc_count w) request]. split; [done|].
        by exists [], (rpc_count w), request, e. }
      apply bool_decide_eq_false in Hre.
      destruct (bool_decide (attempt = _max_retries ctx)).
      { inversion Hrun; subst. exists [EvCall (rpc_count w) request].
        split; [done|]. by exists [], (rpc_count w), request. }
      unfold sleep in Hrun. destruct (Qlt_le_dec _ 0).
      { inversion Hrun; subst. exists [EvCall (rpc_count w) request]. by split. }
      apply IH in Hrun as (T & HT & Hex).
      exists (EvCall (rpc_count w) request
              :: EvSleep (_retry_delay ctx * inject_Z (2 ^ attempt)) :: T).
      split; [by rewrite HT; cbn; rewrite <- !app_assoc|].
      by do 2 apply last_call_explains_cons.
    + cbn zeta in Hrun.
      destruct (obfuscation (_process_response response)) as [ce|] eqn:Hobf.
      * destruct (bool_decide (attempt = _max_retries ctx) || negb (_retry_obfuscation ctx)).
        { inversion Hrun; subst. exists [EvCall (rpc_count w) request].
          split; [done|]. by exists [], (rpc_count w), request, response. }
        destruct (retry_adjusted ctx ce request attempt) as [request'|ex] eqn:Hadj.
        -- apply IH in Hrun as (T & HT & Hex).
           exists (EvCall (rpc_count w) request :: T).
           split; [by rewrite HT; cbn; rewrite <- !app_assoc|].
           by apply last_call_explains_cons.
        -- inversion Hrun; subst. exists [EvCall (rpc_count w) request].
           split; [done|]. destruct request as [rq|crq]; cbn in Hadj; [|done].
           destruct (image rq); inversion Hadj; subst.
           by exists [], (rpc_count w), (Single rq), response.
      * inversion Hrun; subst. exists [EvCall (rpc_count w) request].
        split; [done|]. by exists [], (rpc_count w), request, response.
Qed.

Lemma range_snoc (N : nat) :
  range (Z.of_nat N + 1) = map Z.of_nat (seq 0 N) ++ [Z.of_nat N].
Proof.
  unfold range. replace (Z.to_nat (Z.of_nat N + 1)) with (S N) by lia.
  by rewrite seq_S, map_app.
Qed.

(** X2. Whatever [_run_request] yields is decided by the last call it
    dispatched: a returned mapping is the decoding of that call's response
    (never merged with an earlier attempt's), which carries no obfuscating
    classification; a [ClassifierException], [OutOfCreditsException] or
    transport error raised carries what that last call produced. *)
Theorem run_request_outcome_from_last_call (env : Env) (ctx : Context)
    (endpoint : Endpoint) (request : AnyRequest) (w w' : World) (r : Res Results) :
  _run_request env ctx endpoint request w = (r, w') ->
  exists T, trace w' = trace w ++ T
            /\ last_call_explains env r T
            /\ (forall results, r = Ok results -> T <> []).
Proof.
  intros Hrun. unfold _run_request in Hrun.
  destruct (Z_lt_le_dec (_max_retries ctx) 0) as [Hneg|Hpos].
  - unfold range in Hrun. replace (Z.to_nat (_max_retries ctx + 1)) with 0%nat in Hrun by lia.
    cbn in Hrun. inversion Hrun; subst. exists []. by rewrite app_nil_r.
  - replace (_max_retries ctx + 1) with (Z.of_nat (Z.to_nat (_max_retries ctx)) + 1)
      in Hrun by lia.
    rewrite range_snoc in Hrun. rewrite Z2Nat.id in Hrun by done.
    apply run_attempts_last_call in Hrun as (T & HT & Hex).
    exists T. split_and!; try done.
    intros results ->. cbn in Hex. destruct Hex as (pre & n & rq & response & -> & _).
    by destruct pre.
Qed.

Lemma run_request_outcome_from_last_call_witness :
  let run := _run_request recovering_env default_context (_generate default_context)
               (Single (text_request "stable-diffusion-v1-5" "a cat")) empty_world in
  exists T, trace run.2 = trace empty_world ++ T
            /\ last_call_explains recovering_env run.1 T
            /\ (forall results, run.1 = Ok results -> T <> []).
Proof.
  intros run.
  apply (run_request_outcome_from_last_call recovering_env default_context
           (_generate default_context)
           (Single (text_request "stable-diffusion-v1-5" "a cat")) empty_world).
  apply surjective_pairing.
Defined.

(** ** Bounds on what a run does *)

Lemma run_attempts_bounds env ctx endpoint (attempts : list Z) :
  forall request results w r w',
    run_attempts env ctx endpoint attempts request results w = (r, w') ->
    exists T, trace w' = trace w ++ T
      /\ (length (calls T) <= length attempts)%nat
      /\ (length (sleeps T) <= length (List.filter (retried ctx) attempts))%nat
      /\ rpc_count w' = (rpc_count w + length (calls T))%nat
      /\ fs w' = fs w /\ uuid_count w' = uuid_count w.
Proof.
  induction attempts as [|attempt rest IH]; intros request results w r w' Hrun.
  - exists []. cbn [run_attempts] in Hrun.
    destruct results; inversion Hrun; subst; rewrite app_nil_r; cbn;
      split_and!; try done; lia.
  - cbn [run_attempts] in Hrun.
    assert (Hstop : forall ex, (ex, log_call request w) = (r, w') ->
      exists T, trace w' = trace w ++ T
        /\ (length (calls T) <= length (attempt :: rest))%nat
        /\ (length (sleeps T) <= length (List.filter (retried ctx) (attempt :: rest)))%nat
        /\ rpc_count w' = (rpc_count w + length (calls T))%nat
        /\ fs w' = fs w /\ uuid_count w' = uuid_count w).
    { intros ex Heq. inversion Heq; subst. exists [EvCall (rpc_count w) request].
      cbn. split_and!; try done; lia. }
    destruct (engine_matches endpoint request); cbn [negb] in Hrun.
    2: { inversion Hrun; subst. exists []. rewrite app_nil_r. cbn.
         split_and!; try done; lia. }
    destruct (stub env (rpc_count w) request) as [e|response].
    + destruct (bool_decide (code e = Some RESOURCE_EXHAUSTED)); [by eapply Hstop|].
      destruct (bool_decide (attempt = _max_retries ctx)) eqn:Hlast; [by eapply Hstop|].
      apply bool_decide_eq_false in Hlast.
      unfold sleep in Hrun. destruct (Qlt_le_dec _ 0); [by eapply Hstop|].
      apply IH in Hrun as (T & HT & Hc & Hs & Hn & Hfs & Hu).
      exists (EvCall (rpc_count w) request
              :: EvSleep (_retry_delay ctx * inject_Z (2 ^ attempt)) :: T).
      cbn [List.filter]. unfold retried at 1.
      replace (attempt =? _max_retries ctx) with false by (symmetry; by apply Z.eqb_neq).
      unfold calls, sleeps in *. cbn in *. split_and!; try done; try lia.
      by rewrite HT, <- !app_assoc.
    + cbn zeta in Hrun.
      destruct (obfuscation (_process_response response)) as [ce|]; [|by eapply Hstop].
      destruct (_ || _); [by eapply Hstop|].
      destruct (retry_adjusted ctx ce request attempt) as [request'|ex]; [|by eapply Hstop].
      apply IH in Hrun as (T & HT & Hc & Hs & Hn & Hfs & Hu).
      exists (EvCall (rpc_count w) request :: T).
      assert (length (List.filter (retried ctx) rest)
              <= length (List.filter (retried ctx) (attempt :: rest)))%nat.
      { cbn. destruct (retried ctx attempt); cbn; lia. }
      unfold calls, sleeps in *. cbn in *. split_and!; try done; try lia.
      by rewrite HT, <- !app_assoc.
Qed.

Lemma retried_range (N : nat) ctx :
  _max_retries ctx = Z.of_nat N ->
  length (List.filter (retried ctx) (range (_max_retries ctx + 1))) = N.
Proof.
  intros HN. rewrite HN, range_snoc, List.filter_app, length_app. cbn.
  unfold retried at 2. rewrite HN, Z.eqb_refl. cbn. rewrite Nat.add_0_r.
  assert (Hall : forall k, (k <= N)%nat ->
            List.filter (retried ctx) (map Z.of_nat (seq 0 k)) = map Z.of_nat (seq 0 k)).
  { induction k as [|k IH]; intros Hk; [done|].
    rewrite seq_S, map_app, List.filter_app, IH by lia. cbn.
    unfold retried. rewrite HN.
    replace (Z.of_nat k =? Z.of_nat N) with false; [done|].
    symmetry. apply Z.eqb_neq. lia. }
  rewrite Hall by done. by rewrite length_map, length_seq.
Qed.

(** X3. A run of [_run_request] dispatches at most [_max_retries + 1] calls
    and sleeps at most [_max_retries] times, whatever the service answers; it
    numbers its calls consecutively and touches neither the filesystem nor
    the uuid source. *)
Theorem run_request_bounds (env : Env) (ctx : Context) (endpoint : Endpoint)
    (request : AnyRequest) (w w' : World) (r : Res Results) :
  _run_request env ctx endpoint request w = (r, w') ->
  exists T, trace w' = trace w ++ T
    /\ (Z.of_nat (length (calls T)) <= Z.max 0 (_max_retries ctx + 1))
    /\ (Z.of_nat (length (sleeps T)) <= Z.max 0 (_max_retries ctx))
    /\ rpc_count w' = (rpc_count w + length (calls T))%nat
    /\ fs w' = fs w /\ uuid_count w' = uuid_count w.
Proof.
  intros Hrun. unfold _run_request in Hrun.
  apply run_attempts_bounds in Hrun as (T & HT & Hc & Hs & Hn & Hfs & Hu).
  exists T. split_and!; try done.
  - unfold range in Hc. rewrite length_map, length_seq in Hc. lia.
  - destruct (Z_lt_le_dec (_max_retries ctx) 0) as [Hneg|Hpos].
    + unfold range in Hs. replace (Z.to_nat (_max_retries ctx + 1)) with 0%nat in Hs by lia.
      cbn in Hs. lia.
    + rewrite (retried_range (Z.to_nat (_max_retries ctx))) in Hs by lia. lia.
Qed.

Lemma run_request_bounds_witness :
  let run := _run_request recovering_env default_context (_generate default_context)
               (Single (text_request "stable-diffusion-v1-5" "a cat")) empty_world in
  exists T, trace run.2 = trace empty_world ++ T
    /\ (Z.of_nat (length (calls T)) <= Z.max 0 (_max_retries default_context + 1))
    /\ (Z.of_nat (length (sleeps T)) <= Z.max 0 (_max_retries default_context))
    /\ rpc_count run.2 = (rpc_count empty_world + length (calls T))%nat
    /\ fs run.2 = fs empty_world /\ uuid_count run.2 = uuid_count empty_world.
Proof.
  intros run.
  apply (run_request_bounds recovering_env default_context (_generate default_context)
           (Single (text_request "stable-diffusion-v1-5" "a cat")) empty_world _ run.1).
  apply surjective_pairing.
Defined.

(** X4. With a negative [_max_retries] the loop body never runs:
    [_run_request] dispatches nothing and fails on [return results], the
    variable being unbound. *)
Theorem run_request_negative_max_retries (env : Env) (ctx : Context)
    (endpoint : Endpoint) (request : AnyRequest) (w : World) :
  _max_retries ctx < 0 ->
  _run_request env ctx endpoint request w = (Raise UnboundLocalError, w).
Proof.
  intros Hneg. unfold _run_request, range.
  by replace (Z.to_nat (_max_retries ctx + 1)) with 0%nat by lia.
Qed.

Lemma run_request_negative_max_retries_witness :
  _run_request recovering_env no_attempt_context (_generate no_attempt_context)
    (Single (text_request "stable-diffusion-v1-5" "a cat")) empty_world
  = (Raise UnboundLocalError, empty_world).
Proof.
  apply (run_request_negative_max_retries recovering_env no_attempt_context).
  reflexivity.
Defined.

(** ** Recovery from transient transport failures *)

Lemma run_attempts_recovers env ctx endpoint request (err : nat -> RpcError)
    response results rest k : forall a w,
  Z.of_nat (a + k) <= _max_retries ctx ->
  (0 <= _retry_delay ctx)%Q ->
  engine_matches endpoint request = true ->
  (forall i, (i < k)%nat ->
     stub env (rpc_count w + i) request = RpcFailed (err (a + i)%nat)) ->
  (forall i, code (err i) <> Some RESOURCE_EXHAUSTED) ->
  stub env (rpc_count w + k) request = RpcStream response ->
  obfuscation (_process_response response) = None ->
  run_attempts env ctx endpoint (map Z.of_nat (seq a (S k)) ++ rest) request results w =
    (Ok (_process_response response),
     {| rpc_count := rpc_count w + S k;
        trace := trace w ++ backoff_trace (_retry_delay ctx) request (rpc_count w) a k;
        fs := fs w; uuid_count := uuid_count w |}).
Proof.
  induction k as [|k IH]; intros a w HN Hd Heng Hfail Hcode Hok Hobf.
  - cbn [seq map app run_attempts]. rewrite Heng. cbn [negb].
    rewrite Nat.add_0_r in Hok. rewrite Hok. cbn zeta. rewrite Hobf.
    unfold log_call. cbn. do 3 f_equal. lia.
  - replace (map Z.of_nat (seq a (S (S k))) ++ rest)
      with (Z.of_nat a :: (map Z.of_nat (seq (S a) (S k)) ++ rest)) by done.
    cbn [run_attempts]. rewrite Heng. cbn [negb].
    pose proof (Hfail 0%nat ltac:(lia)) as H0. rewrite !Nat.add_0_r in H0.
    rewrite H0.
    rewrite bool_decide_eq_false_2 by apply Hcode.
    rewrite bool_decide_eq_false_2 by lia.
    rewrite sleep_nonneg by (by apply backoff_nonneg).
    rewrite (IH (S a)); try done; try lia.
    + cbn [log_sleep log_call rpc_count trace fs uuid_count backoff_trace].
      replace (S (rpc_count w) + S k)%nat with (rpc_count w + S (S k))%nat by lia.
      by rewrite <- !app_assoc.
    + intros i Hi. cbn [log_sleep log_call rpc_count].
      replace (S (rpc_count w) + i)%nat with (rpc_count w + S i)%nat by lia.
      rewrite Hfail by lia. do 2 f_equal. lia.
    + cbn [log_sleep log_call rpc_count].
      by replace (S (rpc_count w) + k)%nat with (rpc_count w + S k)%nat by lia.
Qed.

(** X5. When the first [k <= _max_retries] attempts fail with transport
    errors other than RESOURCE_EXHAUSTED and the next one is answered without
    obfuscation, [_run_request] returns the decoding of that answer after
    exactly [k + 1] calls and [k] sleeps of [_retry_delay * 2^i],
    [_retry_delay * (2^k - 1)] seconds in total. *)
Theorem run_request_recovers (env : Env) (ctx : Context) (endpoint : Endpoint)
    (request : AnyRequest) (err : nat -> RpcError) (response : list Answer)
    (w : World) (k : nat) :
  Z.of_nat k <= _max_retries ctx ->
  (0 <= _retry_delay ctx)%Q ->
  engine_matches endpoint request = true ->
  (forall i, (i < k)%nat -> stub env (rpc_count w + i) request = RpcFailed (err i)) ->
  (forall i, code (err i) <> Some RESOURCE_EXHAUSTED) ->
  stub env (rpc_count w + k) request = RpcStream response ->
  obfuscation (_process_response response) = None ->
  exists w' T,
    _run_request env ctx endpoint request w = (Ok (_process_response response), w')
    /\ trace w' = trace w ++ T
    /\ T = flat_map (failed_attempt ctx request (rpc_count w)) (seq 0 k)
           ++ [EvCall (rpc_count w + k) request]
    /\ (slept T == _retry_delay ctx * (inject_Z (2 ^ Z.of_nat k) - 1))%Q.
Proof.
  intros Hk Hd Heng Hfail Hcode Hok Hobf.
  eexists _, (backoff_trace (_retry_delay ctx) request (rpc_count w) 0 k).
  split_and!.
  - unfold _run_request, range.
    replace (Z.to_nat (_max_retries ctx + 1))
      with (S k + (Z.to_nat (_max_retries ctx) - k))%nat by lia.
    rewrite seq_app, map_app.
    by apply (run_attempts_recovers env ctx endpoint request err response None _ k 0%nat w).
  - done.
  - apply backoff_trace_flat_map.
  - rewrite backoff_trace_slept. change (2 ^ Z.of_nat 0) with 1.
    change (inject_Z 1) with 1%Q. ring.
Qed.

Lemma run_request_recovers_witness :
  exists w' T,
    _run_request recovering_env default_context (_generate default_context)
      (Single (text_request "stable-diffusion-v1-5" "a cat")) empty_world
    = (Ok (_process_response (text_answer "ok")), w')
    /\ trace w' = trace empty_world ++ T
    /\ T = flat_map (failed_attempt default_context
                       (Single (text_request "stable-diffusion-v1-5" "a cat"))
                       (rpc_count empty_world)) (seq 0 1)
           ++ [EvCall (rpc_count empty_world + 1)
                 (Single (text_request "stable-diffusion-v1-5" "a cat"))]
    /\ (slept T == _retry_delay default_context * (inject_Z (2 ^ Z.of_nat 1) - 1))%Q.
Proof.
  apply (run_request_recovers recovering_env default_context (_generate default_context)
           (Single (text_request "stable-diffusion-v1-5" "a cat"))
           (fun _ => {| code := Some UNAVAILABLE; details := "try again" |})
           (text_answer "ok") empty_world 1%nat).
  - simpl. lia.
  - simpl. discriminate.
  - reflexivity.
  - intros i Hi. assert (i = 0%nat) as -> by lia. reflexivity.
  - intros i. simpl. discriminate.
  - reflexivity.
  - reflexivity.
Defined.

(** ** Repeated obfuscation retries *)

Lemma adjust_seeds ctx rq attempt :
  seeds_of (_adjust_request_for_retry ctx rq attempt) =
  map (fun s => s + 1) (seeds_of rq).
Proof.
  unfold seeds_of, _adjust_request_for_retry.
  destruct (image rq) as [im|] eqn:Him; cbn; by rewrite ?Him.
Qed.

Lemma adjusted_upto_S ctx rq k :
  adjusted_upto ctx rq (S k) =
  _adjust_request_for_retry ctx (adjusted_upto ctx rq k) (Z.of_nat k).
Proof. unfold adjusted_upto. by rewrite seq_S, fold_left_app. Qed.

Lemma adjusted_upto_seeds ctx rq k :
  seeds_of (adjusted_upto ctx rq k) = map (fun s => s + Z.of_nat k) (seeds_of rq).
Proof.
  induction k as [|k IH].
  - cbn. induction (seeds_of rq) as [|s l IHl]; [done|]. cbn. rewrite <- IHl. f_equal. lia.
  - rewrite adjusted_upto_S, adjust_seeds, IH, map_map.
    apply map_ext. intros s. lia.
Qed.

Lemma adjusted_upto_frame ctx rq k :
  engine_id (adjusted_upto ctx rq k) = engine_id rq
  /\ (is_Some (image rq) -> is_Some (image (adjusted_upto ctx rq k))).
Proof.
  induction k as [|k [IHe IHi]]; [done|].
  rewrite adjusted_upto_S. unfold _adjust_request_for_retry.
  destruct (image (adjusted_upto ctx rq k)) as [im|] eqn:Him; cbn.
  - split; [done|]. intros _. by eexists.
  - split; [done|]. intros H. apply IHi in H. rewrite ?Him in H. by destruct H.
Qed.

Lemma run_attempts_obfuscated env ctx endpoint rq0 (ce : nat -> ClassifierParameters)
    k : forall a results w,
  Z.of_nat (a + k) = _max_retries ctx ->
  _retry_obfuscation ctx = true ->
  endpoint_engine_id endpoint = engine_id rq0 ->
  is_Some (image rq0) ->
  (forall n rq, exists response,
     stub env n (Single rq) = RpcStream response
     /\ obfuscation (_process_response response) = Some (ce n)) ->
  run_attempts env ctx endpoint (map Z.of_nat (seq a (S k)))
    (Single (adjusted_upto ctx rq0 a)) results w =
    (Raise (ClassifierException (ce (rpc_count w + k)%nat)),
     {| rpc_count := rpc_count w + S k;
        trace := trace w ++
          map (fun i => EvCall (rpc_count w + i)
                          (Single (adjusted_upto ctx rq0 (a + i)))) (seq 0 (S k));
        fs := fs w; uuid_count := uuid_count w |}).
Proof.
  induction k as [|k IH]; intros a results w HN Hretry Heng Him Hstub.
  - cbn [seq map run_attempts engine_matches].
    destruct (adjusted_upto_frame ctx rq0 a) as [He _].
    rewrite He, bool_decide_eq_true_2 by done. cbn [negb].
    destruct (Hstub (rpc_count w) (adjusted_upto ctx rq0 a)) as (response & Hs & Ho).
    rewrite Hs. cbn zeta. rewrite Ho.
    rewrite bool_decide_eq_true_2 by lia. cbn [orb].
    unfold log_call. cbn. rewrite !Nat.add_0_r. do 3 f_equal. lia.
  - replace (map Z.of_nat (seq a (S (S k))))
      with (Z.of_nat a :: map Z.of_nat (seq (S a) (S k))) by done.
    cbn [run_attempts engine_matches].
    destruct (adjusted_upto_frame ctx rq0 a) as [He Hi].
    rewrite He, bool_decide_eq_true_2 by done. cbn [negb].
    destruct (Hstub (rpc_count w) (adjusted_upto ctx rq0 a)) as (response & Hs & Ho).
    rewrite Hs. cbn zeta. rewrite Ho.
    rewrite bool_decide_eq_false_2 by lia. rewrite Hretry. cbn [negb orb retry_adjusted].
    destruct (Hi Him) as [im Him']. rewrite Him'.
    rewrite <- adjusted_upto_S.
    rewrite (IH (S a)); try done; try lia.
    cbn [log_call rpc_count trace fs uuid_count].
    f_equal; [do 3 f_equal; lia|].
    f_equal; [lia|].
    rewrite <- app_assoc. f_equal.
    change (seq 0 (S (S k))) with (0%nat :: seq 1 (S k)).
    cbn [map app]. rewrite Nat.add_0_r. f_equal; [by rewrite Nat.add_0_r|].
    rewrite <- seq_shift, map_map. apply map_ext. intros i.
    by replace (S (rpc_count w) + i)%nat with (rpc_count w + S i)%nat by lia;
      replace (S a + i)%nat with (a + S i)%nat by lia.
Qed.

(** X6. With retry-on-obfuscation enabled, a request with image parameters
    that the service obfuscates on every attempt is dispatched
    [_max_retries + 1] times without sleeping; the request of attempt [i]
    carries every original seed plus [i]; the rejection of the last attempt
    is raised. *)
Theorem run_request_obfuscated_every_attempt (env : Env) (ctx : Context)
    (endpoint : Endpoint) (rq : Request) (ce : nat -> ClassifierParameters)
    (w : World) (N : nat) :
  _max_retries ctx = Z.of_nat N ->
  _retry_obfuscation ctx = true ->
  endpoint_engine_id endpoint = engine_id rq ->
  is_Some (image rq) ->
  (forall n rq', exists response,
     stub env n (Single rq') = RpcStream response
     /\ obfuscation (_process_response response) = Some (ce n)) ->
  exists w',
    _run_request env ctx endpoint (Single rq) w =
      (Raise (ClassifierException (ce (rpc_count w + N)%nat)), w')
    /\ trace w' = trace w ++
         map (fun i => EvCall (rpc_count w + i) (Single (adjusted_upto ctx rq i)))
             (seq 0 (S N))
    /\ forall i, seeds_of (adjusted_upto ctx rq i) =
                 map (fun s => s + Z.of_nat i) (seeds_of rq).
Proof.
  intros HN Hretry Heng Him Hstub. eexists. split_and!.
  - unfold _run_request, range. rewrite HN.
    replace (Z.to_nat (Z.of_nat N + 1)) with (S N) by lia.
    by apply (run_attempts_obfuscated env ctx endpoint rq ce N 0%nat None w).
  - done.
  - intros i. apply adjusted_upto_seeds.
Qed.

Lemma run_request_obfuscated_every_attempt_witness :
  exists w',
    _run_request obfuscating_env retry_context (_generate retry_context)
      (Single sample_generate_request) empty_world =
      (Raise (ClassifierException obfuscate_result), w')
    /\ trace w' = trace empty_world ++
         map (fun i => EvCall (rpc_count empty_world + i)
                         (Single (adjusted_upto retry_context sample_generate_request i)))
             (seq 0 6)
    /\ forall i, seeds_of (adjusted_upto retry_context sample_generate_request i) =
                 map (fun s => s + Z.of_nat i) (seeds_of sample_generate_request).
Proof.
  apply (run_request_obfuscated_every_attempt obfuscating_env retry_context
           (_generate retry_context) sample_generate_request
           (fun _ => obfuscate_result) empty_world 5%nat).
  - reflexivity.
  - reflexivity.
  - reflexivity.
  - by eexists.
  - intros n rq'. eexists. split; reflexivity.
Defined.

(** ** The shifted schedule start *)

Lemma py_clamp_bounds x : (0 <= py_max 0 (py_min 1 x) <= 1)%Q.
Proof.
  unfold py_max, py_min. repeat (destruct (Qlt_le_dec _ _)); split; lra.
Qed.

(** X7. After the adjustment of a retry that is not the first
    ([attempt > 0]), a schedule start that was present is present and lies
    within [0, 1], whatever the old value and the configured offset; with a
    non-negative offset a start within [0, 1] never decreases. *)
Theorem adjusted_start_within_bounds (ctx : Context) (rq : Request) (attempt : Z)
    (x : Q) :
  attempt > 0 ->
  first_start rq = Some x ->
  exists x', first_start (_adjust_request_for_retry ctx rq attempt) = Some x'
    /\ (0 <= x' <= 1)%Q
    /\ ((0 <= _retry_schedule_offset ctx)%Q -> (x <= 1)%Q -> (x <= x')%Q).
Proof.
  intros Hatt Hstart. unfold first_start in *.
  unfold _adjust_request_for_retry.
  destruct (image rq) as [im|] eqn:Him; [|done]. cbn in *.
  destruct (parameters im) as [|p ps] eqn:Hp; [done|]. cbn in *.
  destruct (decide (attempt > 0)); [|done]. cbn.
  unfold adjust_step. destruct (schedule p) as [s|] eqn:Hs; [|done]. cbn in *.
  unfold shift_start. rewrite Hstart. cbn.
  eexists. split; [done|]. split; [apply py_clamp_bounds|].
  intros Hoff Hx. unfold py_max, py_min.
  repeat (destruct (Qlt_le_dec _ _)); lra.
Qed.

Lemma adjusted_start_within_bounds_witness :
  exists x', first_start (_adjust_request_for_retry retry_context
                            sample_generate_request 1) = Some x'
    /\ (0 <= x' <= 1)%Q
    /\ ((0 <= _retry_schedule_offset retry_context)%Q -> (19 # 20 <= 1)%Q
        -> (19 # 20 <= x')%Q).
Proof.
  apply (adjusted_start_within_bounds retry_context sample_generate_request 1 (19 # 20)).
  - lia.
  - reflexivity.
Defined.

(** * Further properties of the storage layer *)

(** ** Round trips through the local backend *)

Lemma string_append_assoc (a b c : string) :
  String.append (String.append a b) c = String.append a (String.append b c).
Proof.
  induction a as [|ch a IH]; [reflexivity|].
  change (String ch (String.append (String.append a b) c)
          = String ch (String.append a (String.append b c))).
  by rewrite IH.
Qed.

Lemma startswith_slash_append b c :
  b <> EmptyString -> startswith_slash (String.append b c) = startswith_slash b.
Proof. by destruct b. Qed.

(** Appending an extension that begins with no "/" commutes with joining. *)
Lemma path_join_append a b c :
  startswith_slash c = false ->
  path_join a (String.append b c) = String.append (path_join a b) c.
Proof.
  intros Hc. unfold path_join.
  destruct b as [|ch b].
  - change (String.append "" c) with c. rewrite Hc.
    change (startswith_slash "") with false. cbn iota.
    destruct (String.eqb a "" || endswith_slash a).
    + by rewrite string_append_assoc.
    + by rewrite string_append_assoc.
  - change (String.append (String ch b) c) with (String ch (String.append b c)).
    cbn [startswith_slash].
    destruct (Ascii.eqb ch slash); [reflexivity|].
    destruct (String.eqb a "" || endswith_slash a).
    + rewrite string_append_assoc. reflexivity.
    + rewrite string_append_assoc. reflexivity.
Qed.

Lemma write_file_then_read env path content w w' :
  write_file env path content w = (Ok tt, w') ->
  read_file path w' = (Ok content, w')
  /\ fs w' = <[path := content]> (fs w).
Proof.
  unfold write_file, read_file.
  destruct (write_denied env (dirname path)); [done|].
  destruct (write_denied env path); [done|].
  intros H. inversion H; subst. cbn. by rewrite lookup_insert_eq.
Qed.


(** X8. An image stored by the local backend is read back by the same
    backend under the id the write returned: the read opens the very PNG
    bytes that were encoded from the image. *)
Theorem local_image_round_trip (env : Env) (primary : bool) (root : string)
    (self : ProjectRecord) (im : Image) (u u' : AssetUse) (asset_id : option string)
    (w w' : World) (filename : string) :
  LocalFileBackend.put_image_asset env primary root self im u asset_id w
    = (Ok filename, w') ->
  LocalFileBackend.get_image_asset root self filename u' w'
    = (Ok (ImageOpen (image_to_png_bytes env im)), w').
Proof.
  unfold LocalFileBackend.put_image_asset, LocalFileBackend.get_image_asset.
  unfold mbind, M_bind, mret, M_ret.
  destruct (LocalFileBackend.choose_filename env primary asset_id _ w)
    as [[name|e] w1]; [|done].
  destruct (write_file env _ _ w1) as [[[]|e] w2] eqn:Hwrite; [|done].
  intros H. inversion H; subst.
  apply write_file_then_read in Hwrite as [Hread _].
  unfold LocalFileBackend.get_path_for_asset in *.
  rewrite path_join_append by done. by rewrite Hread.
Qed.

Lemma local_image_round_trip_witness :
  LocalFileBackend.get_image_asset "projects" sample_project "asset-1" ASSET_USE_INPUT
    (LocalFileBackend.put_image_asset (storing_env (fun _ => false)) false "projects"
       sample_project (Pixels "cat") ASSET_USE_PROJECT (Some "asset-1") empty_world).2
  = (Ok (ImageOpen (image_to_png_bytes (storing_env (fun _ => false)) (Pixels "cat"))),
     (LocalFileBackend.put_image_asset (storing_env (fun _ => false)) false "projects"
       sample_project (Pixels "cat") ASSET_USE_PROJECT (Some "asset-1") empty_world).2).
Proof.
  apply (local_image_round_trip (storing_env (fun _ => false)) false "projects"
           sample_project (Pixels "cat") ASSET_USE_PROJECT ASSET_USE_INPUT
           (Some "asset-1") empty_world).
  reflexivity.
Defined.



(** X10. Settings saved by the local backend are the settings it loads for
    the same project, whatever asset id the load is given; the write returns
    the fixed file name. *)
Theorem local_settings_round_trip (env : Env) (root : string) (self : ProjectRecord)
    (data : Settings) (asset_id : option string) (w w' : World) (filename : string) :
  LocalFileBackend.put_project_settings env root self data w = (Ok filename, w') ->
  filename = "project_settings.json"
  /\ LocalFileBackend.get_project_settings root self asset_id w' = (Ok data, w').
Proof.
  unfold LocalFileBackend.put_project_settings, LocalFileBackend.get_project_settings.
  unfold mbind, M_bind, mret, M_ret.
  destruct (write_file env _ _ w) as [[[]|e] w2] eqn:Hwrite; [|done].
  intros H. inversion H; subst. split; [done|].
  by apply write_file_then_read in Hwrite as [Hread _].
Qed.

Lemma local_settings_round_trip_witness :
  "project_settings.json" = "project_settings.json"
  /\ LocalFileBackend.get_project_settings "projects" sample_project None
       (LocalFileBackend.put_project_settings (storing_env (fun _ => false)) "projects"
          sample_project "{}" empty_world).2
     = (Ok "{}",
        (LocalFileBackend.put_project_settings (storing_env (fun _ => false)) "projects"
          sample_project "{}" empty_world).2).
Proof.
  apply (local_settings_round_trip (storing_env (fun _ => false)) "projects"
           sample_project "{}" None empty_world).
  reflexivity.
Defined.

(** ** Fan-out of the writes of [Project] *)

Lemma put_image_asset_loop_inv (bs : list StorageBackend.t) :
  forall i self im u results asset_id filename s r s',
    Project.put_image_asset_loop bs i self im u results asset_id filename s = (r, s') ->
    _metadata_index s' = _metadata_index s
    /\ index_file s' = index_file s
    /\ exists new, invocations s' = invocations s ++ new
         /\ map fst new = seq i (length new)
         /\ (length new <= length bs)%nat
         /\ (forall x, r = Ok x -> length new = length bs).
Proof.
  induction bs as [|b bs IH]; intros i self im u results asset_id filename s r s' Hrun.
  - inversion Hrun; subst. split_and!; try done. exists []. rewrite app_nil_r.
    by split_and!.
  - cbn [Project.put_image_asset_loop] in Hrun. unfold mbind, PM_bind in Hrun.
    destruct (invoke_spec i (CallPutImageAsset im u asset_id)
                (StorageBackend.put_image_asset b self im u asset_id) s)
      as (_ & _ & Hi & Hm & Hf).
    destruct (invoke i _ _ s) as [[result|e] s1].
    + cbn in Hi, Hm, Hf.
      destruct (StorageBackend.primary b);
        apply IH in Hrun as (Hm' & Hf' & new & Hn & Hseq & Hlen & Hall);
        (split_and!; [congruence|congruence|]);
        exists ((i, CallPutImageAsset im u asset_id) :: new);
        (split_and!;
         [by rewrite Hn, Hi, <- app_assoc
         |by cbn; rewrite Hseq
         |cbn; lia
         |by intros x Hx; cbn; rewrite (Hall x Hx)]).
    + inversion Hrun; subst. cbn in *. split_and!; try done.
      exists [(i, CallPutImageAsset im u asset_id)]. split_and!; try done.
      cbn. lia.
Qed.

Lemma replay_cons backends self ic log w w1 :
  perform backends self ic w = (Ok tt, w1) ->
  replay backends self (ic :: log) w = replay backends self log w1.
Proof. intros H. cbn [replay]. unfold mbind, M_bind. by rewrite H. Qed.

Lemma stopped_at_failure_cons backends self ic new w w1 e w' :
  perform backends self ic w = (Ok tt, w1) ->
  stopped_at_failure backends self new w1 e w' ->
  stopped_at_failure backends self (ic :: new) w e w'.
Proof.
  intros Hic (pre & last & w2 & -> & Hpre & Hlast).
  exists (ic :: pre), last, w2. split_and!; [done| |done].
  by rewrite (replay_cons _ _ _ _ _ _ Hic).
Qed.

Lemma stopped_at_failure_one backends self ic w e w' :
  perform backends self ic w = (Raise e, w') ->
  stopped_at_failure backends self [ic] w e w'.
Proof. intros H. by exists [], ic, w. Qed.

Lemma perform_put_image_asset front b bs self im u asset_id w :
  perform (front ++ b :: bs) self (length front, CallPutImageAsset im u asset_id) w =
  match StorageBackend.put_image_asset b self im u asset_id w with
  | (Ok _, w1) => (Ok tt, w1)
  | (Raise e, w1) => (Raise e, w1)
  end.
Proof.
  unfold perform. cbn [fst snd]. rewrite list_lookup_middle by done.
  unfold mbind, M_bind. by destruct (StorageBackend.put_image_asset b self im u asset_id w)
    as [[x|e] w1].
Qed.

(** The loop of [put_image_asset] on the backends that follow [front]: it
    returns when every call returned, and a failure is the failure of the
    last call it made. *)
Lemma put_image_asset_loop_stops (bs : list StorageBackend.t) :
  forall front self im u results asset_id filename s r s',
    Project.put_image_asset_loop bs (length front) self im u results asset_id filename s
      = (r, s') ->
    exists new, invocations s' = invocations s ++ new
      /\ (forall x, r = Ok x ->
            replay (front ++ bs) self new (world s) = (Ok tt, world s'))
      /\ (forall e, r = Raise e ->
            stopped_at_failure (front ++ bs) self new (world s) e (world s')).
Proof.
  induction bs as [|b bs IH];
    intros front self im u results asset_id filename s r s' Hrun.
  - inversion Hrun; subst. exists []. rewrite app_nil_r. by split_and!.
  - cbn [Project.put_image_asset_loop] in Hrun. unfold mbind, PM_bind in Hrun.
    pose proof (perform_put_image_asset front b bs self im u asset_id (world s)) as Hp.
    destruct (invoke_spec (length front) (CallPutImageAsset im u asset_id)
                (StorageBackend.put_image_asset b self im u asset_id) s)
      as (Hr & Hw & Hi & _ & _).
    destruct (invoke (length front) _ _ s) as [[result|e] s1];
      destruct (StorageBackend.put_image_asset b self im u asset_id (world s))
        as [[result'|e'] w1]; cbn in Hr, Hw, Hi; try done; subst w1.
    + replace (S (length front)) with (length (front ++ [b])) in Hrun
        by (rewrite length_app; cbn; lia).
      destruct (StorageBackend.primary b);
        apply IH in Hrun as (new & Hn & Hok & Hfail);
        rewrite <- app_assoc in Hok, Hfail; cbn in Hok, Hfail;
        exists ((length front, CallPutImageAsset im u asset_id) :: new);
        (split_and!;
         [by rewrite Hn, Hi, <- app_assoc
         |intros x Hx; rewrite (replay_cons _ _ _ _ _ _ Hp); by eapply Hok
         |intros e He; eapply stopped_at_failure_cons; [exact Hp|by apply Hfail]]).
    + inversion Hr; subst e'. inversion Hrun; subst.
      exists [(length front, CallPutImageAsset im u asset_id)]. split_and!; try done.
      intros e' He'. inversion He'; subst. by apply stopped_at_failure_one.
Qed.

(** X11. [Project.put_image_asset] calls the backends in registration order,
    each at most once, and stops at the first failure: when a backend
    raises, every call made before returned, the exception raised is the one
    of the last call made, and no later backend is called.  If it fails,
    [metadata_index.json] is left as it was, and the index in memory too
    unless every backend had accepted the write and only the index file
    could not be written; if it succeeds, every backend was called and
    returned, and the document is the index in memory. *)
Theorem put_image_asset_fan_out (env : Env) (backends : list StorageBackend.t)
    (self : ProjectRecord) (im : Image) (u : AssetUse) (s s' : Store)
    (r : Res (list string)) :
  Project.put_image_asset env backends self im u s = (r, s') ->
  exists new,
    invocations s' = invocations s ++ new
    /\ in_registration_order backends new
    /\ (forall results, r = Ok results ->
          length new = length backends /\ index_file s' = Some (_metadata_index s')
          /\ replay backends self new (world s) = (Ok tt, world s'))
    /\ (forall e, r = Raise e ->
          index_file s' = index_file s
          /\ ((_metadata_index s' = _metadata_index s
               /\ stopped_at_failure backends self new (world s) e (world s'))
              \/ (length new = length backends
                  /\ write_denied env "metadata_index.json" = true
                  /\ e = OSError "metadata_index.json"
                  /\ replay backends self new (world s) = (Ok tt, world s')))).
Proof.
  intros Hrun. unfold Project.put_image_asset in Hrun. unfold mbind, PM_bind in Hrun.
  destruct (Project.put_image_asset_loop backends 0 self im u [] None None s)
    as [[[[results asset_id] filename]|e] s1] eqn:Hloop;
    pose proof (put_image_asset_loop_stops backends [] _ _ _ _ _ _ _ _ _ Hloop)
      as (new' & Hn' & Hok & Hfail);
    apply put_image_asset_loop_inv in Hloop
      as (Hm & Hf & new & Hn & Hseq & Hlen & Hall);
    (assert (new' = new) as -> by (rewrite Hn in Hn'; by apply app_inv_head in Hn'));
    cbn [app] in Hok, Hfail.
  - unfold Project.add_asset_metadata, Project.save_metadata_index in Hrun.
    cbn in Hrun. destruct (write_denied env "metadata_index.json") eqn:Hdenied.
    + inversion Hrun; subst. cbn. exists new. split_and!; try done.
      intros e He. inversion He; subst. split; [done|]. right.
      split_and!; try done; [by eapply Hall|by eapply Hok].
    + inversion Hrun; subst. cbn. exists new. split_and!; try done.
      intros results' _. split_and!; [by eapply Hall|done|by eapply Hok].
  - inversion Hrun; subst. exists new. split_and!; try done.
    intros e' He'. inversion He'; subst. split; [done|]. left. split; [done|].
    by apply Hfail.
Qed.

Lemma put_image_asset_fan_out_witness :
  let env := storing_env (fun _ => false) in
  let backends := [naming_backend; refusing_backend; naming_backend] in
  let run := Project.put_image_asset env backends sample_project (Pixels "cat")
               ASSET_USE_PROJECT empty_store in
  exists new,
    invocations run.2 = invocations empty_store ++ new
    /\ in_registration_order backends new
    /\ (forall results, run.1 = Ok results ->
          length new = length backends
          /\ index_file run.2 = Some (_metadata_index run.2)
          /\ replay backends sample_project new (world empty_store)
             = (Ok tt, world run.2))
    /\ (forall e, run.1 = Raise e ->
          index_file run.2 = index_file empty_store
          /\ ((_metadata_index run.2 = _metadata_index empty_store
               /\ stopped_at_failure backends sample_project new
                    (world empty_store) e (world run.2))
              \/ (length new = length backends
                  /\ write_denied env "metadata_index.json" = true
                  /\ e = OSError "metadata_index.json"
                  /\ replay backends sample_project new (world empty_store)
                     = (Ok tt, world run.2)))).
Proof.
  intros env backends run.
  apply (put_image_asset_fan_out env backends sample_project (Pixels "cat")
           ASSET_USE_PROJECT empty_store).
  apply surjective_pairing.
Defined.

(** Three backends, the second of which refuses the write: the third one is
    not called. *)
Example put_image_asset_stops_at_refusal :
  let run := Project.put_image_asset (storing_env (fun _ => false))
               [naming_backend; refusing_backend; naming_backend]
               sample_project (Pixels "cat") ASSET_USE_PROJECT empty_store in
  run.1 = Raise (Exception "read-only store")
  /\ invocations run.2
     = [(0%nat, CallPutImageAsset (Pixels "cat") ASSET_USE_PROJECT None);
        (1%nat, CallPutImageAsset (Pixels "cat") ASSET_USE_PROJECT None)].
Proof. intros run. split; vm_compute; reflexivity. Qed.

Lemma put_image_asset_loop_no_primary (bs : list StorageBackend.t) :
  Forall (fun b => StorageBackend.primary b = false) bs ->
  forall i self im u results asset_id filename s results' asset_id' filename' s',
    Project.put_image_asset_loop bs i self im u results asset_id filename s
      = (Ok (results', asset_id', filename'), s') ->
    results' = results /\ asset_id' = asset_id.
Proof.
  induction 1 as [|b bs Hb _ IH];
    intros i self im u results asset_id filename s results' asset_id' filename' s' Hrun.
  - by inversion Hrun.
  - cbn [Project.put_image_asset_loop] in Hrun. unfold mbind, PM_bind in Hrun.
    destruct (invoke i _ _ s) as [[result|e] s1]; [|done].
    rewrite Hb in Hrun. by apply IH in Hrun.
Qed.

(** X12. When no registered backend is flagged primary, a successful
    [put_image_asset] returns no id and files the metadata of the asset
    under the key [None] of the project. *)
Theorem put_image_asset_without_primary (env : Env) (backends : list StorageBackend.t)
    (self : ProjectRecord) (im : Image) (u : AssetUse) (s s' : Store)
    (results : list string) :
  Forall (fun b => StorageBackend.primary b = false) backends ->
  Project.put_image_asset env backends self im u s = (Ok results, s') ->
  results = []
  /\ exists assets filename,
       _metadata_index s' !! proj_id self = Some assets
       /\ assets !! None = Some (AssetMeta "image/png" filename).
Proof.
  intros Hnone Hrun. unfold Project.put_image_asset in Hrun.
  unfold mbind, PM_bind in Hrun.
  destruct (Project.put_image_asset_loop backends 0 self im u [] None None s)
    as [[[[results' asset_id] filename]|e] s1] eqn:Hloop; [|done].
  apply (put_image_asset_loop_no_primary _ Hnone) in Hloop as [-> ->].
  unfold Project.add_asset_metadata, Project.save_metadata_index in Hrun.
  cbn in Hrun. destruct (write_denied env "metadata_index.json"); [done|].
  inversion Hrun; subst. cbn. split; [done|].
  eexists _, filename. unfold Project.add_entry.
  rewrite lookup_insert_eq. split; [done|]. by rewrite lookup_insert_eq.
Qed.

Lemma put_image_asset_without_primary_witness :
  let env := storing_env (fun _ => false) in
  let run := Project.put_image_asset env [naming_backend] sample_project
               (Pixels "cat") ASSET_USE_PROJECT empty_store in
  @nil string = []
  /\ exists assets filename,
       _metadata_index run.2 !! proj_id sample_project = Some assets
       /\ assets !! None = Some (AssetMeta "image/png" filename).
Proof.
  intros env run.
  apply (put_image_asset_without_primary env [naming_backend] sample_project
           (Pixels "cat") ASSET_USE_PROJECT empty_store run.2 []).
  - constructor; [reflexivity|constructor].
  - vm_compute. reflexivity.
Defined.

(** ** Deleting a project *)

Lemma delete_loop_inv (bs : list StorageBackend.t) : forall i id s r s',
  Project.delete_loop bs i id s = (r, s') ->
  exists new, invocations s' = invocations s ++ new
    /\ map fst new = seq i (length new)
    /\ (length new <= length bs)%nat
    /\ Forall (fun ic => ic.2 = CallDeleteProject id) new
    /\ (r = Ok tt -> length new = length bs).
Proof.
  induction bs as [|b bs IH]; intros i id s r s' Hrun.
  - inversion Hrun; subst. exists []. rewrite app_nil_r. by split_and!.
  - cbn [Project.delete_loop] in Hrun. unfold mbind, PM_bind in Hrun.
    destruct (invoke_spec i (CallDeleteProject id) (StorageBackend.delete_project b id) s)
      as (_ & _ & Hi & _ & _).
    destruct (invoke i _ _ s) as [[[]|e] s1].
    + apply IH in Hrun as (new & Hn & Hseq & Hlen & Hall & Hok).
      exists ((i, CallDeleteProject id) :: new). cbn in *. split_and!.
      * by rewrite Hn, Hi, <- app_assoc.
      * by rewrite Hseq.
      * lia.
      * by constructor.
      * intros Hr. by rewrite (Hok Hr).
    + inversion Hrun; subst. exists [(i, CallDeleteProject id)]. cbn in *.
      split_and!; try done; [lia|by constructor].
Qed.

Lemma perform_delete_project front b bs self id w :
  perform (front ++ b :: bs) self (length front, CallDeleteProject id) w =
  StorageBackend.delete_project b id w.
Proof. unfold perform. cbn [fst snd]. by rewrite list_lookup_middle. Qed.

(** The loop of [delete] on the backends that follow [front]: it returns
    when every call returned, and a failure is the failure of the last call
    it made. *)
Lemma delete_loop_stops (bs : list StorageBackend.t) : forall front self id s r s',
  Project.delete_loop bs (length front) id s = (r, s') ->
  exists new, invocations s' = invocations s ++ new
    /\ (r = Ok tt -> replay (front ++ bs) self new (world s) = (Ok tt, world s'))
    /\ (forall e, r = Raise e ->
          stopped_at_failure (front ++ bs) self new (world s) e (world s')).
Proof.
  induction bs as [|b bs IH]; intros front self id s r s' Hrun.
  - inversion Hrun; subst. exists []. rewrite app_nil_r. by split_and!.
  - cbn [Project.delete_loop] in Hrun. unfold mbind, PM_bind in Hrun.
    pose proof (perform_delete_project front b bs self id (world s)) as Hp.
    destruct (invoke_spec (length front) (CallDeleteProject id)
                (StorageBackend.delete_project b id) s) as (Hr & Hw & Hi & _ & _).
    destruct (invoke (length front) _ _ s) as [[[]|e] s1];
      destruct (StorageBackend.delete_project b id (world s)) as [[[]|e'] w1];
      cbn in Hr, Hw, Hi; try done; subst w1.
    + replace (S (length front)) with (length (front ++ [b])) in Hrun
        by (rewrite length_app; cbn; lia).
      apply (IH _ self) in Hrun as (new & Hn & Hok & Hfail).
      rewrite <- app_assoc in Hok, Hfail; cbn in Hok, Hfail.
      exists ((length front, CallDeleteProject id) :: new). split_and!.
      * by rewrite Hn, Hi, <- app_assoc.
      * intros Hx. rewrite (replay_cons _ _ _ _ _ _ Hp). by apply Hok.
      * intros e He. eapply stopped_at_failure_cons; [exact Hp|by apply Hfail].
    + inversion Hr; subst e'. inversion Hrun; subst.
      exists [(length front, CallDeleteProject id)]. split_and!; try done.
      intros e' He'. inversion He'; subst. by apply stopped_at_failure_one.
Qed.

(** X13. [Project.delete] asks the registered backends, in registration
    order, to delete the project and gives up at the first refusal: every
    call made before returned, the exception raised is the one of the last
    call made, no later backend is called, and the project keeps its entry
    in the index.  Only when all have deleted is the entry of the project,
    and of no other project, dropped from the index in memory.  The
    persisted document is never rewritten. *)
Theorem delete_fan_out (backends : list StorageBackend.t) (self : ProjectRecord)
    (s s' : Store) (r : Res unit) :
  Project.delete backends self s = (r, s') ->
  exists new,
    invocations s' = invocations s ++ new
    /\ in_registration_order backends new
    /\ Forall (fun ic => ic.2 = CallDeleteProject (proj_id self)) new
    /\ index_file s' = index_file s
    /\ (r = Ok tt ->
          length new = length backends
          /\ replay backends self new (world s) = (Ok tt, world s')
          /\ _metadata_index s' !! proj_id self = None
          /\ forall other, other <> proj_id self ->
               _metadata_index s' !! other = _metadata_index s !! other)
    /\ (forall e, r = Raise e ->
          _metadata_index s' = _metadata_index s
          /\ stopped_at_failure backends self new (world s) e (world s')).
Proof.
  intros Hrun. unfold Project.delete, mbind, PM_bind in Hrun.
  destruct (delete_loop_index backends 0 (proj_id self) s) as [Hf Hm].
  destruct (Project.delete_loop backends 0 (proj_id self) s) as [[[]|e] s1] eqn:Hloop;
    pose proof (delete_loop_stops backends [] self _ _ _ _ Hloop)
      as (new' & Hn' & Hret & Hfail);
    apply delete_loop_inv in Hloop as (new & Hn & Hseq & Hlen & Hall & Hok);
    (assert (new' = new) as -> by (rewrite Hn in Hn'; by apply app_inv_head in Hn'));
    cbn [app] in Hret, Hfail;
    exists new; cbn in Hf, Hm.
  - unfold Project.delete_project_metadata in Hrun. inversion Hrun; subst. cbn.
    split_and!; try done. intros _. split_and!.
    + by apply Hok.
    + by apply Hret.
    + rewrite Hm. apply lookup_delete_eq.
    + intros other Hne. rewrite Hm. by apply lookup_delete_ne.
  - inversion Hrun; subst. split_and!; try done.
    intros e' He'. inversion He'; subst. split; [done|]. by apply Hfail.
Qed.

Lemma delete_fan_out_witness :
  let backends := [naming_backend; refusing_backend; naming_backend] in
  let run := Project.delete backends sample_project empty_store in
  exists new,
    invocations run.2 = invocations empty_store ++ new
    /\ in_registration_order backends new
    /\ Forall (fun ic => ic.2 = CallDeleteProject (proj_id sample_project)) new
    /\ index_file run.2 = index_file empty_store
    /\ (run.1 = Ok tt ->
          length new = length backends
          /\ replay backends sample_project new (world empty_store)
             = (Ok tt, world run.2)
          /\ _metadata_index run.2 !! proj_id sample_project = None
          /\ forall other, other <> proj_id sample_project ->
               _metadata_index run.2 !! other = _metadata_index empty_store !! other)
    /\ (forall e, run.1 = Raise e ->
          _metadata_index run.2 = _metadata_index empty_store
          /\ stopped_at_failure backends sample_project new
               (world empty_store) e (world run.2)).
Proof.
  intros backends run.
  apply (delete_fan_out backends sample_project empty_store).
  apply surjective_pairing.
Defined.

(** Three backends, the second of which refuses: the third one is not
    asked. *)
Example delete_stops_at_refusal :
  let run := Project.delete [naming_backend; refusing_backend; naming_backend]
               sample_project empty_store in
  run.1 = Raise (Exception "read-only store")
  /\ invocations run.2
     = [(0%nat, CallDeleteProject (proj_id sample_project));
        (1%nat, CallDeleteProject (proj_id sample_project))].
Proof. intros run. split; vm_compute; reflexivity. Qed.

(** ** Saving and loading the settings of a project *)

Lemma save_settings_loop_asset_id (bs : list StorageBackend.t) :
  forall i self data asset_id filename s asset_id' filename' s',
    Project.save_settings_loop bs i self data asset_id filename s
      = (Ok (asset_id', filename'), s') ->
    _metadata_index s' = _metadata_index s
    /\ (is_Some asset_id' <->
        is_Some asset_id \/ Exists (fun b => StorageBackend.primary b = true) bs).
Proof.
  induction bs as [|b bs IH];
    intros i self data asset_id filename s asset_id' filename' s' Hrun.
  - inversion Hrun; subst. split; [done|]. split; [by left|].
    intros [H|H]; [done|]. by apply Exists_nil in H.
  - cbn [Project.save_settings_loop] in Hrun. unfold mbind, PM_bind in Hrun.
    destruct (invoke_spec i (CallPutProjectSettings data)
                (StorageBackend.put_project_settings b self data) s)
      as (_ & _ & _ & Hm & _).
    destruct (invoke i _ _ s) as [[temp|e] s1]; [|done]. cbn in Hm.
    apply IH in Hrun as [Hm' Hiff]. split; [congruence|].
    rewrite Hiff. rewrite Exists_cons.
    destruct (StorageBackend.primary b) eqn:Hb.
    + split; [intros _; right; by left|intros _; left; by eexists].
    + split; [intros [H|H]; [by left|right; by right]|].
      intros [H|[H|H]]; [by left|done|by right].
Qed.

(** X14. After [save_settings] has succeeded, the index entry
    ["project_file_id"] of the project is the asset id it returned, which is
    therefore the id [get_settings] hands to the primary backend; the id is
    present exactly when a backend is flagged primary; unless the id is the
    role key itself, the asset has its metadata entry, of type
    ["application/json"]; the index is persisted. *)
Theorem save_settings_records_file_id (env : Env) (backends : list StorageBackend.t)
    (self : ProjectRecord) (data : Settings) (s s' : Store) (asset_id : option string) :
  Project.save_settings env backends self data s = (Ok asset_id, s') ->
  Project.project_file_id self s' = (Ok asset_id, s')
  /\ (is_Some asset_id <-> Exists (fun b => StorageBackend.primary b = true) backends)
  /\ (asset_id <> Some "project_file_id" ->
        exists assets filename,
          _metadata_index s' !! proj_id self = Some assets
          /\ assets !! asset_id = Some (AssetMeta "application/json" filename))
  /\ index_file s' = Some (_metadata_index s').
Proof.
  intros Hrun. unfold Project.save_settings, mbind, PM_bind in Hrun.
  destruct (Project.save_settings_loop backends 0 self data None None s)
    as [[[aid filename]|e] s1] eqn:Hloop; [|done].
  apply save_settings_loop_asset_id in Hloop as [Hm Hiff].
  unfold Project.add_asset_metadata, Project.save_metadata_index, mret, PM_ret in Hrun.
  cbn in Hrun. destruct (write_denied env "metadata_index.json"); [done|].
  inversion Hrun; subst. cbn. unfold Project.project_file_id, Project.add_entry. cbn.
  rewrite !lookup_insert_eq. split_and!; try done.
  - rewrite Hiff. split; [intros [H|H]; [by destruct H|done]|by right].
  - intros Hne. eexists _, filename. split; [done|].
    by rewrite lookup_insert_ne, lookup_insert_eq.
Qed.

Lemma save_settings_records_file_id_witness :
  let env := storing_env (fun _ => false) in
  let run := Project.save_settings env (Project.init_backends env default_context)
               sample_project "{}" empty_store in
  Project.project_file_id sample_project run.2 = (Ok (Some "asset-1"), run.2)
  /\ (is_Some (Some "asset-1") <->
      Exists (fun b => StorageBackend.primary b = true)
             (Project.init_backends env default_context))
  /\ (Some "asset-1" <> Some "project_file_id" ->
        exists assets filename,
          _metadata_index run.2 !! proj_id sample_project = Some assets
          /\ assets !! Some "asset-1" = Some (AssetMeta "application/json" filename))
  /\ index_file run.2 = Some (_metadata_index run.2).
Proof.
  intros env run.
  apply (save_settings_records_file_id env (Project.init_backends env default_context)
           sample_project "{}" empty_store).
  vm_compute. reflexivity.
Defined.

(** ** Failures in front of the remote call *)

(** X15. A video path that names no existing file, or does not end in
    [.mp4], is refused by both backends with a [ValueError] before anything
    else happens: no call is dispatched, nothing is read or written, no uuid
    is drawn. *)
Theorem put_video_asset_invalid_path (env : Env) (ctx : Context) (primary : bool)
    (root : string) (self : ProjectRecord) (video_path : string)
    (asset_id : option string) (w : World) :
  fs w !! video_path = None \/ endswith video_path ".mp4" = false ->
  AssetServiceBackend.put_video_asset env ctx self video_path asset_id w =
    (Raise (ValueError "Invalid video file path. Must be an existing .mp4 file."), w)
  /\ LocalFileBackend.put_video_asset env primary root self video_path asset_id w =
    (Raise (ValueError "Invalid video file path. Must be an existing .mp4 file."), w).
Proof.
  intros Hbad.
  assert (Hguard : negb (bool_decide (is_Some (fs w !! video_path)))
                   || negb (endswith video_path ".mp4") = true).
  { destruct Hbad as [Hnone|Hext].
    - rewrite Hnone. by rewrite bool_decide_eq_false_2 by (by intros []).
    - rewrite Hext. by rewrite orb_true_r. }
  unfold AssetServiceBackend.put_video_asset, LocalFileBackend.put_video_asset.
  unfold mbind, M_bind, isfile. by rewrite Hguard.
Qed.

Lemma put_video_asset_invalid_path_witness :
  AssetServiceBackend.put_video_asset (storing_env (fun _ => false)) default_context
    sample_project "clips/in.mov" None video_world =
    (Raise (ValueError "Invalid video file path. Must be an existing .mp4 file."),
     video_world)
  /\ LocalFileBackend.put_video_asset (storing_env (fun _ => false)) true "projects"
       sample_project "clips/in.mov" None video_world =
    (Raise (ValueError "Invalid video file path. Must be an existing .mp4 file."),
     video_world).
Proof.
  apply put_video_asset_invalid_path. left. reflexivity.
Defined.

(** X16. In the default configuration, when the asset service denies the
    PUT of an image for lack of credits, [Project.put_image_asset] raises
    [OutOfCreditsException] with the service's details after that single
    call: the local mirror is not called, no file is written, and the index
    and its document are left as they were. *)
Theorem put_image_asset_out_of_credits (env : Env) (ctx : Context)
    (self : ProjectRecord) (im : Image) (u : AssetUse) (s : Store) (e : RpcError) :
  let rq := Single (AssetServiceBackend.asset_request ctx
                      (image_to_prompt env im ARTIFACT_IMAGE) ASSET_PUT self u) in
  0 <= _max_retries ctx ->
  stub env (rpc_count (world s)) rq = RpcFailed e ->
  code e = Some RESOURCE_EXHAUSTED ->
  Project.put_image_asset env (Project.init_backends env ctx) self im u s =
    (Raise (OutOfCreditsException (details e)),
     {| world := log_call rq (world s);
        _metadata_index := _metadata_index s;
        index_file := index_file s;
        invocations := invocations s ++ [(0%nat, CallPutImageAsset im u None)] |}).
Proof.
  intros rq Hmax Hstub Hcode.
  unfold Project.put_image_asset, Project.init_backends.
  cbn [Project.put_image_asset_loop]. unfold mbind at 1. unfold PM_bind at 1.
  unfold mbind at 1. unfold PM_bind at 1. unfold invoke at 1.
  cbn [AssetServiceBackend.make StorageBackend.put_image_asset].
  unfold AssetServiceBackend.put_image_asset. fold rq.
  unfold mbind at 1. unfold M_bind at 1.
  unfold _run_request.
  replace (_max_retries ctx + 1) with (Z.of_nat (Z.to_nat (_max_retries ctx)) + 1) by lia.
  rewrite range_snoc.
  destruct (map Z.of_nat (seq 0 (Z.to_nat (_max_retries ctx))) ++
            [Z.of_nat (Z.to_nat (_max_retries ctx))]) as [|attempt rest] eqn:Hlist.
  { by destruct (map Z.of_nat (seq 0 (Z.to_nat (_max_retries ctx)))). }
  cbn [run_attempts]. unfold rq at 1. cbn [engine_matches].
  unfold AssetServiceBackend.asset_request at 1. cbn [engine_id].
  rewrite bool_decide_eq_true_2 by done. cbn [negb]. fold rq.
  rewrite Hstub. rewrite bool_decide_eq_true_2 by done. reflexivity.
Qed.

Lemma put_image_asset_out_of_credits_witness :
  Project.put_image_asset broke_env (Project.init_backends broke_env default_context)
    sample_project (Pixels "cat") ASSET_USE_PROJECT empty_store =
    (Raise (OutOfCreditsException "no credits left"),
     {| world := log_call (Single (AssetServiceBackend.asset_request default_context
                             (image_to_prompt broke_env (Pixels "cat") ARTIFACT_IMAGE)
                             ASSET_PUT sample_project ASSET_USE_PROJECT))
                          (world empty_store);
        _metadata_index := _metadata_index empty_store;
        index_file := index_file empty_store;
        invocations := invocations empty_store
                       ++ [(0%nat, CallPutImageAsset (Pixels "cat") ASSET_USE_PROJECT None)] |}).
Proof.
  apply (put_image_asset_out_of_credits broke_env default_context sample_project
           (Pixels "cat") ASSET_USE_PROJECT empty_store
           {| code := Some RESOURCE_EXHAUSTED; details := "no credits left" |}).
  - simpl. lia.
  - reflexivity.
  - reflexivity.
Defined.

(** * Further properties of the chain builder *)

Lemma str_inj n m : str n = str m -> n = m.
Proof.
  unfold str. intros H.
  assert (Hu : Some (Nat.to_uint n) = Some (Nat.to_uint m))
    by (rewrite <- !NilEmpty.usu; by rewrite H).
  inversion Hu as [Hu'].
  rewrite <- (DecimalNat.Unsigned.of_to n), <- (DecimalNat.Unsigned.of_to m).
  by rewrite Hu'.
Qed.

Lemma NoDup_str_seq a n : NoDup (map str (seq a n)).
Proof.
  assert (Hinj : Inj (=) (=) str) by (intros x y; apply str_inj).
  apply (NoDup_fmap_2 str). apply NoDup_seq.
Qed.

Lemma imap_ids {A} (f : nat -> A -> Stage) (l : list A) :
  (forall i x, id (f i x) = str i) ->
  forall a, map id (imap (fun i => f (a + i)%nat) l) = map str (seq a (length l)).
Proof.
  intros Hid. induction l as [|x l IH]; intros a; [done|].
  cbn. rewrite Nat.add_0_r, Hid. f_equal.
  rewrite <- (IH (S a)). f_equal. apply imap_ext. intros i y _. cbn.
  f_equal. lia.
Qed.

Lemma imap_ids0 {A} (f : nat -> A -> Stage) (l : list A) :
  (forall i x, id (f i x) = str i) ->
  map id (imap f l) = map str (seq 0 (length l)).
Proof. intros Hid. exact (imap_ids f l Hid 0%nat). Qed.

Lemma imap_requests (f : nat -> Request -> Stage) (l : list Request) :
  (forall i x, request (f i x) = x) -> map request (imap f l) = l.
Proof.
  revert f. induction l as [|x l IH]; intros f Hf; [done|].
  cbn. rewrite Hf. f_equal. apply IH. intros i y. apply Hf.
Qed.

(** X17. The chain [transform_and_generate] builds is a directed path: the
    ids of the stages are pairwise different, every stage passes to its
    successor and the last one returns; it carries the transform requests in
    order, then the generation request.  On one or more parameter sets the
    chained path sends this chain, and nothing else, through the retry loop
    and returns the first image of what comes back. *)
Theorem generate_chain_is_path (env : Env) (ctx : Context) (im : Image)
    (extras : option Struct) (requests : list Request) (generate_request : Request) :
  path_chain (stage (generate_chain requests generate_request))
  /\ map request (stage (generate_chain requests generate_request))
     = requests ++ [generate_request]
  /\ forall p ps,
       transform_and_generate env (with_debug ctx false) im (p :: ps)
         generate_request extras
       = (results ← _run_request env ctx (_transform ctx)
                      (Chain (generate_chain
                                (map (tensor_request env ctx im extras) (p :: ps))
                                generate_request));
          first_image results).
Proof.
  split_and!.
  - set (pass := fun (idx : nat) (rq : Request) =>
        {| id := str idx; request := rq;
           on_status := [{| stage_action := [STAGE_ACTION_PASS];
                            target := Some (str (idx + 1)) |}] |}).
    unfold generate_chain. cbn [stage]. fold pass. split.
    + rewrite map_app. cbn.
      rewrite (imap_ids0 pass requests ltac:(done)).
      replace (map str (seq 0 (length requests)) ++ [str (length requests)])
        with (map str (seq 0 (S (length requests))))
        by (by rewrite seq_S, map_app).
      apply NoDup_str_seq.
    + intros i st Hst.
      assert (Hlen : length (imap pass requests) = length requests)
        by apply length_imap.
      destruct (decide (i < length requests)%nat) as [Hlt|Hge].
      * rewrite lookup_app_l in Hst by lia.
        rewrite list_lookup_imap in Hst.
        destruct (requests !! i) as [rq|] eqn:Hrq; [|done]. inversion Hst; subst.
        destruct (decide (S i < length requests)%nat) as [Hlt'|Hlast].
        -- rewrite lookup_app_l by lia. rewrite list_lookup_imap.
           destruct (requests !! S i) as [rq'|] eqn:Hrq'.
           ++ cbn. by rewrite Nat.add_1_r.
           ++ apply lookup_ge_None in Hrq'. lia.
        -- rewrite lookup_app_r by lia. rewrite Hlen.
           replace (S i - length requests)%nat with 0%nat by lia. cbn.
           rewrite Nat.add_1_r. do 4 f_equal. lia.
      * rewrite lookup_app_r in Hst by lia. rewrite Hlen in Hst.
        destruct (i - length requests)%nat as [|j] eqn:Hj; [|done].
        inversion Hst; subst. rewrite lookup_ge_None_2; [done|].
        rewrite length_app, Hlen. cbn. lia.
  - unfold generate_chain. cbn [stage]. rewrite map_app. cbn. f_equal.
    apply imap_requests. done.
  - reflexivity.
Qed.

(** X23. On two or more parameter sets the chained path of [transform]
    returns nothing and dispatches nothing, whatever the images, the
    parameter sets and the service: with [extras] it stops at
    [assert extras is None], without them at the construction of the request
    of its first stage, whose keyword [extras_struct] is no field of
    [Request]. *)
Theorem transform_chained_path_never_dispatches (env : Env) (ctx : Context)
    (im : Image) (images : list Image) (p1 p2 : TransformParameters)
    (ps : list TransformParameters) (extras : option Struct) (w : World) :
  _debug_no_chains ctx = false ->
  transform env ctx (im :: images) (ParamList (p1 :: p2 :: ps)) extras w =
  (Raise (match extras with
          | Some _ => AssertionError
          | None => ValueError "Protocol message Request has no field extras_struct"
          end), w).
Proof. apply transform_chained_path_raises. Qed.

Lemma transform_chained_path_never_dispatches_witness :
  _debug_no_chains default_context = false
  /\ transform image_env default_context [Pixels "cat"; Pixels "dog"]
       (ParamList [ColorAdjust "a"; DepthCalc "b"; Resample "c"]) None empty_world =
     (Raise (ValueError "Protocol message Request has no field extras_struct"),
      empty_world).
Proof.
  split; [reflexivity|].
  apply (transform_chained_path_never_dispatches image_env default_context
           (Pixels "cat") [Pixels "dog"] (ColorAdjust "a") (DepthCalc "b")
           [Resample "c"] None empty_world).
  reflexivity.
Defined.

(** X18. The transforms check their arguments before they dispatch
    anything: [transform] and [transform_3d] fail their first assertion on an
    empty list of images, and [transform] fails on [params[0]] when the list
    of parameter sets is empty, in either mode and whatever [extras] is; the
    world is left as it was. *)
Theorem transforms_reject_empty_arguments (env : Env) (ctx : Context)
    (params : TransformArg) (im : Image) (images : list Image)
    (depth_calc transform_op : TransformParameters) (extras : option Struct)
    (w : World) :
  transform env ctx [] params extras w = (Raise AssertionError, w)
  /\ transform_3d env ctx [] depth_calc transform_op extras w = (Raise AssertionError, w)
  /\ transform env ctx (im :: images) (ParamList []) extras w = (Raise IndexError, w).
Proof. by split_and!. Qed.

(** * File names: [utils.truncate_fit] *)

Lemma length_append (a b : string) :
  String.length (String.append a b) = (String.length a + String.length b)%nat.
Proof.
  induction a as [|c a IH]; [done|].
  change (String.append (String c a) b) with (String c (String.append a b)).
  cbn [String.length]. by rewrite IH.
Qed.

Lemma length_substring_0 (n : nat) (s : string) :
  String.length (substring 0 n s) = Nat.min n (String.length s).
Proof.
  revert n. induction s as [|c s IH]; intros [|n]; cbn; try done.
  by rewrite IH.
Qed.

Lemma substring_0_all (n : nat) (s : string) :
  (String.length s <= n)%nat -> substring 0 n s = s.
Proof.
  revert n. induction s as [|c s IH]; intros [|n] Hn; cbn in *; try done; try lia.
  rewrite IH by lia. done.
Qed.

Lemma length_slice_to (s : string) (stop : Z) :
  Z.of_nat (String.length (slice_to s stop)) =
  if stop <? 0 then Z.max 0 (Z.of_nat (String.length s) + stop)
  else Z.min stop (Z.of_nat (String.length s)).
Proof.
  unfold slice_to. rewrite length_substring_0.
  destruct (stop <? 0) eqn:Hneg; [apply Z.ltb_lt in Hneg|apply Z.ltb_ge in Hneg]; lia.
Qed.

(** X19. When the fixed fields (prefix, [_ts_idx], extension) leave room,
    that is when they take fewer than [max] characters, the name built by
    [truncate_fit] is shorter than [max]; it starts with the prefix, ends
    with [_ts_idx] and the extension, and holds the whole prompt whenever the
    untruncated name is shorter than [max]. *)
Theorem truncate_fit_within_budget (prefix prompt ext : string) (ts idx max : Z) :
  fixed_length prefix ext ts idx < max ->
  Z.of_nat (String.length (truncate_fit prefix prompt ext ts idx max)) < max
  /\ (exists kept,
        truncate_fit prefix prompt ext ts idx max =
          String.append prefix (String.append kept
            (String.append (String.append "_" (String.append (str_int ts)
                              (String.append "_" (str_int idx)))) ext))
        /\ String.prefix kept prompt = true)
  /\ (fixed_length prefix ext ts idx + Z.of_nat (String.length prompt) < max ->
      truncate_fit prefix prompt ext ts idx max =
        String.append prefix (String.append prompt
          (String.append (String.append "_" (String.append (str_int ts)
                            (String.append "_" (str_int idx)))) ext))).
Proof.
  unfold fixed_length, truncate_fit. cbn zeta.
  set (post := String.append "_" (String.append (str_int ts)
                 (String.append "_" (str_int idx)))).
  set (budget := max - Z.of_nat (String.length prefix) - Z.of_nat (String.length post)
                 - (Z.of_nat (String.length ext) + 1)).
  intros Hroom. split_and!.
  - rewrite !length_append, !Nat2Z.inj_add, length_slice_to.
    replace (budget <? 0) with false by (symmetry; apply Z.ltb_ge; lia). lia.
  - exists (slice_to prompt budget). split; [done|].
    unfold slice_to. generalize (Z.to_nat (if budget <? 0
      then Z.max 0 (Z.of_nat (String.length prompt) + budget) else budget)).
    intros n. revert n. induction prompt as [|c p IH]; intros [|n]; cbn; try done.
    rewrite IH. by destruct (Ascii.ascii_dec c c).
  - intros Hfits. do 2 f_equal. unfold slice_to.
    replace (budget <? 0) with false by (symmetry; apply Z.ltb_ge; lia).
    apply substring_0_all. lia.
Qed.

Lemma truncate_fit_within_budget_witness :
  Z.of_nat (String.length (truncate_fit "img_" "a very long prompt" ".png" 17 3 20)) < 20
  /\ (exists kept,
        truncate_fit "img_" "a very long prompt" ".png" 17 3 20 =
          String.append "img_" (String.append kept
            (String.append (String.append "_" (String.append (str_int 17)
                              (String.append "_" (str_int 3)))) ".png"))
        /\ String.prefix kept "a very long prompt" = true)
  /\ (fixed_length "img_" ".png" 17 3 + Z.of_nat (String.length "a very long prompt") < 20 ->
      truncate_fit "img_" "a very long prompt" ".png" 17 3 20 =
        String.append "img_" (String.append "a very long prompt"
          (String.append (String.append "_" (String.append (str_int 17)
                            (String.append "_" (str_int 3)))) ".png"))).
Proof.
  apply (truncate_fit_within_budget "img_" "a very long prompt" ".png" 17 3 20).
  vm_compute. reflexivity.
Defined.

Example truncate_fit_sample :
  truncate_fit "img_" "a very long prompt" ".png" 17 3 20 = "img_a very_17_3.png".
Proof. reflexivity. Qed.

(** X20. When the fixed fields alone take [max] characters or more, the
    budget of the prompt is negative and the slice [prompt[:budget]] drops
    that many characters from the end of the prompt instead of dropping the
    prompt: the name is longer than [max] by one character less than the
    prompt has left, and a prompt longer than the excess is still part of
    it. *)
Theorem truncate_fit_over_budget (prefix prompt ext : string) (ts idx max : Z) :
  max <= fixed_length prefix ext ts idx ->
  let excess := fixed_length prefix ext ts idx + 1 - max in
  Z.of_nat (String.length (truncate_fit prefix prompt ext ts idx max)) =
    fixed_length prefix ext ts idx
    + Z.max 0 (Z.of_nat (String.length prompt) - excess).
Proof.
  unfold fixed_length, truncate_fit. cbn zeta.
  set (post := String.append "_" (String.append (str_int ts)
                 (String.append "_" (str_int idx)))).
  intros Hover.
  rewrite !length_append, !Nat2Z.inj_add, length_slice_to.
  match goal with |- context [?b <? 0] =>
    replace (b <? 0) with true by (symmetry; apply Z.ltb_lt; lia) end.
  lia.
Qed.

Lemma truncate_fit_over_budget_witness :
  Z.of_nat (String.length (truncate_fit "a_long_prefix_" "a golden sunset over the sea"
                             ".png" 17 3 10)) =
    fixed_length "a_long_prefix_" ".png" 17 3
    + Z.max 0 (Z.of_nat (String.length "a golden sunset over the sea")
               - (fixed_length "a_long_prefix_" ".png" 17 3 + 1 - 10)).
Proof.
  apply (truncate_fit_over_budget "a_long_prefix_" "a golden sunset over the sea"
           ".png" 17 3 10).
  vm_compute. discriminate.
Defined.

Example truncate_fit_over_budget_sample :
  truncate_fit "a_long_prefix_" "a golden sunset over the sea" ".png" 17 3 10
  = "a_long_prefix_a golden sunse_17_3.png".
Proof. reflexivity. Qed.

(** * Composition of the orchestrator with its callers *)

Lemma run_request_first_success env ctx endpoint request response w :
  0 <= _max_retries ctx ->
  engine_matches endpoint request = true ->
  stub env (rpc_count w) request = RpcStream response ->
  obfuscation (_process_response response) = None ->
  _run_request env ctx endpoint request w =
    (Ok (_process_response response), log_call request w).
Proof.
  intros Hmax Heng Hstub Hobf. unfold _run_request.
  replace (_max_retries ctx + 1) with (Z.of_nat (Z.to_nat (_max_retries ctx)) + 1) by lia.
  rewrite range_snoc.
  destruct (map Z.of_nat (seq 0 (Z.to_nat (_max_retries ctx))) ++
            [Z.of_nat (Z.to_nat (_max_retries ctx))]) as [|attempt rest] eqn:Hlist.
  { by destruct (map Z.of_nat (seq 0 (Z.to_nat (_max_retries ctx)))). }
  cbn [run_attempts]. rewrite Heng, Hstub. cbn [negb]. cbn zeta. by rewrite Hobf.
Qed.


Lemma filter_some_of_kind kind (l : list Artifact) :
  existsb (of_kind kind) l = true -> List.filter (of_kind kind) l <> [].
Proof.
  induction l as [|a l IH]; [done|]. cbn.
  destruct (of_kind kind a); [done|]. exact IH.
Qed.

Lemma of_kind_filter_type kind (l : list Artifact) a rest :
  List.filter (of_kind kind) l = a :: rest -> artifact_type a = kind.
Proof.
  intros H. assert (Hin : In a (List.filter (of_kind kind) l)) by (rewrite H; by left).
  apply List.filter_In in Hin as [_ Hk]. by apply bool_decide_eq_true in Hk.
Qed.

(** X21. [AssetServiceBackend.put_image_asset], when the service answers
    the PUT without an obfuscating classification: the id returned is the
    text of the first text artifact of the answer, whatever else the answer
    holds and whatever [asset_id] was passed; an answer without a text
    artifact makes it fail with [Exception].  Exactly one call is
    dispatched. *)
Theorem asset_service_put_image_answer (env : Env) (ctx : Context)
    (self : ProjectRecord) (im : Image) (u : AssetUse) (asset_id : option string)
    (response : list Answer) (w : World) :
  let rq := Single (AssetServiceBackend.asset_request ctx
                      (image_to_prompt env im ARTIFACT_IMAGE) ASSET_PUT self u) in
  0 <= _max_retries ctx ->
  stub env (rpc_count w) rq = RpcStream response ->
  obfuscation (_process_response response) = None ->
  AssetServiceBackend.put_image_asset env ctx self im u asset_id w =
    (match List.filter (of_kind ARTIFACT_TEXT) (stream_artifacts response) with
     | a :: _ => Ok (text a)
     | [] => Raise (Exception "Failed to store image asset")
     end, log_call rq w).
Proof.
  intros rq Hmax Hstub Hobf.
  unfold AssetServiceBackend.put_image_asset. fold rq.
  unfold mbind at 1. unfold M_bind at 1.
  rewrite (run_request_first_success env ctx (_asset ctx) rq response w); try done.
  2: { cbn. by rewrite bool_decide_eq_true_2. }
  unfold first_of. rewrite process_response_lookup.
  destruct (existsb (of_kind ARTIFACT_TEXT) (stream_artifacts response)) eqn:Hex.
  - pose proof (filter_some_of_kind _ _ Hex) as Hne.
    destruct (List.filter (of_kind ARTIFACT_TEXT) (stream_artifacts response))
      as [|a rest] eqn:Hf; [done|].
    apply of_kind_filter_type in Hf. cbn [flat_map].
    unfold decode_artifact at 1. rewrite Hf. done.
  - by rewrite (filter_none_of_kind _ _ Hex).
Qed.

Lemma asset_service_put_image_answer_witness :
  AssetServiceBackend.put_image_asset (storing_env (fun _ => false)) default_context
    sample_project (Pixels "cat") ASSET_USE_PROJECT (Some "ignored") empty_world =
    (match List.filter (of_kind ARTIFACT_TEXT)
             (stream_artifacts (text_answer "proj1/asset-1")) with
     | a :: _ => Ok (text a)
     | [] => Raise (Exception "Failed to store image asset")
     end,
     log_call (Single (AssetServiceBackend.asset_request default_context
                 (image_to_prompt (storing_env (fun _ => false)) (Pixels "cat")
                    ARTIFACT_IMAGE) ASSET_PUT sample_project ASSET_USE_PROJECT))
              empty_world).
Proof.
  apply (asset_service_put_image_answer (storing_env (fun _ => false)) default_context
           sample_project (Pixels "cat") ASSET_USE_PROJECT (Some "ignored")
           (text_answer "proj1/asset-1") empty_world).
  - simpl. lia.
  - reflexivity.
  - reflexivity.
Defined.

(** ** The non-chained path of [transform_and_generate] *)

Lemma splice_requests_trace env ctx im extras (t : nat -> Tensor)
    (resp : nat -> list Answer) (ps : list TransformParameters) :
  forall a w,
    0 <= _max_retries ctx ->
    (forall i rq, (i < length ps)%nat ->
       stub env (rpc_count w + i) rq = RpcStream (resp (a + i)%nat)) ->
    (forall i, (a <= i < a + length ps)%nat ->
       obfuscation (_process_response (resp i)) = None
       /\ exists rest, _process_response (resp i) !! ARTIFACT_TENSOR
                       = Some (DTensor (t i) :: rest)) ->
    splice_requests env ctx (map (tensor_request env ctx im extras) ps)
      (match a with O => None | S j => Some (t j) end) w =
    (Ok (match (a + length ps)%nat with O => None | S j => Some (t j) end),
     {| rpc_count := rpc_count w + length ps;
        trace := trace w ++
          imap (fun i p => EvCall (rpc_count w + i)
                             (Single (spliced_request env ctx im extras t (a + i) p))) ps;
        fs := fs w; uuid_count := uuid_count w |}).
Proof.
  induction ps as [|p ps IH]; intros a w Hmax Hstub Hresp.
  - cbn. rewrite !Nat.add_0_r, app_nil_r. by destruct w.
  - cbn [map splice_requests].
    set (rq := match match a with O => None | S j => Some (t j) end with
               | Some t0 => replace_last_prompt (tensor_request env ctx im extras p)
                              (tensor_to_prompt t0)
               | None => tensor_request env ctx im extras p
               end).
    assert (Hrq : rq = spliced_request env ctx im extras t a p) by (by destruct a).
    unfold mbind at 1. unfold M_bind at 1.
    destruct (Hresp a ltac:(cbn; lia)) as [Hobf [rest Hten]].
    pose proof (Hstub 0%nat (Single rq) ltac:(cbn; lia)) as Hs0.
    rewrite !Nat.add_0_r in Hs0.
    rewrite (run_request_first_success env ctx (_transform ctx) (Single rq)
               (resp a) w Hmax); try done.
    2: { cbn. rewrite Hrq. destruct a; cbn; by rewrite bool_decide_eq_true_2. }
    unfold mbind at 1. unfold M_bind at 1.
    unfold first_tensor, getitem, first_item. unfold mbind at 1. unfold M_bind at 1.
    unfold mbind at 1. unfold M_bind at 1.
    rewrite Hten. cbn [mret M_ret decoded_text].
    rewrite (IH (S a) (log_call (Single rq) w)); try done.
    + cbn [log_call rpc_count trace fs uuid_count length].
      f_equal; [by rewrite <- plus_n_Sm|].
      f_equal; [lia|]. rewrite <- app_assoc. f_equal. cbn [imap app].
      rewrite !Nat.add_0_r, Hrq. f_equal. apply imap_ext. intros i x _.
      unfold compose.
      replace (S (rpc_count w) + i)%nat with (rpc_count w + S i)%nat by lia.
      replace (S a + i)%nat with (a + S i)%nat by lia. reflexivity.
    + intros i rq' Hi. cbn [log_call rpc_count].
      replace (S (rpc_count w) + i)%nat with (rpc_count w + S i)%nat by lia.
      rewrite Hstub by (cbn; lia). do 2 f_equal. lia.
    + intros i Hi. apply Hresp. cbn. lia.
Qed.

(** X22. The non-chained path of [transform_and_generate] on [k >= 1]
    parameter sets, when the service answers every call, the transform calls
    with a tensor: [k + 1] calls are dispatched in order; the first transform
    request carries the image, each later one carries instead of it the
    tensor that came back from the stage before; the generation request is
    dispatched last with the last tensor appended to its prompts, and the
    first image of its answer is returned. *)
Theorem transform_and_generate_splices (env : Env) (ctx : Context) (im : Image)
    (p : TransformParameters) (ps : list TransformParameters)
    (generate_request : Request) (extras : option Struct)
    (t : nat -> Tensor) (resp : nat -> list Answer) (final : list Answer) (w : World) :
  let k := length (p :: ps) in
  let last_request :=
    Single (append_prompt generate_request (tensor_to_prompt (t (k - 1)%nat))) in
  _debug_no_chains ctx = true ->
  0 <= _max_retries ctx ->
  endpoint_engine_id (_generate ctx) = engine_id generate_request ->
  (forall i rq, (i < k)%nat -> stub env (rpc_count w + i) rq = RpcStream (resp i)) ->
  (forall i, (i < k)%nat ->
     obfuscation (_process_response (resp i)) = None
     /\ exists rest, _process_response (resp i) !! ARTIFACT_TENSOR
                     = Some (DTensor (t i) :: rest)) ->
  stub env (rpc_count w + k) last_request = RpcStream final ->
  obfuscation (_process_response final) = None ->
  exists w',
    transform_and_generate env ctx im (p :: ps) generate_request extras w =
      ((first_image (_process_response final) w').1, w')
    /\ trace w' = trace w ++
         imap (fun i q => EvCall (rpc_count w + i)
                            (Single (spliced_request env ctx im extras t i q))) (p :: ps)
         ++ [EvCall (rpc_count w + k) last_request]
    /\ (forall i q, prompt (spliced_request env ctx im extras t (S i) q)
                    = [tensor_to_prompt (t i)]).
Proof.
  intros k last_request Hdebug Hmax Heng Hstub Hresp Hfinal Hobf.
  unfold transform_and_generate. rewrite Hdebug.
  unfold mbind at 1. unfold M_bind at 1.
  unfold mbind at 1. unfold M_bind at 1.
  rewrite (splice_requests_trace env ctx im extras t resp (p :: ps) 0%nat w Hmax);
    [|intros i rq Hi; by apply Hstub|intros i Hi; apply Hresp; fold k; lia].
  cbn [Nat.add]. fold k.
  replace (match k with O => None | S j => Some (t j) end)
    with (Some (t (k - 1)%nat)) by (unfold k; cbn; by rewrite Nat.sub_0_r).
  set (w1 := {| rpc_count := rpc_count w + k; trace := _; fs := fs w;
                uuid_count := uuid_count w |}).
  fold last_request.
  assert (Hrun : _run_request env ctx (_generate ctx) last_request w1 =
                 (Ok (_process_response final), log_call last_request w1)).
  { apply run_request_first_success; try done.
    cbn. by rewrite bool_decide_eq_true_2. }
  rewrite Hrun.
  exists (log_call last_request w1). split_and!.
  - by destruct (first_image (_process_response final) (log_call last_request w1))
      as [r w2] eqn:Hfirst;
      unfold first_image, mbind, M_bind, getitem, first_item, mret, M_ret, raise in Hfirst;
      repeat case_match; simplify_eq.
  - cbn. by rewrite <- app_assoc.
  - done.
Qed.

Lemma transform_and_generate_splices_witness :
  let env := tensor_then_image_env in
  let ctx := with_debug default_context true in
  let last_request :=
    Single (append_prompt sample_generate_request (tensor_to_prompt "t")) in
  exists w',
    transform_and_generate env ctx (Pixels "cat") [ColorAdjust "a"; Resample "b"]
      sample_generate_request None empty_world =
      ((first_image (_process_response
          [{| artifacts := [{| artifact_type := ARTIFACT_IMAGE; mime := "";
                               uuid := ""; data := Binary "out" |}] |}]) w').1, w')
    /\ trace w' = trace empty_world ++
         imap (fun i q => EvCall (rpc_count empty_world + i)
                 (Single (spliced_request env ctx (Pixels "cat") None (fun _ => "t") i q)))
              [ColorAdjust "a"; Resample "b"]
         ++ [EvCall (rpc_count empty_world + 2) last_request]
    /\ (forall i q, prompt (spliced_request env ctx (Pixels "cat") None (fun _ => "t") (S i) q)
                    = [tensor_to_prompt "t"]).
Proof.
  intros env ctx last_request.
  apply (transform_and_generate_splices env ctx (Pixels "cat") (ColorAdjust "a")
           [Resample "b"] sample_generate_request None (fun _ => "t")
           (fun _ => [{| artifacts := [{| artifact_type := ARTIFACT_TENSOR; mime := "";
                                          uuid := ""; data := TensorData "t" |}] |}])
           [{| artifacts := [{| artifact_type := ARTIFACT_IMAGE; mime := "";
                                uuid := ""; data := Binary "out" |}] |}] empty_world).
  - reflexivity.
  - simpl. lia.
  - reflexivity.
  - intros i rq Hi. cbn in Hi.
    destruct i as [|[|i]]; [reflexivity|reflexivity|lia].
  - intros i Hi. split; [reflexivity|]. by eexists.
  - reflexivity.
  - reflexivity.
Defined.
